(** * cost-optimizer-operator: metrics collector, recommendation analyzer
      and reconciliation controller, embedded from the Go sources

    - [internal/metrics/collector.go]  (Collector)
    - the analyzer of package [metrics] (Analyzer)
    - the controller of package [controller] (Reconcile, addCondition)
    - [api/v1/resourceoptimizer_types.go] (policy and status types)

    Integers are [Z] with the int64 wrap-around written out; [float64] is
    IEEE-754 binary64 as specified by [SpecFloat] (precision 53, emax 1024),
    so every run of the analyzer can be evaluated. *)

From Stdlib Require Import ZArith QArith String Ascii List Bool Lia.
From Stdlib Require Import SpecFloat.
From Stdlib Require Import Permutation.
Import ListNotations.
Local Open Scope Z_scope.

(* ===================================================================== *)
(** * Machine integers *)
(* ===================================================================== *)

Module Int64.
Definition min_int : Z := - 2 ^ 63.
Definition max_int : Z := 2 ^ 63 - 1.

Definition in_range (z : Z) : bool := (min_int <=? z) && (z <=? max_int).

(** Two's complement wrap-around of an arbitrary integer. *)
Definition wrap (z : Z) : Z := (z + 2 ^ 63) mod 2 ^ 64 - 2 ^ 63.

(** Go's [+] and [/] on int64: addition wraps, division truncates
    toward zero. *)
Definition add (a b : Z) : Z := wrap (a + b).
Definition quot (a b : Z) : Z := wrap (Z.quot a b).
End Int64.

Module Int32.
Definition min_int : Z := - 2 ^ 31.
Definition max_int : Z := 2 ^ 31 - 1.
Definition in_range (z : Z) : bool := (min_int <=? z) && (z <=? max_int).
End Int32.

(* ===================================================================== *)
(** * float64 *)
(* ===================================================================== *)

Module Float64.
Definition prec : Z := 53.
Definition emax : Z := 1024.

Definition t : Type := spec_float.

Definition zero : t := S754_zero false.

(** [float64(i)] for an integer [i]: rounded to the nearest float, ties
    to even. *)
Definition of_int (z : Z) : t := binary_normalize prec emax z 0 false.

Definition add : t -> t -> t := SFadd prec emax.
Definition sub : t -> t -> t := SFsub prec emax.
Definition mul : t -> t -> t := SFmul prec emax.
Definition div : t -> t -> t := SFdiv prec emax.

Definition ltb : t -> t -> bool := SFltb.
Definition eqb : t -> t -> bool := SFeqb.

(** A decimal literal [n/d] of the source text: the exact constant
    rounded once to float64. *)
Definition decimal (n d : Z) : t := div (of_int n) (of_int d).

Definition is_nan (x : t) : bool :=
  match x with S754_nan => true | _ => false end.

Definition is_pinf (x : t) : bool :=
  match x with S754_infinity false => true | _ => false end.

Definition signbit (x : t) : bool :=
  match x with
  | S754_zero s | S754_infinity s | S754_finite s _ _ => s
  | S754_nan => false
  end.

(** [math.Max]: +Inf wins, then NaN, then the sign of zeros, then [>]. *)
Definition max (x y : t) : t :=
  if is_pinf x || is_pinf y then S754_infinity false
  else if is_nan x || is_nan y then S754_nan
  else if eqb x zero && eqb x y then (if signbit x then y else x)
  else if ltb y x then x
  else y.

(** [math.Pow(x, 2)]: the library squares the fraction of [x] once and
    scales by a power of two, which is the rounded product [x * x]. *)
Definition pow2 (x : t) : t := mul x x.

(** The integer part of a finite float, rounding toward zero. *)
Definition truncate (x : t) : option Z :=
  match x with
  | S754_zero _ => Some 0
  | S754_finite s m e =>
      Some (cond_Zopp s
              (match e with
               | Zneg p => Z.pos m / 2 ^ Z.pos p
               | _ => Z.pos m * 2 ^ e
               end))
  | S754_infinity _ | S754_nan => None
  end.

(** [int64(x)]: truncation toward zero.  The language leaves the result
    open when the value does not fit; the amd64 conversion instruction
    (CVTTSD2SQ) then yields the "integer indefinite" value [-2^63], also
    for NaN and the infinities. *)
Definition to_int64 (x : t) : Z :=
  match truncate x with
  | Some z => if Int64.in_range z then z else Int64.min_int
  | None => Int64.min_int
  end.

(** [int32(x)], same convention (CVTTSD2SL yields [-2^31]). *)
Definition to_int32 (x : t) : Z :=
  match truncate x with
  | Some z => if Int32.in_range z then z else Int32.min_int
  | None => Int32.min_int
  end.

(** The float literals of the analyzer and the controller. *)
Definition c1_0 : t := Eval vm_compute in of_int 1.
Definition c1_1 : t := Eval vm_compute in decimal 11 10.
Definition c1_2 : t := Eval vm_compute in decimal 12 10.
Definition c1_5 : t := Eval vm_compute in decimal 15 10.
Definition c100 : t := Eval vm_compute in of_int 100.
Definition c500 : t := Eval vm_compute in of_int 500.
Definition c0_3 : t := Eval vm_compute in decimal 3 10.
Definition c0_5 : t := Eval vm_compute in decimal 5 10.
Definition c0_6 : t := Eval vm_compute in decimal 6 10.
Definition c0_7 : t := Eval vm_compute in decimal 7 10.
Definition c0_9 : t := Eval vm_compute in decimal 9 10.
End Float64.

(* ===================================================================== *)
(** * Time *)
(* ===================================================================== *)

(** [time.Time] / [metav1.Time]: an instant on the wall clock. *)
Definition Time : Type := Z.

(** [time.Duration], counted in minutes. *)
Definition Duration : Type := Z.

(* ===================================================================== *)
(** * resource.Quantity *)
(* ===================================================================== *)

(** A [resource.Quantity] is an exact decimal number whose finest unit is
    the nano (10^-9); it is kept here as its count of nano-units.  The
    display format carried by the Go value plays no role in the
    arithmetic.  Usage readings have the magnitudes the library holds in
    its int64 representation, where copying a Quantity yields an
    independent value and the scaled values fit an int64.  A bound
    parsed from a policy string can be larger: [MilliValueAs] gives the
    int64 that [MilliValue()] returns for it, whatever its magnitude. *)
Module Quantity.
Definition t : Type := Z.

Definition zero : t := 0.

(** [q.Add(y)]: exact. *)
Definition Add (q y : t) : t := q + y.

(** Scaling to a coarser unit rounds away from zero. *)
Definition scale_up (q unit : Z) : Z :=
  Z.sgn q * ((Z.abs q + unit - 1) / unit).

(** [q.MilliValue()] and [q.Value()] where the result fits an int64:
    the exact count of milli-units and of units, rounded up. *)
Definition MilliValue (q : t) : Z := scale_up q (10 ^ 6).
Definition Value (q : t) : Z := scale_up q (10 ^ 9).

(** [resource.NewMilliQuantity(v, _)] and [resource.NewQuantity(v, _)]. *)
Definition NewMilliQuantity (v : Z) : t := v * 10 ^ 6.
Definition NewQuantity (v : Z) : t := v * 10 ^ 9.

(** Decimal digits of a policy string. *)
Definition digit (c : ascii) : option Z :=
  let n := Z.of_nat (nat_of_ascii c) in
  if (48 <=? n) && (n <=? 57) then Some (n - 48) else None.

Fixpoint digits (acc : Z) (s : string) : Z * string :=
  match s with
  | EmptyString => (acc, EmptyString)
  | String c rest =>
      match digit c with
      | Some d => digits (10 * acc + d) rest
      | None => (acc, s)
      end
  end.

(** [resource.ParseQuantity] on the strings the CRD admits for the CPU
    bounds, [^([0-9]+m|[0-9]+)$]: a count of cores, or of milli-cores
    with the suffix [m].  Anything else is outside the admitted
    pattern and is not parsed. *)
Definition ParseQuantity (s : string) : option t :=
  match s with
  | EmptyString => None
  | String c _ =>
      match digit c with
      | None => None
      | Some _ =>
          match digits 0 s with
          | (n, EmptyString) => Some (NewQuantity n)
          | (n, String "m" EmptyString) => Some (NewMilliQuantity n)
          | _ => None
          end
      end
  end.

(** How the library holds a parsed quantity: a number of at most 18
    significant digits in an int64 with a decimal scale, a longer one
    in a big decimal. *)
Inductive held : Type := InInt64 | InDec.

Definition parsedAs (s : string) : held :=
  if fst (digits 0 s) <? 10 ^ 18 then InInt64 else InDec.

(** [q.MilliValue()] as the int64 it returns for a quantity held as [h]:
    the exact count of milli-units where that fits.  Where it does not,
    scaling the int64 representation reports an overflow, which
    [MilliValue] drops together with the value, returning 0; the big
    decimal is scaled exactly and its low 64 bits are returned. *)
Definition MilliValueAs (h : held) (q : t) : Z :=
  let v := MilliValue q in
  if Int64.in_range v then v
  else
    match h with
    | InInt64 => 0
    | InDec => Int64.wrap v
    end.
End Quantity.

(* ===================================================================== *)
(** * api/v1: policy *)
(* ===================================================================== *)

Record CPUPolicy : Type := {
  Min : string;
  Max : string;
  TargetUtilization : Z            (* int32, validated 1..100 *)
}.

Record MemoryPolicy : Type := {
  BufferPercent : Z                (* int32, validated 0..100 *)
}.

Record Policy : Type := {
  Cpu : CPUPolicy;
  Memory : MemoryPolicy
}.

(** The validation pattern of [Min] and [Max],
    [^([0-9]+m|[0-9]+)$]: one or more digits, then at most one [m]. *)
Definition isDigit (c : ascii) : bool :=
  match Quantity.digit c with
  | Some _ => true
  | None => false
  end.

(** [[0-9]*m?$]. *)
Fixpoint digitsThenSuffix (s : string) : bool :=
  match s with
  | EmptyString => true
  | String c rest =>
      if isDigit c then digitsThenSuffix rest
      else
        match rest with
        | EmptyString => Ascii.eqb c "m"
        | String _ _ => false
        end
  end.

Definition matchesCPUPattern (s : string) : bool :=
  match s with
  | EmptyString => false
  | String c rest => isDigit c && digitsThenSuffix rest
  end.

(* ===================================================================== *)
(** * internal/metrics: data *)
(* ===================================================================== *)

Record Deployment : Type := {
  DeploymentNamespace : string;
  DeploymentName : string;
  Selector : string                (* the formatted label selector *)
}.

Record UsageData : Type := {
  CPUUsage : Quantity.t;
  MemoryUsage : Quantity.t;
  Timestamp : Time
}.

Record WorkloadMetrics : Type := {
  WorkloadDeployment : Deployment;
  Usage : list UsageData
}.

(* ===================================================================== *)
(** * Strings built by formatting, errors, panics *)
(* ===================================================================== *)

(** The text of a message.  [Sprintf] keeps the format string and the
    arguments of a [fmt.Sprintf] call; the rendering of numbers and
    quantities is left to the library. *)
#[warnings="-register-all"]
Inductive Text : Type :=
| Lit (s : string)
| ShowInt (z : Z)
| ShowFloat (x : Float64.t)
| ShowQuantity (q : Quantity.t)
| Sprintf (format : string) (args : list Text).

(** Go [error] values as the operator meets them. *)
Inductive error : Type :=
| ErrorString (msg : string)                 (* [fmt.Errorf] without [%w] *)
| NotFoundError (msg : string)               (* API status error, reason NotFound *)
| WrapError (msg : string) (cause : error).  (* [fmt.Errorf] with [%w] *)

(** [err.Error()]. *)
Definition Error (e : error) : string :=
  match e with
  | ErrorString msg | NotFoundError msg | WrapError msg _ => msg
  end.

(** [errors.Unwrap(err)]. *)
Definition Unwrap (e : error) : option error :=
  match e with
  | WrapError _ cause => Some cause
  | _ => None
  end.

(** [fmt.Errorf(prefix + "%w", err)]. *)
Definition Errorf_w (prefix : string) (err : error) : error :=
  WrapError (prefix ++ Error err) err.

(** [k8serrors.IsNotFound], which looks through wrapped errors. *)
Fixpoint IsNotFound (e : error) : bool :=
  match e with
  | NotFoundError _ => true
  | WrapError _ cause => IsNotFound cause
  | ErrorString _ => false
  end.

(** [client.IgnoreNotFound]. *)
Definition IgnoreNotFound (e : error) : option error :=
  if IsNotFound e then None else Some e.

(** A Go pair [(value, error)]. *)
Inductive result (A : Type) : Type :=
| Ok (a : A)
| Err (e : error).
Arguments Ok {A} a.
Arguments Err {A} e.

(** A call either returns or panics. *)
Inductive exec (A : Type) : Type :=
| Done (a : A)
| Panic.
Arguments Done {A} a.
Arguments Panic {A}.

(* ===================================================================== *)
(** * The cluster seen by one pass, and the effects of a pass *)
(* ===================================================================== *)

Record ContainerMetrics : Type := {
  ContainerName : string;
  ContainerUsage : list (string * Quantity.t)   (* corev1.ResourceList *)
}.

Record PodMetrics : Type := {
  PodName : string;
  PodTimestamp : Time;
  Containers : list ContainerMetrics
}.

(** [usage[name]] on a Go map: the zero quantity when the key is absent. *)
Fixpoint lookupUsage (usage : list (string * Quantity.t)) (name : string)
  : Quantity.t :=
  match usage with
  | [] => Quantity.zero
  | (k, q) :: rest => if String.eqb k name then q else lookupUsage rest name
  end.

Inductive ConditionStatus : Type :=
| ConditionTrue
| ConditionFalse
| ConditionUnknown.

Definition ConditionStatus_eqb (a b : ConditionStatus) : bool :=
  match a, b with
  | ConditionTrue, ConditionTrue
  | ConditionFalse, ConditionFalse
  | ConditionUnknown, ConditionUnknown => true
  | _, _ => false
  end.

(** [metav1.Condition]. *)
Record Condition : Type := {
  Type_ : string;
  Status : ConditionStatus;
  Reason : string;
  Message : Text;
  LastTransitionTime : Time
}.

Record CPURecommendation : Type := {
  CPURecRequest : Text;
  CPURecLimit : Text
}.

Record MemoryRecommendation : Type := {
  MemoryRecRequest : Text;
  MemoryRecLimit : Text
}.

Record ResourceRecommendation : Type := {
  CPU : CPURecommendation;
  MemoryRec : MemoryRecommendation;
  Confidence : Z;                   (* int32, declared 0..100 *)
  RecommendationReason : Text;
  GeneratedAt : Time
}.

Record ResourceOptimizerStatus : Type := {
  Conditions : list Condition;
  CurrentRecommendation : option ResourceRecommendation;
  LastOptimized : option Time
}.

Record TargetRef : Type := {
  TargetKind : string;
  TargetName : string;
  TargetNamespace : string
}.

Record ResourceOptimizerSpec : Type := {
  SpecTargetRef : TargetRef;
  SpecPolicy : Policy
}.

Record ResourceOptimizer : Type := {
  Spec : ResourceOptimizerSpec;
  OptimizerStatus : ResourceOptimizerStatus
}.

Record Event : Type := {
  EventType : string;
  EventReason : string;
  EventMessage : Text
}.

(** What the API server, the metrics API and the wall clock answer during
    one pass. *)
Record Cluster : Type := {
  (* [r.Get(ctx, req.NamespacedName, resourceOptimizer)] *)
  getOptimizer : string -> string -> result ResourceOptimizer;
  (* [r.Get(ctx, objKey, existingDeployment)] *)
  getDeployment : string -> string -> result Deployment;
  (* [PodMetricses(namespace).List(ctx, {LabelSelector})] *)
  listPodMetrics : string -> string -> result (list PodMetrics);
  (* [r.Status().Update(ctx, resourceOptimizer)] *)
  statusUpdate : ResourceOptimizer -> option error;
  (* the successive readings of [metav1.Now()] *)
  wallClock : nat -> Time
}.

(** What a pass leaves behind. *)
Record World : Type := {
  clockReads : nat;                               (* readings taken so far *)
  listCalls : nat;                                (* usage queries sent *)
  events : list Event;                            (* events recorded *)
  statusWrites : list ResourceOptimizerStatus     (* statuses persisted *)
}.

Definition M (A : Type) : Type := World -> A * World.

Definition ret {A : Type} (a : A) : M A := fun w => (a, w).

Definition bind {A B : Type} (m : M A) (k : A -> M B) : M B :=
  fun w => let (a, w') := m w in k a w'.

Declare Scope go_scope.
Delimit Scope go_scope with go.
Notation "x <- m ;; k" := (bind m (fun x => k))
  (at level 61, m at next level, right associativity) : go_scope.
Notation "m ;;; k" := (bind m (fun _ => k))
  (at level 61, right associativity) : go_scope.
Local Open Scope go_scope.

(** [metav1.Now()]. *)
Definition Now (cl : Cluster) : M Time :=
  fun w =>
    (wallClock cl (clockReads w),
     {| clockReads := S (clockReads w); listCalls := listCalls w;
        events := events w; statusWrites := statusWrites w |}).

(** [r.recorder.Event] / [Eventf]. *)
Definition recordEvent (ev : Event) : M unit :=
  fun w =>
    (tt,
     {| clockReads := clockReads w; listCalls := listCalls w;
        events := events w ++ [ev]; statusWrites := statusWrites w |}).

(** The usage query: one request to the metrics API. *)
Definition List (cl : Cluster) (namespace selector : string)
  : M (result (list PodMetrics)) :=
  fun w =>
    (listPodMetrics cl namespace selector,
     {| clockReads := clockReads w; listCalls := S (listCalls w);
        events := events w; statusWrites := statusWrites w |}).

(* ===================================================================== *)
(** * internal/metrics/collector.go *)
(* ===================================================================== *)

(** The inner loop over the containers of one pod: both accumulators are
    those declared before the outer loop. *)
Definition addContainers (totals : Quantity.t * Quantity.t)
  (containers : list ContainerMetrics) : Quantity.t * Quantity.t :=
  fold_left
    (fun '(totalCPU, totalMemory) container =>
       (Quantity.Add totalCPU (lookupUsage (ContainerUsage container) "cpu"),
        Quantity.Add totalMemory
          (lookupUsage (ContainerUsage container) "memory")))
    containers totals.

(** The outer loop over [podMetrics.Items]; the state is
    [(totalCPU, totalMemory, usageData)]. *)
Definition collectLoop (items : list PodMetrics)
  (init : Quantity.t * Quantity.t * list UsageData)
  : Quantity.t * Quantity.t * list UsageData :=
  fold_left
    (fun '(totals, usageData) podMetric =>
       let '(totalCPU, totalMemory) :=
         addContainers totals (Containers podMetric) in
       (totalCPU, totalMemory,
        usageData ++ [ {| CPUUsage := totalCPU;
                          MemoryUsage := totalMemory;
                          Timestamp := PodTimestamp podMetric |} ]))
    items init.

Definition CollectWorkloadMetrics (cl : Cluster) (deployment : Deployment)
  : M (result WorkloadMetrics) :=
  podMetrics <- List cl (DeploymentNamespace deployment) (Selector deployment) ;;
  match podMetrics with
  | Err err => ret (Err (Errorf_w "failed to get pod metrics: " err))
  | Ok items =>
      let '(_, _, usageData) :=
        collectLoop items (Quantity.zero, Quantity.zero, []) in
      ret (Ok {| WorkloadDeployment := deployment; Usage := usageData |})
  end.

(** [GetAverageUsage(metrics, duration)].  [duration] is a
    [time.Duration], an int64 count of the clock's unit, and instants are
    counted in that unit; [-duration] is int64 negation.  [time.Now()]
    reads the same clock as [metav1.Now()].  The named results
    [cpuAvg, memoryAvg] hold the zero Quantity until they are assigned. *)
Definition GetAverageUsage (cl : Cluster) (metrics : WorkloadMetrics)
  (duration : Z) : M (Quantity.t * Quantity.t) :=
  match Usage metrics with
  | [] => ret (Quantity.zero, Quantity.zero)
  | _ :: _ =>
      now <- Now cl ;;
      let cutoff := now + Int64.wrap (- duration) in
      let validSamples :=
        filter (fun usage => cutoff <? Timestamp usage) (Usage metrics) in
      match validSamples with
      | [] => ret (Quantity.zero, Quantity.zero)
      | _ :: _ =>
          let '(totalCPU, totalMemory) :=
            fold_left
              (fun '(totalCPU, totalMemory) sample =>
                 (Int64.add totalCPU (Quantity.MilliValue (CPUUsage sample)),
                  Int64.add totalMemory (Quantity.Value (MemoryUsage sample))))
              validSamples (0, 0) in
          let n := Z.of_nat (List.length validSamples) in
          ret (Quantity.NewMilliQuantity (Int64.quot totalCPU n),
               Quantity.NewQuantity (Int64.quot totalMemory n))
      end
  end.

(* ===================================================================== *)
(** * internal/metrics: the analyzer *)
(* ===================================================================== *)

Record Recommendation : Type := {
  CPURequest : Quantity.t;
  CPULimit : Quantity.t;
  MemoryRequest : Quantity.t;
  MemoryLimit : Quantity.t;
  RecReason : Text;
  RecConfidence : Float64.t
}.

Record cpuRecommendation : Type := {
  cpuRequest : Quantity.t;
  cpuLimit : Quantity.t
}.

Record memoryRecommendation : Type := {
  memRequest : Quantity.t;
  memLimit : Quantity.t
}.

(** [resource.MustParse]. *)
Definition MustParse (s : string) : exec Quantity.t :=
  match Quantity.ParseQuantity s with
  | Some q => Done q
  | None => Panic
  end.

(** The scan shared by both calculations:
    [var peak, total int64; for ... { if v > peak { peak = v }; total += v }]. *)
Definition peakTotal (value : UsageData -> Z) (usage : list UsageData)
  : Z * Z :=
  fold_left
    (fun '(peak, total) u =>
       let v := value u in
       ((if v >? peak then v else peak), Int64.add total v))
    usage (0, 0).

Definition cpuMilli (u : UsageData) : Z := Quantity.MilliValue (CPUUsage u).
Definition memBytes (u : UsageData) : Z := Quantity.Value (MemoryUsage u).

Definition calculateCPURecommendation (metrics : WorkloadMetrics)
  (policy : CPUPolicy) : exec (cpuRecommendation * Text) :=
  let '(peak, total) := peakTotal cpuMilli (Usage metrics) in
  let n := Z.of_nat (List.length (Usage metrics)) in
  if n =? 0 then Panic (* integer divide by zero *) else
  let avg := Int64.quot total n in
  let targetCPU :=
    Float64.to_int64
      (Float64.div (Float64.of_int avg)
         (Float64.div (Float64.of_int (TargetUtilization policy))
            Float64.c100)) in
  match MustParse (Min policy) with
  | Panic => Panic
  | Done minCPU =>
  match MustParse (Max policy) with
  | Panic => Panic
  | Done maxCPU =>
      let targetCPU :=
        if targetCPU
           <? Quantity.MilliValueAs (Quantity.parsedAs (Min policy)) minCPU
        then Quantity.MilliValueAs (Quantity.parsedAs (Min policy)) minCPU
        else targetCPU in
      let targetCPU :=
        if targetCPU
           >? Quantity.MilliValueAs (Quantity.parsedAs (Max policy)) maxCPU
        then Quantity.MilliValueAs (Quantity.parsedAs (Max policy)) maxCPU
        else targetCPU in
      let request := Quantity.NewMilliQuantity targetCPU in
      let limitValue :=
        Float64.to_int64
          (Float64.max (Float64.mul (Float64.of_int targetCPU) Float64.c1_5)
             (Float64.mul (Float64.of_int peak) Float64.c1_1)) in
      let limit := Quantity.NewMilliQuantity limitValue in
      let reason :=
        Sprintf "avg=%dm, peak=%dm, target=%dm"
          [ShowInt avg; ShowInt peak; ShowInt targetCPU] in
      Done ({| cpuRequest := request; cpuLimit := limit |}, reason)
  end
  end.

Definition calculateMemoryRecommendation (metrics : WorkloadMetrics)
  (policy : MemoryPolicy) : exec (memoryRecommendation * Text) :=
  let '(peak, total) := peakTotal memBytes (Usage metrics) in
  let n := Z.of_nat (List.length (Usage metrics)) in
  if n =? 0 then Panic (* integer divide by zero *) else
  let avg := Int64.quot total n in
  let bufferMultiplier :=
    Float64.add Float64.c1_0
      (Float64.div (Float64.of_int (BufferPercent policy)) Float64.c100) in
  let targetMemory :=
    Float64.to_int64 (Float64.mul (Float64.of_int peak) bufferMultiplier) in
  let request := Quantity.NewQuantity targetMemory in
  let limit :=
    Quantity.NewQuantity
      (Float64.to_int64
         (Float64.mul (Float64.of_int targetMemory) Float64.c1_2)) in
  let reason :=
    Sprintf "avg=%s, peak=%s, buffer=%d%%"
      [ShowQuantity (Quantity.NewQuantity avg);
       ShowQuantity (Quantity.NewQuantity peak);
       ShowInt (BufferPercent policy)] in
  Done ({| memRequest := request; memLimit := limit |}, reason).

Definition calculateVariance (values : list Float64.t) : Float64.t :=
  match values with
  | [] => Float64.zero
  | _ =>
      let n := Float64.of_int (Z.of_nat (List.length values)) in
      let sum := fold_left Float64.add values Float64.zero in
      let mean := Float64.div sum n in
      let variance :=
        fold_left
          (fun variance v =>
             Float64.add variance (Float64.pow2 (Float64.sub v mean)))
          values Float64.zero in
      Float64.div variance n
  end.

Definition calculateConfidence (metrics : WorkloadMetrics) : Float64.t :=
  let dataPoints := Z.of_nat (List.length (Usage metrics)) in
  if dataPoints <? 5 then Float64.c0_3
  else if dataPoints <? 20 then Float64.c0_6
  else
    let cpuValues :=
      map (fun usage => Float64.of_int (cpuMilli usage)) (Usage metrics) in
    let variance := calculateVariance cpuValues in
    if Float64.ltb variance Float64.c100 then Float64.c0_9
    else if Float64.ltb variance Float64.c500 then Float64.c0_7
    else Float64.c0_5.

Definition GenerateRecommendation (metrics : WorkloadMetrics)
  (policy : Policy) : exec (result Recommendation) :=
  match Usage metrics with
  | [] => Done (Err (ErrorString "no usage data available"))
  | _ :: _ =>
      match calculateCPURecommendation metrics (Cpu policy) with
      | Panic => Panic
      | Done (cpuRec, cpuReason) =>
      match calculateMemoryRecommendation metrics (Memory policy) with
      | Panic => Panic
      | Done (memRec, memReason) =>
          let confidence := calculateConfidence metrics in
          Done (Ok {| CPURequest := cpuRequest cpuRec;
                      CPULimit := cpuLimit cpuRec;
                      MemoryRequest := memRequest memRec;
                      MemoryLimit := memLimit memRec;
                      RecReason :=
                        Sprintf "CPU: %s, Memory: %s" [cpuReason; memReason];
                      RecConfidence := confidence |})
      end
      end
  end.

(* ===================================================================== *)
(** * internal/controller *)
(* ===================================================================== *)

(** [ctrl.Result]. *)
Record Result : Type := {
  RequeueAfter : Duration
}.

Definition noRequeue : Result := {| RequeueAfter := 0 |}.

Definition setConditions (status : ResourceOptimizerStatus)
  (conds : list Condition) : ResourceOptimizerStatus :=
  {| Conditions := conds;
     CurrentRecommendation := CurrentRecommendation status;
     LastOptimized := LastOptimized status |}.

Definition setStatus (ro : ResourceOptimizer)
  (status : ResourceOptimizerStatus) : ResourceOptimizer :=
  {| Spec := Spec ro; OptimizerStatus := status |}.

Definition setLastTransitionTime (c : Condition) (t : Time) : Condition :=
  {| Type_ := Type_ c; Status := Status c; Reason := Reason c;
     Message := Message c; LastTransitionTime := t |}.

Definition setValue (c : Condition) (statusType : ConditionStatus)
  (reason : string) (message : Text) : Condition :=
  {| Type_ := Type_ c; Status := statusType; Reason := reason;
     Message := message; LastTransitionTime := LastTransitionTime c |}.

(** The loop of [addCondition] over [status.Conditions]: [None] when no
    condition of type [condType] exists, otherwise the list with the
    first such condition rewritten in place.  [now] is the reading taken
    on entry; the last assignment of the branch takes a fresh one. *)
Fixpoint updateCondition (cl : Cluster) (conds : list Condition)
  (condType : string) (statusType : ConditionStatus) (reason : string)
  (message : Text) (now : Time) : option (M (list Condition)) :=
  match conds with
  | [] => None
  | existingCondition :: rest =>
      if String.eqb (Type_ existingCondition) condType then
        Some (
          (* if existingCondition.Status != statusType
               { status.Conditions[i].LastTransitionTime = now } *)
          let c :=
            if negb (ConditionStatus_eqb (Status existingCondition) statusType)
            then setLastTransitionTime existingCondition now
            else existingCondition in
          (* status.Conditions[i].Status = statusType; .Reason; .Message *)
          let c := setValue c statusType reason message in
          (* status.Conditions[i].LastTransitionTime = metav1.Now() *)
          now' <- Now cl ;;
          ret (setLastTransitionTime c now' :: rest))
      else
        match updateCondition cl rest condType statusType reason message now with
        | None => None
        | Some m => Some (conds' <- m ;; ret (existingCondition :: conds'))
        end
  end.

Definition addCondition (cl : Cluster) (status : ResourceOptimizerStatus)
  (condType : string) (statusType : ConditionStatus) (reason : string)
  (message : Text) : M ResourceOptimizerStatus :=
  now <- Now cl ;;
  match updateCondition cl (Conditions status) condType statusType reason
          message now with
  | Some m => conds <- m ;; ret (setConditions status conds)
  | None =>
      let condition :=
        {| Type_ := condType;
           Status := statusType;
           Reason := reason;
           Message := message;
           LastTransitionTime := now |} in
      ret (setConditions status (Conditions status ++ [condition]))
  end.

(** [r.updateStatus]: the write reaches the store unless the server
    rejects it. *)
Definition updateStatus (cl : Cluster) (resourceOptimizer : ResourceOptimizer)
  : M (option error) :=
  fun w =>
    match statusUpdate cl resourceOptimizer with
    | Some err => (Some err, w)
    | None =>
        (None,
         {| clockReads := clockReads w; listCalls := listCalls w;
            events := events w;
            statusWrites :=
              statusWrites w ++ [OptimizerStatus resourceOptimizer] |})
    end.

Definition getDeploymentObject (cl : Cluster)
  (resourceOptimizer : ResourceOptimizer) : M (result Deployment) :=
  let ref := SpecTargetRef (Spec resourceOptimizer) in
  match getDeployment cl (TargetNamespace ref) (TargetName ref) with
  | Err err => ret (Err err)
  | Ok existingDeployment =>
      recordEvent {| EventType := "Normal";
                     EventReason := "DeploymentFound";
                     EventMessage := Lit "Deployment found successfully" |} ;;;
      ret (Ok existingDeployment)
  end.

(** [analyzeAndOptimize] returns the status it leaves in the object and
    its error value; it panics when the analyzer does. *)
Definition analyzeAndOptimize (cl : Cluster)
  (resourceOptimizer : ResourceOptimizer) (deployment : Deployment)
  : M (exec (ResourceOptimizerStatus * option error)) :=
  let status := OptimizerStatus resourceOptimizer in
  collected <- CollectWorkloadMetrics cl deployment ;;
  match collected with
  | Err err => ret (Done (status, Some err))
  | Ok workloadMetrics =>
      match Usage workloadMetrics with
      | [] =>
          status' <- addCondition cl status "OptimizationReady" ConditionFalse
                       "NoMetricsData"
                       (Lit "Waiting for metrics data to be available") ;;
          ret (Done (status', None))
      | _ :: _ =>
          match GenerateRecommendation workloadMetrics
                  (SpecPolicy (Spec resourceOptimizer)) with
          | Panic => ret Panic
          | Done (Err err) => ret (Done (status, Some err))
          | Done (Ok recommendation) =>
              recordEvent
                {| EventType := "Normal";
                   EventReason := "RecommendationGenerated";
                   EventMessage :=
                     Sprintf "CPU: %s/%s, Memory: %s/%s (confidence: %.2f)"
                       [ShowQuantity (CPURequest recommendation);
                        ShowQuantity (CPULimit recommendation);
                        ShowQuantity (MemoryRequest recommendation);
                        ShowQuantity (MemoryLimit recommendation);
                        ShowFloat (RecConfidence recommendation)] |} ;;;
              generatedAt <- Now cl ;;
              let status' :=
                {| Conditions := Conditions status;
                   CurrentRecommendation :=
                     Some
                       {| CPU :=
                            {| CPURecRequest :=
                                 ShowQuantity (CPURequest recommendation);
                               CPURecLimit :=
                                 ShowQuantity (CPULimit recommendation) |};
                          MemoryRec :=
                            {| MemoryRecRequest :=
                                 ShowQuantity (MemoryRequest recommendation);
                               MemoryRecLimit :=
                                 ShowQuantity (MemoryLimit recommendation) |};
                          Confidence :=
                            Float64.to_int32
                              (Float64.mul (RecConfidence recommendation)
                                 Float64.c100);
                          RecommendationReason := RecReason recommendation;
                          GeneratedAt := generatedAt |};
                   LastOptimized := LastOptimized status |} in
              status'' <- addCondition cl status' "OptimizationReady"
                            ConditionTrue "RecommendationGenerated"
                            (RecReason recommendation) ;;
              ret (Done (status'', None))
          end
      end
  end.

(** How a pass ends: with [(ctrl.Result, error)], or in a panic. *)
Definition Reconcile (cl : Cluster) (namespace name : string)
  : M (exec (Result * option error)) :=
  match getOptimizer cl namespace name with
  | Err err => ret (Done (noRequeue, IgnoreNotFound err))
  | Ok resourceOptimizer =>
      found <- getDeploymentObject cl resourceOptimizer ;;
      match found with
      | Err err =>
          if IsNotFound err then
            status <- addCondition cl (OptimizerStatus resourceOptimizer)
                        "DeploymentReady" ConditionFalse "TargetNotFound"
                        (Lit "Target Deployment does not exist yet") ;;
            updateStatus cl (setStatus resourceOptimizer status) ;;;
            ret (Done ({| RequeueAfter := 5 |}, None))
          else ret (Done (noRequeue, Some err))
      | Ok deployment =>
          status <- addCondition cl (OptimizerStatus resourceOptimizer)
                      "DeploymentReady" ConditionTrue "TargetFound"
                      (Lit "Target Deployment exists") ;;
          analysed <- analyzeAndOptimize cl (setStatus resourceOptimizer status)
                        deployment ;;
          match analysed with
          | Panic => ret Panic
          | Done (status, Some err) =>
              status <- addCondition cl status "OptimizationReady"
                          ConditionFalse "AnalysisFailed" (Lit (Error err)) ;;
              updateStatus cl (setStatus resourceOptimizer status) ;;;
              ret (Done ({| RequeueAfter := 10 |}, None))
          | Done (status, None) =>
              status <- addCondition cl status "Ready" ConditionTrue
                          "AllSubresourcesReady"
                          (Lit "All subresources are ready") ;;
              failed <- updateStatus cl (setStatus resourceOptimizer status) ;;
              match failed with
              | Some err => ret (Done (noRequeue, Some err))
              | None => ret (Done ({| RequeueAfter := 15 |}, None))
              end
          end
      end
  end.

(* ===================================================================== *)
(** * Sums, peaks, and the formulas as the specification words them *)
(* ===================================================================== *)

Definition sumZ (xs : list Z) : Z := fold_right Z.add 0 xs.

(** The largest element, and 0 for the empty list or when no element is
    positive: the value [peak] holds after the scan. *)
Definition maxZ (xs : list Z) : Z := fold_right Z.max 0 xs.

(** [if t < lo { t = lo }; if t > hi { t = hi }]. *)
Definition clamp (lo hi t : Z) : Z := Z.min hi (Z.max lo t).

(** The formulas of the specification, read over the rationals:
    no rounding anywhere. *)
Module Spec.
Local Open Scope Q_scope.

Definition mean (xs : list Z) : Q :=
  inject_Z (sumZ xs) / inject_Z (Z.of_nat (List.length xs)).

Definition peak (xs : list Z) : Q := inject_Z (maxZ xs).

Definition clampQ (lo hi x : Q) : Q :=
  if Qle_bool lo x then (if Qle_bool x hi then x else hi) else lo.

Definition maxQ (x y : Q) : Q := if Qle_bool x y then y else x.

(** [target = avg / (targetUtilization / 100)], clamped into
    [[cpuMin, cpuMax]]; [request = target]. *)
Definition cpuRequest (cpus : list Z) (targetUtilization lo hi : Z) : Q :=
  clampQ (inject_Z lo) (inject_Z hi)
    (mean cpus / (inject_Z targetUtilization / 100)).


(** [limit = max(target * 1.5, peak * 1.1)]. *)
Definition cpuLimit (cpus : list Z) (targetUtilization lo hi : Z) : Q :=
  maxQ (cpuRequest cpus targetUtilization lo hi * (15 # 10))
       (peak cpus * (11 # 10)).

(** The population variance: the mean of the squared deviations from
    the mean. *)
Definition variance (xs : list Z) : Q :=
  fold_right Qplus 0
    (map (fun x => (inject_Z x - mean xs) * (inject_Z x - mean xs)) xs)
  / inject_Z (Z.of_nat (List.length xs)).

(** The variance as the analyzer takes it, in binary64 with every
    operation rounded: the readings are added from left to right and the
    sum is divided by their count, which gives the mean; the squares of
    the deviations from that mean are added from left to right and the
    sum is divided by the count. *)
Fixpoint floatSum (acc : Float64.t) (xs : list Float64.t) : Float64.t :=
  match xs with
  | nil => acc
  | x :: rest => floatSum (Float64.add acc x) rest
  end.

Definition varianceFloat (xs : list Z) : Float64.t :=
  let values := map Float64.of_int xs in
  let n := Float64.of_int (Z.of_nat (List.length xs)) in
  let mean := Float64.div (floatSum Float64.zero values) n in
  let squares :=
    map (fun v => Float64.mul (Float64.sub v mean) (Float64.sub v mean))
      values in
  Float64.div (floatSum Float64.zero squares) n.

(** [target = peak * (1 + bufferPercent / 100)]; [request = target]. *)
Definition memoryRequest (mems : list Z) (bufferPercent : Z) : Q :=
  peak mems * (1 + inject_Z bufferPercent / 100).

(** [limit = target * 1.2]. *)
Definition memoryLimit (mems : list Z) (bufferPercent : Z) : Q :=
  memoryRequest mems bufferPercent * (12 # 10).
End Spec.

(* ===================================================================== *)
(** * Named parts of the computations, closed forms of the loops *)
(* ===================================================================== *)

(** The float computations of the analyzer, named. *)
Definition cpuTarget (avg targetUtilization : Z) : Z :=
  Float64.to_int64
    (Float64.div (Float64.of_int avg)
       (Float64.div (Float64.of_int targetUtilization) Float64.c100)).

Definition cpuLimitFloat (target peak : Z) : Float64.t :=
  Float64.max (Float64.mul (Float64.of_int target) Float64.c1_5)
    (Float64.mul (Float64.of_int peak) Float64.c1_1).

Definition bufferMultiplier (bufferPercent : Z) : Float64.t :=
  Float64.add Float64.c1_0
    (Float64.div (Float64.of_int bufferPercent) Float64.c100).

Definition memoryTargetFloat (peak bufferPercent : Z) : Float64.t :=
  Float64.mul (Float64.of_int peak) (bufferMultiplier bufferPercent).

Definition memoryLimitFloat (target : Z) : Float64.t :=
  Float64.mul (Float64.of_int target) Float64.c1_2.

(** A float whose integer part is an int64: the conversion is then plain
    truncation. *)
Definition fits_int64 (x : Float64.t) : bool :=
  match Float64.truncate x with
  | Some z => Int64.in_range z
  | None => false
  end.

(** The CPU and memory readings of a series, as the analyzer takes them. *)
Definition cpuValues (metrics : WorkloadMetrics) : list Z :=
  map cpuMilli (Usage metrics).

Definition memValues (metrics : WorkloadMetrics) : list Z :=
  map memBytes (Usage metrics).

Definition samples (metrics : WorkloadMetrics) : Z :=
  Z.of_nat (List.length (Usage metrics)).

(** The two bounds as the analyzer compares them with the target:
    [minCPU.MilliValue()] and [maxCPU.MilliValue()] for the quantities
    [lo] and [hi] parsed from the policy. *)
Definition minMilli (policy : CPUPolicy) (lo : Quantity.t) : Z :=
  Quantity.MilliValueAs (Quantity.parsedAs (Min policy)) lo.

Definition maxMilli (policy : CPUPolicy) (hi : Quantity.t) : Z :=
  Quantity.MilliValueAs (Quantity.parsedAs (Max policy)) hi.

(** The three conversions to int64 that produce the CPU limit, the memory
    request and the memory limit all receive a float whose integer part
    is an int64. *)
Definition conversionsFit (metrics : WorkloadMetrics) (policy : Policy)
  (lo hi : Quantity.t) : bool :=
  let avg :=
    Int64.quot (Int64.wrap (sumZ (cpuValues metrics))) (samples metrics) in
  let request :=
    clamp (minMilli (Cpu policy) lo) (maxMilli (Cpu policy) hi)
      (cpuTarget avg (TargetUtilization (Cpu policy))) in
  let memTarget :=
    memoryTargetFloat (maxZ (memValues metrics))
      (BufferPercent (Memory policy)) in
  fits_int64 (cpuLimitFloat request (maxZ (cpuValues metrics)))
  && fits_int64 memTarget
  && fits_int64 (memoryLimitFloat (Float64.to_int64 memTarget)).

(** What multiplying [float64(t)], [t >= 0], by 1.5, 1.1 or 1.2 can give:
    zero when [t] is, an infinity, or a canonical float not below [t]. *)
Inductive grown (t : Z) : Float64.t -> Prop :=
| grown_zero : t = 0 -> grown t (S754_zero false)
| grown_inf : grown t (S754_infinity false)
| grown_finite (m : positive) (e : Z) :
    Z.pos (digits2_pos m) = 53 -> -52 <= e ->
    t * 2 ^ 52 <= Z.pos m * 2 ^ (e + 52) ->
    grown t (S754_finite false m e).

(** The variance the confidence score looks at. *)
Definition cpuVariance (metrics : WorkloadMetrics) : Float64.t :=
  calculateVariance (map Float64.of_int (cpuValues metrics)).

(** Usage of one pod snapshot alone: the sum over its containers. *)
Definition podCPU (pod : PodMetrics) : Quantity.t :=
  sumZ (map (fun c => lookupUsage (ContainerUsage c) "cpu") (Containers pod)).

Definition podMemory (pod : PodMetrics) : Quantity.t :=
  sumZ (map (fun c => lookupUsage (ContainerUsage c) "memory")
          (Containers pod)).

(** The samples appended by the collector when the accumulators hold
    [cpu] and [mem] on entry. *)
Fixpoint runningSamples (cpu mem : Quantity.t) (items : list PodMetrics)
  : list UsageData :=
  match items with
  | [] => []
  | pod :: rest =>
      let cpu' := cpu + podCPU pod in
      let mem' := mem + podMemory pod in
      {| CPUUsage := cpu'; MemoryUsage := mem';
         Timestamp := PodTimestamp pod |} :: runningSamples cpu' mem' rest
  end.

(** The first condition of a given type. *)
Definition findCondition (conds : list Condition) (condType : string)
  : option Condition :=
  find (fun c => String.eqb (Type_ c) condType) conds.

(** The instant [time.Now().Add(-duration)] when the clock is read in
    world [w]. *)
Definition cutoffAt (cl : Cluster) (w : World) (duration : Z) : Time :=
  wallClock cl (clockReads w) + Int64.wrap (- duration).

(** The samples [GetAverageUsage] averages: those strictly after the
    cutoff. *)
Definition recentSamples (cutoff : Time) (metrics : WorkloadMetrics)
  : list UsageData :=
  filter (fun usage => cutoff <? Timestamp usage) (Usage metrics).

(** The world after [k] more clock readings and nothing else. *)
Definition afterReadings (k : nat) (w : World) : World :=
  {| clockReads := k + clockReads w; listCalls := listCalls w;
     events := events w; statusWrites := statusWrites w |}.

(** What one call of [addCondition] does to a status: the condition of
    the type applied holds the value applied, every other type and the
    rest of the status are as before. *)
Definition applied (s s' : ResourceOptimizerStatus) (condType : string)
  (statusType : ConditionStatus) (reason : string) (message : Text) : Prop :=
  CurrentRecommendation s' = CurrentRecommendation s
  /\ LastOptimized s' = LastOptimized s
  /\ (exists c, findCondition (Conditions s') condType = Some c
                /\ Status c = statusType /\ Reason c = reason
                /\ Message c = message)
  /\ (forall other, String.eqb condType other = false ->
        findCondition (Conditions s') other = findCondition (Conditions s) other).

(** The two events of the controller. *)
Definition deploymentFound : Event :=
  {| EventType := "Normal"; EventReason := "DeploymentFound";
     EventMessage := Lit "Deployment found successfully" |}.

Definition recommendationGenerated (rec : Recommendation) : Event :=
  {| EventType := "Normal";
     EventReason := "RecommendationGenerated";
     EventMessage :=
       Sprintf "CPU: %s/%s, Memory: %s/%s (confidence: %.2f)"
         [ShowQuantity (CPURequest rec); ShowQuantity (CPULimit rec);
          ShowQuantity (MemoryRequest rec); ShowQuantity (MemoryLimit rec);
          ShowFloat (RecConfidence rec)] |}.

(** The [ResourceRecommendation] that [analyzeAndOptimize] builds from the
    analyzer's answer, and the status holding it. *)
Definition recommended (rec : Recommendation) (generatedAt : Time)
  : ResourceRecommendation :=
  {| CPU := {| CPURecRequest := ShowQuantity (CPURequest rec);
               CPURecLimit := ShowQuantity (CPULimit rec) |};
     MemoryRec := {| MemoryRecRequest := ShowQuantity (MemoryRequest rec);
                     MemoryRecLimit := ShowQuantity (MemoryLimit rec) |};
     Confidence :=
       Float64.to_int32 (Float64.mul (RecConfidence rec) Float64.c100);
     RecommendationReason := RecReason rec;
     GeneratedAt := generatedAt |}.

Definition setRecommendation (status : ResourceOptimizerStatus)
  (rr : ResourceRecommendation) : ResourceOptimizerStatus :=
  {| Conditions := Conditions status;
     CurrentRecommendation := Some rr;
     LastOptimized := LastOptimized status |}.

(** What [updateStatus] adds to the persisted statuses: the status, unless
    the server rejects the write. *)
Definition accepted (cl : Cluster) (ro : ResourceOptimizer)
  (status : ResourceOptimizerStatus) : list ResourceOptimizerStatus :=
  match statusUpdate cl (setStatus ro status) with
  | None => [status]
  | Some _ => []
  end.

(** The key [getDeploymentObject] reads, and the status a pass starts
    from. *)
Definition targetKey (ro : ResourceOptimizer) : string * string :=
  (TargetNamespace (SpecTargetRef (Spec ro)),
   TargetName (SpecTargetRef (Spec ro))).

Definition storedStatus (ro : ResourceOptimizer) : ResourceOptimizerStatus :=
  OptimizerStatus ro.

(** The seven ways through [Reconcile], each with its result and the
    world it leaves. *)
Inductive passPath (cl : Cluster) (namespace name : string) (w : World)
  : exec (Result * option error) * World -> Prop :=
| path_unreadable (err : error) :
    getOptimizer cl namespace name = Err err ->
    passPath cl namespace name w (Done (noRequeue, IgnoreNotFound err), w)
| path_target_unreadable (ro : ResourceOptimizer) (err : error) :
    getOptimizer cl namespace name = Ok ro ->
    getDeployment cl (fst (targetKey ro)) (snd (targetKey ro)) = Err err ->
    IsNotFound err = false ->
    passPath cl namespace name w (Done (noRequeue, Some err), w)
| path_target_absent (ro : ResourceOptimizer) (err : error)
    (status : ResourceOptimizerStatus) (k : nat) :
    getOptimizer cl namespace name = Ok ro ->
    getDeployment cl (fst (targetKey ro)) (snd (targetKey ro)) = Err err ->
    IsNotFound err = true ->
    (1 <= k <= 2)%nat ->
    applied (storedStatus ro) status "DeploymentReady" ConditionFalse
      "TargetNotFound" (Lit "Target Deployment does not exist yet") ->
    passPath cl namespace name w
      (Done ({| RequeueAfter := 5 |}, None),
       {| clockReads := k + clockReads w; listCalls := listCalls w;
          events := events w;
          statusWrites := statusWrites w ++ accepted cl ro status |})
| path_query_failed (ro : ResourceOptimizer) (d : Deployment) (err : error)
    (st1 st2 : ResourceOptimizerStatus) (k : nat) :
    getOptimizer cl namespace name = Ok ro ->
    getDeployment cl (fst (targetKey ro)) (snd (targetKey ro)) = Ok d ->
    listPodMetrics cl (DeploymentNamespace d) (Selector d) = Err err ->
    (2 <= k <= 4)%nat ->
    applied (storedStatus ro) st1 "DeploymentReady" ConditionTrue
      "TargetFound" (Lit "Target Deployment exists") ->
    applied st1 st2 "OptimizationReady" ConditionFalse "AnalysisFailed"
      (Lit ("failed to get pod metrics: " ++ Error err)) ->
    passPath cl namespace name w
      (Done ({| RequeueAfter := 10 |}, None),
       {| clockReads := k + clockReads w; listCalls := S (listCalls w);
          events := events w ++ [deploymentFound];
          statusWrites := statusWrites w ++ accepted cl ro st2 |})
| path_no_samples (ro : ResourceOptimizer) (d : Deployment)
    (st1 st2 st3 : ResourceOptimizerStatus) (k : nat) :
    getOptimizer cl namespace name = Ok ro ->
    getDeployment cl (fst (targetKey ro)) (snd (targetKey ro)) = Ok d ->
    listPodMetrics cl (DeploymentNamespace d) (Selector d) = Ok [] ->
    (3 <= k <= 6)%nat ->
    applied (storedStatus ro) st1 "DeploymentReady" ConditionTrue
      "TargetFound" (Lit "Target Deployment exists") ->
    applied st1 st2 "OptimizationReady" ConditionFalse "NoMetricsData"
      (Lit "Waiting for metrics data to be available") ->
    applied st2 st3 "Ready" ConditionTrue "AllSubresourcesReady"
      (Lit "All subresources are ready") ->
    passPath cl namespace name w
      (Done (match statusUpdate cl (setStatus ro st3) with
             | Some err => (noRequeue, Some err)
             | None => ({| RequeueAfter := 15 |}, None)
             end),
       {| clockReads := k + clockReads w; listCalls := S (listCalls w);
          events := events w ++ [deploymentFound];
          statusWrites := statusWrites w ++ accepted cl ro st3 |})
| path_analyzer_panics (ro : ResourceOptimizer) (d : Deployment)
    (items : list PodMetrics) (k : nat) :
    getOptimizer cl namespace name = Ok ro ->
    getDeployment cl (fst (targetKey ro)) (snd (targetKey ro)) = Ok d ->
    listPodMetrics cl (DeploymentNamespace d) (Selector d) = Ok items ->
    items <> [] ->
    GenerateRecommendation
      {| WorkloadDeployment := d; Usage := runningSamples 0 0 items |}
      (SpecPolicy (Spec ro)) = Panic ->
    (1 <= k <= 2)%nat ->
    passPath cl namespace name w
      (Panic,
       {| clockReads := k + clockReads w; listCalls := S (listCalls w);
          events := events w ++ [deploymentFound];
          statusWrites := statusWrites w |})
| path_recommends (ro : ResourceOptimizer) (d : Deployment)
    (items : list PodMetrics) (rec : Recommendation)
    (st1 st2 st3 : ResourceOptimizerStatus) (k g : nat) :
    getOptimizer cl namespace name = Ok ro ->
    getDeployment cl (fst (targetKey ro)) (snd (targetKey ro)) = Ok d ->
    listPodMetrics cl (DeploymentNamespace d) (Selector d) = Ok items ->
    items <> [] ->
    GenerateRecommendation
      {| WorkloadDeployment := d; Usage := runningSamples 0 0 items |}
      (SpecPolicy (Spec ro)) = Done (Ok rec) ->
    (4 <= k <= 7)%nat ->
    (clockReads w < g < k + clockReads w)%nat ->
    applied (storedStatus ro) st1 "DeploymentReady" ConditionTrue
      "TargetFound" (Lit "Target Deployment exists") ->
    applied (setRecommendation st1 (recommended rec (wallClock cl g))) st2
      "OptimizationReady" ConditionTrue "RecommendationGenerated"
      (RecReason rec) ->
    applied st2 st3 "Ready" ConditionTrue "AllSubresourcesReady"
      (Lit "All subresources are ready") ->
    passPath cl namespace name w
      (Done (match statusUpdate cl (setStatus ro st3) with
             | Some err => (noRequeue, Some err)
             | None => ({| RequeueAfter := 15 |}, None)
             end),
       {| clockReads := k + clockReads w; listCalls := S (listCalls w);
          events :=
            events w ++ [deploymentFound; recommendationGenerated rec];
          statusWrites := statusWrites w ++ accepted cl ro st3 |}).

(* ===================================================================== *)
(** * Concrete clusters and series used in the examples *)
(* ===================================================================== *)

Module Fixtures.
(** A sample of [cpu] milli-cores and [mem] bytes. *)
Definition sample (cpu mem : Z) : UsageData :=
  {| CPUUsage := Quantity.NewMilliQuantity cpu;
     MemoryUsage := Quantity.NewQuantity mem;
     Timestamp := 0 |}.

Definition deployment : Deployment :=
  {| DeploymentNamespace := "production";
     DeploymentName := "api-service";
     Selector := "app=api-service" |}.

Definition series (samples : list UsageData) : WorkloadMetrics :=
  {| WorkloadDeployment := deployment; Usage := samples |}.

Definition policy (lo hi : string) (util buffer : Z) : Policy :=
  {| Cpu := {| Min := lo; Max := hi; TargetUtilization := util |};
     Memory := {| BufferPercent := buffer |} |}.

Definition Mi : Z := 1024 * 1024.

(** Scenario A: CPU 100m, 200m, 300m. *)
Definition scenarioA : WorkloadMetrics :=
  series [sample 100 0; sample 200 0; sample 300 0].

(** Scenario C: 25 samples around 100m whose variance is 50. *)
Definition scenarioC : WorkloadMetrics :=
  series (map (fun cpu => sample cpu 0)
            (List.concat (repeat [110; 90; 105; 95; 100] 5))).

(** 25 samples whose population variance is exactly 500. *)
Definition variance500 : WorkloadMetrics :=
  series (map (fun cpu => sample cpu 0)
            [980; 990; 1012; 1017; 1032; 1013; 997; 1006; 1027; 992; 1006;
             1011; 992; 961; 990; 1001; 1011; 1010; 974; 1024; 998; 984;
             998; 986; 923]).

(** 20 samples alternating between 0m and 100m: variance 2500. *)
Definition spread : WorkloadMetrics :=
  series (map (fun cpu => sample cpu 0) (List.concat (repeat [0; 100] 10))).

(** Scenario E: memory peak 500Mi. *)
Definition scenarioE : WorkloadMetrics :=
  series [sample 0 (300 * Mi); sample 0 (500 * Mi); sample 0 (400 * Mi)].

Definition pod (name : string) (time : Time) (cpuNanos memBytes : Z)
  : PodMetrics :=
  {| PodName := name; PodTimestamp := time;
     Containers :=
       [ {| ContainerName := "main";
            ContainerUsage :=
              [("cpu"%string, cpuNanos);
               ("memory"%string, Quantity.NewQuantity memBytes)] |} ] |}.

Definition emptyStatus : ResourceOptimizerStatus :=
  {| Conditions := []; CurrentRecommendation := None;
     LastOptimized := None |}.

Definition optimizer (status : ResourceOptimizerStatus) : ResourceOptimizer :=
  {| Spec :=
       {| SpecTargetRef :=
            {| TargetKind := "Deployment"; TargetName := "api-service";
               TargetNamespace := "production" |};
          SpecPolicy := policy "200m" "800m" 70 20 |};
     OptimizerStatus := status |}.

(** A cluster holding the optimizer with the given stored status and its
    target, answering the usage query with [usage]; the clock reads
    [t0], [t0 + 1], ... *)
Definition cluster (status : ResourceOptimizerStatus)
  (usage : result (list PodMetrics)) (t0 : Time) : Cluster :=
  {| getOptimizer := fun _ _ => Ok (optimizer status);
     getDeployment := fun _ _ => Ok deployment;
     listPodMetrics := fun _ _ => usage;
     statusUpdate := fun _ => None;
     wallClock := fun n => t0 + Z.of_nat n |}.

Definition world0 : World :=
  {| clockReads := 0; listCalls := 0; events := []; statusWrites := [] |}.

Definition readyAt (t : Time) : Condition :=
  {| Type_ := "DeploymentReady"; Status := ConditionTrue;
     Reason := "TargetFound"; Message := Lit "Target Deployment exists";
     LastTransitionTime := t |}.
End Fixtures.

(** Further clusters, statuses and answers used in the examples. *)
Module Cases.
(** The optimizer cannot be read. *)
Definition unreachable : Cluster :=
  {| getOptimizer := fun _ _ => Err (ErrorString "connection refused");
     getDeployment := fun _ _ => Ok Fixtures.deployment;
     listPodMetrics := fun _ _ => Ok [];
     statusUpdate := fun _ => None;
     wallClock := fun n => 1000 + Z.of_nat n |}.

(** The optimizer holds [status]; its target does not exist. *)
Definition targetMissing (status : ResourceOptimizerStatus) : Cluster :=
  {| getOptimizer := fun _ _ => Ok (Fixtures.optimizer status);
     getDeployment :=
       fun _ _ => Err (NotFoundError "deployments.apps api-service not found");
     listPodMetrics := fun _ _ => Ok [];
     statusUpdate := fun _ => None;
     wallClock := fun n => 1000 + Z.of_nat n |}.

(** A status that has seen a complete pass and an optimization. *)
Definition settled : ResourceOptimizerStatus :=
  {| Conditions :=
       [ Fixtures.readyAt 100;
         {| Type_ := "Ready"; Status := ConditionTrue;
            Reason := "AllSubresourcesReady";
            Message := Lit "All subresources are ready";
            LastTransitionTime := 102 |} ];
     CurrentRecommendation := None;
     LastOptimized := Some 90 |}.

(** Two snapshots of the deployment's pods. *)
Definition twoPods : list PodMetrics :=
  [ Fixtures.pod "api-0" 10 100000000 (64 * Fixtures.Mi);
    Fixtures.pod "api-1" 20 150000000 (32 * Fixtures.Mi) ].

(** One snapshot, and what the analyzer recommends for it under the
    policy of [Fixtures.optimizer]. *)
Definition onePod : list PodMetrics :=
  [ Fixtures.pod "api-0" 10 100000000 (64 * Fixtures.Mi) ].

End Cases.

(* ===================================================================== *)
(** * Integers and quantities *)
(* ===================================================================== *)

Lemma wrap_in_range (z : Z) : Int64.in_range z = true -> Int64.wrap z = z.
Proof.
  unfold Int64.in_range, Int64.wrap, Int64.min_int, Int64.max_int.
  intros H. apply andb_prop in H as [H1 H2].
  apply Z.leb_le in H1, H2.
  rewrite Z.mod_small; lia.
Qed.

Lemma wrap_add_idem (a b : Z) : Int64.wrap (Int64.wrap a + b) = Int64.wrap (a + b).
Proof.
  unfold Int64.wrap. f_equal.
  replace ((a + 2 ^ 63) mod 2 ^ 64 - 2 ^ 63 + b + 2 ^ 63)
    with ((a + 2 ^ 63) mod 2 ^ 64 + b) by lia.
  rewrite Zplus_mod_idemp_l. f_equal. lia.
Qed.

Lemma peakTotal_closed (value : UsageData -> Z) (usage : list UsageData) :
  peakTotal value usage =
  (maxZ (map value usage), Int64.wrap (sumZ (map value usage))).
Proof.
  unfold peakTotal.
  enough (H : forall peak total, 0 <= peak ->
            fold_left
              (fun '(peak, total) u =>
                 let v := value u in
                 ((if v >? peak then v else peak), Int64.add total v))
              usage (peak, Int64.wrap total)
            = (Z.max peak (maxZ (map value usage)),
               Int64.wrap (total + sumZ (map value usage)))).
  { specialize (H 0 0 (Z.le_refl 0)). cbn in H. rewrite H. f_equal.
    unfold maxZ. clear. induction (map value usage); cbn; lia. }
  induction usage as [|u usage IH]; intros peak total Hp; cbn.
  - f_equal; [lia | f_equal; lia].
  - unfold Int64.add. rewrite wrap_add_idem.
    destruct (Z.gtb_spec (value u) peak).
    + rewrite IH by lia. f_equal; [unfold maxZ; cbn; lia | f_equal; unfold sumZ; cbn; lia].
    + rewrite IH by lia. f_equal; [unfold maxZ; cbn; lia | f_equal; unfold sumZ; cbn; lia].
Qed.

Lemma maxZ_nonneg (xs : list Z) : 0 <= maxZ xs.
Proof. unfold maxZ. induction xs; cbn; lia. Qed.

Lemma quot_in_range (total n : Z) :
  Int64.in_range total = true -> 0 < n ->
  Int64.quot total n = Z.quot total n.
Proof.
  intros H Hn. unfold Int64.quot. apply wrap_in_range.
  unfold Int64.in_range, Int64.min_int, Int64.max_int in *.
  apply andb_prop in H as [H1 H2]. apply Z.leb_le in H1, H2.
  apply andb_true_intro; split; apply Z.leb_le.
  - destruct (Z.le_gt_cases 0 total).
    + pose proof (Z.quot_pos total n); lia.
    + assert (Z.quot (- total) n <= - total)
        by (apply Z.quot_le_upper_bound; nia).
      rewrite Z.quot_opp_l in * by lia. lia.
  - destruct (Z.le_gt_cases 0 total).
    + assert (Z.quot total n <= total)
        by (apply Z.quot_le_upper_bound; nia). lia.
    + assert (0 <= Z.quot (- total) n) by (apply Z.quot_pos; lia).
      rewrite Z.quot_opp_l in * by lia. lia.
Qed.

Lemma scale_up_mul (v unit : Z) :
  0 < unit -> Quantity.scale_up (v * unit) unit = v.
Proof.
  intros Hu. unfold Quantity.scale_up.
  rewrite Z.abs_mul, (Z.abs_eq unit) by lia.
  replace (Z.abs v * unit + unit - 1) with (unit - 1 + Z.abs v * unit) by lia.
  rewrite Z.div_add by lia. rewrite Z.div_small by lia.
  rewrite Z.sgn_mul, (Z.sgn_pos unit) by lia.
  destruct v; cbn; lia.
Qed.

Lemma MilliValue_NewMilliQuantity (v : Z) :
  Quantity.MilliValue (Quantity.NewMilliQuantity v) = v.
Proof. apply scale_up_mul. lia. Qed.

Lemma Value_NewQuantity (v : Z) :
  Quantity.Value (Quantity.NewQuantity v) = v.
Proof. apply scale_up_mul. lia. Qed.

Lemma digits_nonneg (s : string) :
  forall acc, 0 <= acc -> 0 <= fst (Quantity.digits acc s).
Proof.
  induction s as [|c s IH]; intros acc Hacc; cbn [Quantity.digits fst]; [easy|].
  unfold Quantity.digit.
  set (n := Z.of_nat (nat_of_ascii c)).
  destruct (_ && _) eqn:E; cbn [fst]; [|easy].
  apply IH. apply andb_prop in E as [E _]. apply Z.leb_le in E. lia.
Qed.

(** A parsed CPU bound is a whole, non-negative number of milli-cores. *)
Lemma ParseQuantity_whole_milli (s : string) (q : Quantity.t) :
  Quantity.ParseQuantity s = Some q ->
  0 <= Quantity.MilliValue q
  /\ q = Quantity.NewMilliQuantity (Quantity.MilliValue q).
Proof.
  unfold Quantity.ParseQuantity.
  destruct s as [|c s]; [discriminate|].
  destruct (Quantity.digit c); [|discriminate].
  pose proof (digits_nonneg (String c s) 0 (Z.le_refl 0)) as Hn.
  destruct (Quantity.digits 0 (String c s)) as [n rest]. cbn in Hn.
  destruct rest as [|[[] [] [] [] [] [] [] []] []]; try discriminate; intros [= <-].
  - replace (Quantity.NewQuantity n)
      with (Quantity.NewMilliQuantity (n * 1000))
      by (unfold Quantity.NewQuantity, Quantity.NewMilliQuantity; lia).
    rewrite MilliValue_NewMilliQuantity. split; [lia|reflexivity].
  - rewrite MilliValue_NewMilliQuantity. split; [lia|reflexivity].
Qed.

Lemma wrap_range (z : Z) : Int64.min_int <= Int64.wrap z <= Int64.max_int.
Proof.
  unfold Int64.wrap, Int64.min_int, Int64.max_int.
  pose proof (Z.mod_pos_bound (z + 2 ^ 63) (2 ^ 64) ltac:(reflexivity)).
  change (2 ^ 64) with (2 * 2 ^ 63) in *. lia.
Qed.

(** [MilliValue()] returns the exact count where it fits an int64, and
    an int64 in every case. *)
Lemma MilliValueAs_exact (h : Quantity.held) (q : Quantity.t) :
  Int64.in_range (Quantity.MilliValue q) = true ->
  Quantity.MilliValueAs h q = Quantity.MilliValue q.
Proof. intros H. unfold Quantity.MilliValueAs. now rewrite H. Qed.

Lemma MilliValueAs_range (h : Quantity.held) (q : Quantity.t) :
  Int64.min_int <= Quantity.MilliValueAs h q <= Int64.max_int.
Proof.
  unfold Quantity.MilliValueAs.
  destruct (Int64.in_range (Quantity.MilliValue q)) eqn:E.
  - unfold Int64.in_range in E. apply andb_prop in E as [E1 E2].
    apply Z.leb_le in E1, E2. lia.
  - destruct h; [unfold Int64.min_int, Int64.max_int; lia|apply wrap_range].
Qed.

Lemma minMilli_exact (policy : CPUPolicy) (lo : Quantity.t) :
  Int64.in_range (Quantity.MilliValue lo) = true ->
  minMilli policy lo = Quantity.MilliValue lo.
Proof. apply MilliValueAs_exact. Qed.

Lemma maxMilli_exact (policy : CPUPolicy) (hi : Quantity.t) :
  Int64.in_range (Quantity.MilliValue hi) = true ->
  maxMilli policy hi = Quantity.MilliValue hi.
Proof. apply MilliValueAs_exact. Qed.

Lemma in_range_below (z bound : Z) :
  0 <= z <= bound -> bound <= Int64.max_int -> Int64.in_range z = true.
Proof.
  intros H Hb. unfold Int64.in_range, Int64.min_int, Int64.max_int in *.
  apply andb_true_intro; split; apply Z.leb_le; lia.
Qed.

(* ===================================================================== *)
(** * float64: rounding of products *)
(* ===================================================================== *)

Lemma digits2_pos_spec (p : positive) :
  2 ^ (Z.pos (digits2_pos p) - 1) <= Z.pos p < 2 ^ Z.pos (digits2_pos p).
Proof.
  induction p as [p IH|p IH|]; cbn [digits2_pos].
  - rewrite Pos2Z.inj_succ. change (Z.pos p~1) with (2 * Z.pos p + 1).
    replace (Z.succ (Z.pos (digits2_pos p)) - 1) with (Z.succ (Z.pos (digits2_pos p) - 1)) by lia.
    rewrite !Z.pow_succ_r by lia.
    generalize dependent (2 ^ (Z.pos (digits2_pos p) - 1)).
    generalize dependent (2 ^ (Z.pos (digits2_pos p))). lia.
  - rewrite Pos2Z.inj_succ. change (Z.pos p~0) with (2 * Z.pos p).
    replace (Z.succ (Z.pos (digits2_pos p)) - 1) with (Z.succ (Z.pos (digits2_pos p) - 1)) by lia.
    rewrite !Z.pow_succ_r by lia.
    generalize dependent (2 ^ (Z.pos (digits2_pos p) - 1)).
    generalize dependent (2 ^ (Z.pos (digits2_pos p))). lia.
  - cbn. lia.
Qed.

Lemma digits2_pos_unique (p : positive) (k : Z) :
  2 ^ (k - 1) <= Z.pos p < 2 ^ k -> Z.pos (digits2_pos p) = k.
Proof.
  intros [Hlo Hhi].
  destruct (digits2_pos_spec p) as [Dlo Dhi].
  set (d := Z.pos (digits2_pos p)) in *.
  assert (0 < k).
  { destruct (Z.le_gt_cases k 0); [|assumption].
    destruct (Z.eq_dec k 0) as [->|]; [cbn in Hhi; lia|].
    rewrite Z.pow_neg_r in Hhi by lia. lia. }
  destruct (Z.lt_trichotomy d k) as [Hlt|[->|Hgt]]; [|reflexivity|].
  - assert (2 ^ d <= 2 ^ (k - 1)) by (apply Z.pow_le_mono_r; lia). lia.
  - assert (2 ^ k <= 2 ^ (d - 1)) by (apply Z.pow_le_mono_r; lia). lia.
Qed.

Lemma shr_1_m (r : shr_record) :
  0 <= shr_m r -> shr_m (shr_1 r) = shr_m r / 2 /\ 0 <= shr_m (shr_1 r).
Proof.
  destruct r as [m r s]. cbn [shr_m]. intros Hm.
  destruct m as [|[p|p|]|p]; cbn [shr_1 shr_m]; try lia.
  - split; [reflexivity|lia].
  - split; [|lia]. change (Z.pos p~1) with (2 * Z.pos p + 1).
    apply Z.div_unique with (r := 1); lia.
  - split; [|lia]. change (Z.pos p~0) with (2 * Z.pos p).
    apply Z.div_unique with (r := 0); lia.
  - split; [reflexivity|lia].
Qed.

Lemma iter_shr_1_m (n : positive) :
  forall r, 0 <= shr_m r ->
    shr_m (iter_pos shr_1 n r) = shr_m r / 2 ^ Z.pos n
    /\ 0 <= shr_m (iter_pos shr_1 n r).
Proof.
  induction n as [n IH|n IH|]; intros r Hr; cbn [iter_pos].
  - destruct (shr_1_m r Hr) as [E1 P1].
    destruct (IH _ P1) as [E2 P2]. destruct (IH _ P2) as [E3 P3].
    split; [|assumption].
    rewrite E3, E2, E1.
    replace (Z.pos n~1) with (1 + Z.pos n + Z.pos n) by lia.
    rewrite !Z.pow_add_r by lia.
    assert (0 < 2 ^ Z.pos n) by (apply Z.pow_pos_nonneg; lia).
    rewrite !Z.div_div by lia. f_equal. lia.
  - destruct (IH _ Hr) as [E2 P2]. destruct (IH _ P2) as [E3 P3].
    split; [|assumption].
    rewrite E3, E2.
    replace (Z.pos n~0) with (Z.pos n + Z.pos n) by lia.
    rewrite !Z.pow_add_r by lia.
    assert (0 < 2 ^ Z.pos n) by (apply Z.pow_pos_nonneg; lia).
    rewrite !Z.div_div by lia. reflexivity.
  - destruct (shr_1_m r Hr) as [E1 P1]. split; [|assumption].
    rewrite E1. reflexivity.
Qed.

Lemma round_nearest_even_bounds (q : Z) (l : location) :
  q <= round_nearest_even q l <= q + 1.
Proof.
  destruct l as [|[]]; cbn [round_nearest_even]; try lia.
  destruct (Z.even q); lia.
Qed.

Lemma fexp_normal (x : Z) : -1021 <= x -> fexp 53 1024 x = x - 53.
Proof. unfold fexp, emin. lia. Qed.

Lemma shr_fexp_canonical (m : positive) (e : Z) :
  Z.pos (digits2_pos m) = 53 -> -1074 <= e ->
  shr_fexp 53 1024 (Z.pos m) e loc_Exact =
  ({| shr_m := Z.pos m; shr_r := false; shr_s := false |}, e).
Proof.
  intros Hd He. unfold shr_fexp. cbn [Zdigits2]. rewrite Hd.
  rewrite fexp_normal by lia.
  replace (53 + e - 53 - e) with 0 by lia. reflexivity.
Qed.

Lemma shr_fexp_shift (M : positive) (E : Z) :
  let d := Z.pos (digits2_pos M) in
  53 < d -> -1074 <= d + E - 53 ->
  exists mrs,
    shr_fexp 53 1024 (Z.pos M) E loc_Exact = (mrs, d + E - 53)
    /\ shr_m mrs = Z.pos M / 2 ^ (d - 53)
    /\ 2 ^ 52 <= shr_m mrs < 2 ^ 53.
Proof.
  intros d Hd He. unfold shr_fexp. cbn [Zdigits2]. fold d.
  rewrite fexp_normal by lia.
  replace (d + E - 53 - E) with (d - 53) by lia.
  destruct (d - 53) as [|n|n] eqn:En; try lia.
  cbn [shr shr_record_of_loc]. eexists. split; [f_equal; lia|].
  destruct (iter_shr_1_m n {| shr_m := Z.pos M; shr_r := false; shr_s := false |})
    as [Hm _]; [cbn; lia|].
  cbn [shr_m] in Hm. split; [exact Hm|]. rewrite Hm.
  destruct (digits2_pos_spec M) as [Dlo Dhi]. fold d in Dlo, Dhi.
  assert (Hp : 0 < 2 ^ Z.pos n) by (apply Z.pow_pos_nonneg; lia).
  replace d with (53 + Z.pos n) in Dhi by lia.
  replace (d - 1) with (52 + Z.pos n) in Dlo by lia.
  rewrite Z.pow_add_r in Dlo, Dhi by lia.
  split.
  - apply Z.div_le_lower_bound; lia.
  - apply Z.div_lt_upper_bound; lia.
Qed.

Lemma binary_round_aux_normal (s : bool) (M : positive) (E : Z) :
  let d := Z.pos (digits2_pos M) in
  53 <= d -> -1074 <= d + E - 53 ->
  exists m e,
    Z.pos (digits2_pos m) = 53
    /\ (e = d + E - 53 \/ e = d + E - 52)
    /\ (Z.pos M / 2 ^ (d - 53)) * 2 ^ (d - 53) <= Z.pos m * 2 ^ (e - E)
    /\ Z.pos m * 2 ^ (e - E) <= (Z.pos M / 2 ^ (d - 53) + 1) * 2 ^ (d - 53)
    /\ binary_round_aux 53 1024 s (Z.pos M) E loc_Exact
       = if e <=? 971 then S754_finite s m e else S754_infinity s.
Proof.
  intros d Hd He. unfold binary_round_aux.
  destruct (Z.eq_dec d 53) as [E53|N53].
  - (* already canonical: nothing is shifted *)
    rewrite shr_fexp_canonical by (fold d; lia).
    cbv beta iota zeta. cbn [shr_m loc_of_shr_record round_nearest_even].
    rewrite shr_fexp_canonical by (fold d; lia).
    cbv beta iota zeta. cbn [shr_m].
    exists M, E. fold d. rewrite E53.
    replace (53 - 53) with 0 by lia. replace (E - E) with 0 by lia.
    rewrite Z.pow_0_r, Z.div_1_r.
    repeat split; lia.
  - destruct (shr_fexp_shift M E) as (mrs & Hs & Hq & Hb);
      [fold d; lia | fold d; lia |]. fold d in Hs, Hq.
    rewrite Hs. cbv beta iota zeta.
    set (q := shr_m mrs) in *.
    pose proof (round_nearest_even_bounds q (loc_of_shr_record mrs)) as Hr.
    set (m' := round_nearest_even q (loc_of_shr_record mrs)) in *.
    assert (Hn : 0 < 2 ^ (d - 53)) by (apply Z.pow_pos_nonneg; lia).
    destruct (Z.eq_dec m' (2 ^ 53)) as [Etop|Ntop].
    + (* the mantissa was rounded up to 2^53: one more shift *)
      rewrite Etop.
      unfold shr_fexp.
      change (Zdigits2 (2 ^ 53)) with 54.
      rewrite fexp_normal by lia.
      replace (54 + (d + E - 53) - 53 - (d + E - 53)) with 1 by lia.
      cbv beta iota zeta. cbn [shr shr_record_of_loc iter_pos].
      change (shr_m (shr_1 {| shr_m := 2 ^ 53; shr_r := false; shr_s := false |}))
        with (Z.pos 4503599627370496).
      cbv beta iota zeta.
      exists 4503599627370496%positive, (d + E - 52).
      replace (d + E - 53 + 1) with (d + E - 52) by lia.
      split; [reflexivity|]. split; [right; reflexivity|].
      replace (d + E - 52 - E) with (1 + (d - 53)) by lia.
      rewrite Z.pow_add_r by lia. rewrite <- Hq.
      change (Z.pos 4503599627370496) with (2 ^ 52).
      change (2 ^ 1) with 2. change (2 ^ 53) with 9007199254740992 in *.
      change (2 ^ 52) with 4503599627370496 in *.
      repeat split; try nia.
    + assert (Hm' : 2 ^ 52 <= m' < 2 ^ 53) by lia.
      destruct m' as [|pm|pm] eqn:Em'; try lia.
      assert (Hdm : Z.pos (digits2_pos pm) = 53)
        by (apply digits2_pos_unique; exact Hm').
      rewrite shr_fexp_canonical by lia.
      cbv beta iota zeta. cbn [shr_m].
      exists pm, (d + E - 53).
      split; [exact Hdm|]. split; [left; reflexivity|].
      replace (d + E - 53 - E) with (d - 53) by lia.
      rewrite <- Hq.
      repeat split; try nia.
Qed.

Lemma binary_round_aux_canonical (s : bool) (M : positive) (E : Z) :
  Z.pos (digits2_pos M) = 53 -> -1074 <= E ->
  binary_round_aux 53 1024 s (Z.pos M) E loc_Exact
  = if E <=? 971 then S754_finite s M E else S754_infinity s.
Proof.
  intros Hd He. unfold binary_round_aux.
  rewrite shr_fexp_canonical by lia.
  cbv beta iota zeta. cbn [shr_m loc_of_shr_record round_nearest_even].
  rewrite shr_fexp_canonical by lia.
  reflexivity.
Qed.

Lemma iter_xO_pow (p k : positive) :
  Z.pos (Pos.iter xO p k) = Z.pos p * 2 ^ Z.pos k.
Proof.
  induction k as [|k IH] using Pos.peano_ind.
  - cbn [Pos.iter]. change (Z.pos p~0) with (2 * Z.pos p). change (2 ^ 1) with 2. lia.
  - rewrite Pos.iter_succ, Pos2Z.inj_succ, Z.pow_succ_r by lia.
    change (Z.pos (Pos.iter xO p k)~0) with (2 * Z.pos (Pos.iter xO p k)).
    rewrite IH. lia.
Qed.

(** [float64(t)] for a positive integer: a canonical float at most one
    unit in the last place below [t]. *)
Lemma of_int_pos (p : positive) :
  exists m e,
    Z.pos (digits2_pos m) = 53
    /\ -52 <= e
    /\ (forall K, 0 <= K -> - e <= K ->
        Z.pos p * 2 ^ K <= (Z.pos m + 1) * 2 ^ (e + K))
    /\ Float64.of_int (Z.pos p)
       = if e <=? 971 then S754_finite false m e else S754_infinity false.
Proof.
  unfold Float64.of_int, Float64.prec, Float64.emax.
  cbn [binary_normalize]. unfold binary_round.
  destruct (digits2_pos_spec p) as [Dlo Dhi].
  set (d := Z.pos (digits2_pos p)) in *.
  assert (Hd1 : 1 <= d) by (subst d; lia).
  rewrite Z.add_0_r, fexp_normal by lia.
  unfold shl_align. rewrite Z.sub_0_r.
  destruct (d - 53) as [|n|n] eqn:En.
  - (* exactly 53 digits *)
    cbv beta iota zeta. rewrite binary_round_aux_canonical by (fold d; lia).
    exists p, 0. split; [fold d; lia|]. split; [lia|]. split; [|reflexivity].
    intros K HK _. rewrite Z.add_0_l.
    assert (0 < 2 ^ K) by (apply Z.pow_pos_nonneg; lia). nia.
  - (* more than 53 digits: the integer is rounded *)
    cbv beta iota zeta.
    destruct (binary_round_aux_normal false p 0) as (m & e & Hm & He & Hlo & _ & Hr);
      [fold d; lia | fold d; lia |]. fold d in He, Hlo.
    rewrite Z.sub_0_r in Hlo.
    exists m, e. split; [exact Hm|]. split; [lia|]. split; [|exact Hr].
    intros K HK _.
    assert (Hn : 0 < 2 ^ (d - 53)) by (apply Z.pow_pos_nonneg; lia).
    assert (Hle : 2 ^ (d - 53) <= 2 ^ e) by (apply Z.pow_le_mono_r; lia).
    pose proof (Z.mod_pos_bound (Z.pos p) (2 ^ (d - 53)) Hn) as Hmod.
    pose proof (Z.div_mod (Z.pos p) (2 ^ (d - 53)) ltac:(lia)) as Hdm.
    assert (Z.pos p <= (Z.pos m + 1) * 2 ^ e) by nia.
    rewrite Z.pow_add_r by lia.
    assert (0 < 2 ^ K) by (apply Z.pow_pos_nonneg; lia). nia.
  - (* fewer than 53 digits: the integer is exact *)
    cbv beta iota zeta.
    assert (Hmz : 2 ^ 52 <= Z.pos (Pos.iter xO p n) < 2 ^ 53).
    { rewrite iter_xO_pow.
      replace 52 with ((d - 1) + Z.pos n) by lia.
      replace 53 with (d + Z.pos n) by lia.
      rewrite !Z.pow_add_r by lia.
      assert (0 < 2 ^ Z.pos n) by (apply Z.pow_pos_nonneg; lia). nia. }
    rewrite binary_round_aux_canonical
      by (try (apply digits2_pos_unique; exact Hmz); lia).
    exists (Pos.iter xO p n), (Z.neg n).
    split; [apply digits2_pos_unique; exact Hmz|]. split; [lia|].
    split; [|replace (Z.neg n <=? 971) with true by (symmetry; apply Z.leb_le; lia);
             reflexivity].
    intros K HK HeK. rewrite iter_xO_pow.
    replace K with (Z.pos n + (Z.neg n + K)) at 1 by lia.
    rewrite Z.pow_add_r by lia.
    assert (0 < 2 ^ Z.pos n) by (apply Z.pow_pos_nonneg; lia).
    assert (0 < 2 ^ (Z.neg n + K)) by (apply Z.pow_pos_nonneg; lia). nia.
Qed.

Lemma digits53_bounds (m : positive) :
  Z.pos (digits2_pos m) = 53 -> 2 ^ 52 <= Z.pos m < 2 ^ 53.
Proof.
  intros H. pose proof (digits2_pos_spec m) as D. rewrite H in D. exact D.
Qed.

(** The rounded product of a canonical positive float by a constant of
    [1 + 3 ulp, 2): canonical again, and at least one unit in the last
    place of the first factor above it. *)
Lemma mul_canonical_grows (m1 : positive) (e1 : Z) (mc : positive) :
  Z.pos (digits2_pos m1) = 53 -> -52 <= e1 ->
  2 ^ 52 + 3 <= Z.pos mc < 2 ^ 53 ->
  exists m e,
    Z.pos (digits2_pos m) = 53
    /\ e1 <= e
    /\ (forall K, 0 <= K -> - e1 <= K ->
        (Z.pos m1 + 1) * 2 ^ (e1 + K) <= Z.pos m * 2 ^ (e + K))
    /\ Float64.mul (S754_finite false m1 e1) (S754_finite false mc (-52))
       = if e <=? 971 then S754_finite false m e else S754_infinity false.
Proof.
  intros H1 He1 Hc.
  pose proof (digits53_bounds m1 H1) as B1.
  unfold Float64.mul, Float64.prec, Float64.emax. cbn [SFmul xorb].
  set (M := (m1 * mc)%positive).
  assert (HM : Z.pos M = Z.pos m1 * Z.pos mc) by (subst M; lia).
  change (2 ^ 52) with 4503599627370496 in *.
  change (2 ^ 53) with 9007199254740992 in *.
  assert (BM : 2 ^ 104 <= Z.pos M < 2 ^ 106).
  { change (2 ^ 104) with (4503599627370496 * 4503599627370496).
    change (2 ^ 106) with (9007199254740992 * 9007199254740992). nia. }
  destruct (digits2_pos_spec M) as [Dlo Dhi].
  set (d := Z.pos (digits2_pos M)) in *.
  assert (Hd : 105 <= d <= 106).
  { split.
    - destruct (Z.le_gt_cases 105 d); [assumption|].
      assert (2 ^ d <= 2 ^ 104) by (apply Z.pow_le_mono_r; lia). lia.
    - destruct (Z.le_gt_cases d 106); [assumption|].
      assert (2 ^ 106 <= 2 ^ (d - 1)) by (apply Z.pow_le_mono_r; lia). lia. }
  destruct (binary_round_aux_normal false M (e1 + -52))
    as (m & e & Hm & He & Hlo & _ & Hr); [fold d; lia | fold d; lia |].
  fold d in He, Hlo.
  exists m, e. split; [exact Hm|]. split; [lia|]. split; [|exact Hr].
  intros K HK HeK.
  assert (Hn : 0 < 2 ^ (d - 53)) by (apply Z.pow_pos_nonneg; lia).
  pose proof (Z.mod_pos_bound (Z.pos M) (2 ^ (d - 53)) Hn) as Hmod.
  pose proof (Z.div_mod (Z.pos M) (2 ^ (d - 53)) ltac:(lia)) as Hdm.
  assert (Hn53 : 2 ^ (d - 53) <= 2 ^ 53) by (apply Z.pow_le_mono_r; lia).
  change (2 ^ 53) with 9007199254740992 in Hn53.
  (* the rounded mantissa, in units of 2^(e1-52), exceeds (m1+1) * 2^52 *)
  assert (Hgrow : (Z.pos m1 + 1) * 4503599627370496
                  <= Z.pos m * 2 ^ (e - (e1 + -52))) by nia.
  replace (e - (e1 + -52)) with (52 + (e - e1)) in Hgrow by lia.
  rewrite Z.pow_add_r in Hgrow by lia.
  change (2 ^ 52) with 4503599627370496 in Hgrow.
  replace (e + K) with ((e - e1) + (e1 + K)) by lia.
  rewrite (Z.pow_add_r 2 (e - e1) (e1 + K)) by lia.
  assert (0 < 2 ^ (e1 + K)) by (apply Z.pow_pos_nonneg; lia).
  assert (0 < 2 ^ (e - e1)) by (apply Z.pow_pos_nonneg; lia).
  nia.
Qed.

Lemma truncate_scaled (m : positive) (e K : Z) :
  0 <= K -> - e <= K ->
  Float64.truncate (S754_finite false m e)
  = Some (Z.pos m * 2 ^ (e + K) / 2 ^ K).
Proof.
  intros HK He. unfold Float64.truncate. cbn [cond_Zopp]. f_equal.
  assert (0 < 2 ^ K) by (apply Z.pow_pos_nonneg; lia).
  destruct e as [|e|e].
  - rewrite Z.add_0_l, Z.div_mul by lia. rewrite Z.pow_0_r. lia.
  - rewrite Z.pow_add_r, Z.mul_assoc, Z.div_mul by lia. reflexivity.
  - replace K with ((Z.neg e + K) + Z.pos e) at 2 by lia.
    rewrite (Z.pow_add_r 2 (Z.neg e + K) (Z.pos e)) by lia.
    assert (0 < 2 ^ (Z.neg e + K)) by (apply Z.pow_pos_nonneg; lia).
    assert (0 < 2 ^ Z.pos e) by (apply Z.pow_pos_nonneg; lia).
    rewrite (Z.mul_comm (Z.pos m)), Z.div_mul_cancel_l by lia. reflexivity.
Qed.

(** [>] on canonical positive floats orders their values. *)
Lemma ltb_false_canonical (ma mb : positive) (ea eb K : Z) :
  Z.pos (digits2_pos ma) = 53 -> Z.pos (digits2_pos mb) = 53 ->
  Float64.ltb (S754_finite false mb eb) (S754_finite false ma ea) = false ->
  0 <= K -> - ea <= K -> - eb <= K ->
  Z.pos ma * 2 ^ (ea + K) <= Z.pos mb * 2 ^ (eb + K).
Proof.
  intros Ha Hb Hlt HK HaK HbK.
  pose proof (digits53_bounds ma Ha) as Ba.
  pose proof (digits53_bounds mb Hb) as Bb.
  change (2 ^ 52) with 4503599627370496 in *.
  change (2 ^ 53) with 9007199254740992 in *.
  unfold Float64.ltb, SFltb, SFcompare in Hlt.
  destruct (Z.compare_spec eb ea) as [->|Hl|Hg].
  - rewrite Pos.compare_cont_spec in Hlt. cbn [Pos.switch_Eq] in Hlt.
    destruct (Pos.compare_spec mb ma) as [->|Hl|Hg]; try discriminate.
    + lia.
    + assert (0 < 2 ^ (ea + K)) by (apply Z.pow_pos_nonneg; lia).
      assert (Z.pos ma < Z.pos mb) by lia. nia.
  - discriminate.
  - replace (eb + K) with ((eb - ea - 1) + (1 + (ea + K))) by lia.
    rewrite (Z.pow_add_r 2 (eb - ea - 1) (1 + (ea + K))) by lia.
    rewrite (Z.pow_add_r 2 1 (ea + K)) by lia. change (2 ^ 1) with 2.
    assert (HX : 0 < 2 ^ (ea + K)) by (apply Z.pow_pos_nonneg; lia).
    assert (HY : 0 < 2 ^ (eb - ea - 1)) by (apply Z.pow_pos_nonneg; lia).
    generalize dependent (2 ^ (ea + K)). generalize dependent (2 ^ (eb - ea - 1)).
    intros Y HY X HX.
    assert (H1 : Z.pos ma * X <= 2 * Z.pos mb * X) by nia.
    assert (H2 : 2 * Z.pos mb * X <= Z.pos mb * (Y * (2 * X))) by nia.
    lia.
Qed.

Lemma mul_of_int_grows (t : Z) (mc : positive) :
  0 < t -> 2 ^ 52 + 3 <= Z.pos mc < 2 ^ 53 ->
  let r := Float64.mul (Float64.of_int t) (S754_finite false mc (-52)) in
  r = S754_infinity false
  \/ exists m e,
       r = S754_finite false m e
       /\ Z.pos (digits2_pos m) = 53
       /\ -52 <= e
       /\ t * 2 ^ 52 <= Z.pos m * 2 ^ (e + 52).
Proof.
  intros Ht Hc r. subst r. destruct t as [|p|p]; try lia.
  destruct (of_int_pos p) as (m1 & e1 & H1 & He1 & Hv1 & ->).
  destruct (Z.leb_spec e1 971); [|left; reflexivity].
  destruct (mul_canonical_grows m1 e1 mc H1 He1 Hc) as (m & e & Hm & He & Hv & ->).
  destruct (Z.leb_spec e 971); [|left; reflexivity].
  right. exists m, e. split; [reflexivity|]. split; [exact Hm|]. split; [lia|].
  specialize (Hv1 52 ltac:(lia) ltac:(lia)).
  specialize (Hv 52 ltac:(lia) ltac:(lia)). lia.
Qed.

Lemma to_int64_fits (x : Float64.t) (z : Z) :
  fits_int64 x = true -> Float64.truncate x = Some z -> Float64.to_int64 x = z.
Proof.
  unfold fits_int64, Float64.to_int64. intros Hf Ht. rewrite Ht in *.
  now rewrite Hf.
Qed.

Lemma truncate_ge (m : positive) (e t : Z) :
  -52 <= e -> t * 2 ^ 52 <= Z.pos m * 2 ^ (e + 52) ->
  exists z, Float64.truncate (S754_finite false m e) = Some z /\ t <= z.
Proof.
  intros He Hv. rewrite (truncate_scaled m e 52) by lia.
  eexists. split; [reflexivity|].
  apply Z.div_le_lower_bound; lia.
Qed.

Lemma truncate_finite_nonneg (m : positive) (e : Z) :
  exists z, Float64.truncate (S754_finite false m e) = Some z /\ 0 <= z.
Proof.
  unfold Float64.truncate. cbn [cond_Zopp]. eexists. split; [reflexivity|].
  destruct e as [|e|e].
  - lia.
  - assert (0 < 2 ^ Z.pos e) by (apply Z.pow_pos_nonneg; lia). nia.
  - apply Z.div_pos; [lia|]. apply Z.pow_pos_nonneg; lia.
Qed.

(** The products the analyzer converts are never negative. *)
Lemma mul_nonneg_truncate (x : Z) (mc : positive) (ec : Z) (z : Z) :
  0 <= x ->
  Float64.truncate (Float64.mul (Float64.of_int x) (S754_finite false mc ec))
    = Some z ->
  0 <= z.
Proof.
  intros Hx. destruct x as [|p|p]; try lia.
  - cbn. intros [= <-]. lia.
  - destruct (of_int_pos p) as (m1 & e1 & _ & _ & _ & ->).
    destruct (e1 <=? 971); [|cbn; discriminate].
    unfold Float64.mul. cbn [SFmul xorb]. unfold binary_round_aux.
    destruct (shr_fexp _ _ _ _ _) as [mrs' e'].
    destruct (shr_fexp _ _ _ _ _) as [mrs'' e''].
    destruct (shr_m mrs'') as [|m|m]; try (cbn; discriminate).
    + cbn. intros [= <-]. lia.
    + destruct (e'' <=? _); [|cbn; discriminate].
      destruct (truncate_finite_nonneg m e'') as (z' & -> & Hz).
      intros [= <-]. exact Hz.
Qed.

Ltac mantissa_in_range :=
  split; [apply Z.leb_le | apply Z.ltb_lt]; reflexivity.

Lemma mul_grown (t : Z) (mc : positive) :
  0 <= t -> 2 ^ 52 + 3 <= Z.pos mc < 2 ^ 53 ->
  grown t (Float64.mul (Float64.of_int t) (S754_finite false mc (-52))).
Proof.
  intros Ht Hc. destruct (Z.eq_dec t 0) as [->|Hn].
  - apply grown_zero. reflexivity.
  - destruct (mul_of_int_grows t mc ltac:(lia) Hc) as [->|(m & e & -> & Hm & He & Hv)].
    + apply grown_inf.
    + now apply grown_finite.
Qed.

Lemma grown_truncate (t : Z) (x : Float64.t) :
  0 <= t -> grown t x -> fits_int64 x = true -> t <= Float64.to_int64 x.
Proof.
  intros Ht [->| |m e Hm He Hv] Hf.
  - rewrite (to_int64_fits _ 0 Hf); [lia|reflexivity].
  - discriminate Hf.
  - destruct (truncate_ge m e t He Hv) as (z & Hz & Hle).
    now rewrite (to_int64_fits _ z Hf Hz).
Qed.

(** [math.Max] of two such products is one of them, and not below the
    first. *)
Lemma max_grown (t p : Z) (a b : Float64.t) :
  0 <= t -> 0 <= p -> grown t a -> grown p b -> grown t (Float64.max a b).
Proof.
  intros Ht Hp Ha Hb. unfold Float64.max.
  destruct Ha as [->| |ma ea Hma Hea Hva]; destruct Hb as [->| |mb eb Hmb Heb Hvb];
    cbn [Float64.is_pinf Float64.is_nan orb]; try apply grown_inf.
  - (* 0 and 0 *) cbn. apply grown_zero. reflexivity.
  - (* 0 and a positive float *)
    cbn. apply grown_finite; try assumption.
    assert (0 < 2 ^ (eb + 52)) by (apply Z.pow_pos_nonneg; lia). nia.
  - (* a positive float and 0 *)
    cbn. now apply grown_finite.
  - (* two positive floats *)
    change (Float64.eqb (S754_finite false ma ea) Float64.zero) with false.
    cbn [andb].
    destruct (Float64.ltb (S754_finite false mb eb) (S754_finite false ma ea))
      eqn:Hlt.
    + now apply grown_finite.
    + apply grown_finite; try assumption.
      pose proof (ltb_false_canonical ma mb ea eb 52 Hma Hmb Hlt
                    ltac:(lia) ltac:(lia) ltac:(lia)). lia.
Qed.

(** [float64(t)] for a negative integer is a negative float or the
    negative infinity. *)
Lemma of_int_neg (p : positive) :
  exists m e,
    Z.pos (digits2_pos m) = 53
    /\ -52 <= e
    /\ Float64.of_int (Z.neg p)
       = if e <=? 971 then S754_finite true m e else S754_infinity true.
Proof.
  unfold Float64.of_int, Float64.prec, Float64.emax.
  cbn [binary_normalize]. unfold binary_round.
  destruct (digits2_pos_spec p) as [Dlo Dhi].
  set (d := Z.pos (digits2_pos p)) in *.
  assert (Hd1 : 1 <= d) by (subst d; lia).
  rewrite Z.add_0_r, fexp_normal by lia.
  unfold shl_align. rewrite Z.sub_0_r.
  destruct (d - 53) as [|n|n] eqn:En.
  - cbv beta iota zeta. rewrite binary_round_aux_canonical by (fold d; lia).
    exists p, 0. split; [fold d; lia|]. split; [lia|]. reflexivity.
  - cbv beta iota zeta.
    destruct (binary_round_aux_normal true p 0) as (m & e & Hm & He & _ & _ & Hr);
      [fold d; lia | fold d; lia |]. fold d in He.
    exists m, e. split; [exact Hm|]. split; [lia|]. exact Hr.
  - cbv beta iota zeta.
    assert (Hmz : 2 ^ 52 <= Z.pos (Pos.iter xO p n) < 2 ^ 53).
    { rewrite iter_xO_pow.
      replace 52 with ((d - 1) + Z.pos n) by lia.
      replace 53 with (d + Z.pos n) by lia.
      rewrite !Z.pow_add_r by lia.
      assert (0 < 2 ^ Z.pos n) by (apply Z.pow_pos_nonneg; lia). nia. }
    rewrite binary_round_aux_canonical
      by (try (apply digits2_pos_unique; exact Hmz); lia).
    exists (Pos.iter xO p n), (Z.neg n).
    split; [apply digits2_pos_unique; exact Hmz|]. split; [lia|].
    replace (Z.neg n <=? 971) with true by (symmetry; apply Z.leb_le; lia).
    reflexivity.
Qed.

(** The product of a negative integer and a positive constant of the
    analyzer is a negative float or the negative infinity. *)
Lemma mul_of_int_negative (t : Z) (mc : positive) :
  t < 0 -> Z.pos (digits2_pos mc) = 53 ->
  let r := Float64.mul (Float64.of_int t) (S754_finite false mc (-52)) in
  r = S754_infinity true \/ exists m e, r = S754_finite true m e.
Proof.
  intros Ht Hc r. subst r. destruct t as [|p|p]; try lia.
  destruct (of_int_neg p) as (m1 & e1 & H1 & He1 & ->).
  destruct (e1 <=? 971) eqn:E971; [|left; reflexivity].
  apply Z.leb_le in E971.
  pose proof (digits53_bounds m1 H1) as B1.
  pose proof (digits53_bounds mc Hc) as Bc.
  unfold Float64.mul, Float64.prec, Float64.emax. cbn [SFmul xorb].
  set (M := (m1 * mc)%positive).
  assert (HM : Z.pos M = Z.pos m1 * Z.pos mc) by (subst M; lia).
  change (2 ^ 52) with 4503599627370496 in *.
  change (2 ^ 53) with 9007199254740992 in *.
  assert (BM : 2 ^ 104 <= Z.pos M < 2 ^ 106).
  { change (2 ^ 104) with (4503599627370496 * 4503599627370496).
    change (2 ^ 106) with (9007199254740992 * 9007199254740992). nia. }
  destruct (digits2_pos_spec M) as [Dlo Dhi].
  set (d := Z.pos (digits2_pos M)) in *.
  assert (Hd : 105 <= d).
  { destruct (Z.le_gt_cases 105 d); [assumption|].
    assert (2 ^ d <= 2 ^ 104) by (apply Z.pow_le_mono_r; lia). lia. }
  destruct (binary_round_aux_normal true M (e1 + -52))
    as (m & e & _ & _ & _ & _ & ->); [fold d; lia | fold d; lia |].
  destruct (e <=? 971); eauto.
Qed.

(** [math.Max] of a negative float and one that is not negative is the
    latter. *)
Lemma max_negative_l (a b : Float64.t) (p : Z) :
  (a = S754_infinity true \/ exists m e, a = S754_finite true m e) ->
  grown p b -> Float64.max a b = b.
Proof.
  intros [->|(m & e & ->)] [_| |mb eb _ _ _]; reflexivity.
Qed.

Lemma cpuLimitFloat_negative (target peak : Z) :
  target < 0 -> 0 <= peak ->
  cpuLimitFloat target peak = Float64.mul (Float64.of_int peak) Float64.c1_1.
Proof.
  intros Ht Hp. unfold cpuLimitFloat.
  apply (max_negative_l _ _ peak).
  - apply (mul_of_int_negative target 6755399441055744 Ht). reflexivity.
  - apply mul_grown; [exact Hp|mantissa_in_range].
Qed.

Lemma cpuLimit_negative_target (target peak : Z) :
  target < 0 -> 0 <= peak ->
  fits_int64 (cpuLimitFloat target peak) = true ->
  peak <= Float64.to_int64 (cpuLimitFloat target peak).
Proof.
  intros Ht Hp Hf. rewrite cpuLimitFloat_negative in * by assumption.
  apply grown_truncate; [exact Hp| |exact Hf].
  apply mul_grown; [exact Hp|mantissa_in_range].
Qed.

Lemma cpuLimit_covers_request (target peak : Z) :
  0 <= peak ->
  fits_int64 (cpuLimitFloat target peak) = true ->
  target <= Float64.to_int64 (cpuLimitFloat target peak).
Proof.
  intros Hp Hf. destruct (Z.lt_ge_cases target 0) as [Hn|Ht].
  { pose proof (cpuLimit_negative_target target peak Hn Hp Hf). lia. }
  apply grown_truncate; [exact Ht| |exact Hf].
  unfold cpuLimitFloat. apply (max_grown target peak); try assumption.
  - apply mul_grown; [exact Ht|mantissa_in_range].
  - apply mul_grown; [exact Hp|mantissa_in_range].
Qed.

Lemma memoryLimit_covers_request (target : Z) :
  0 <= target ->
  fits_int64 (memoryLimitFloat target) = true ->
  target <= Float64.to_int64 (memoryLimitFloat target).
Proof.
  intros Ht Hf. apply grown_truncate; [exact Ht| |exact Hf].
  unfold memoryLimitFloat. apply mul_grown; [exact Ht|mantissa_in_range].
Qed.

Lemma bufferMultiplier_positive (bufferPercent : Z) :
  0 <= bufferPercent <= 100 ->
  exists mc ec, bufferMultiplier bufferPercent = S754_finite false mc ec.
Proof.
  intros H.
  assert (Hall : forallb
                   (fun n => match bufferMultiplier (Z.of_nat n) with
                             | S754_finite false _ _ => true
                             | _ => false
                             end) (seq 0 101) = true) by (vm_compute; reflexivity).
  rewrite forallb_forall in Hall.
  specialize (Hall (Z.to_nat bufferPercent)).
  rewrite Z2Nat.id in Hall by lia.
  assert (Hin : In (Z.to_nat bufferPercent) (seq 0 101)) by (apply in_seq; lia).
  specialize (Hall Hin).
  destruct (bufferMultiplier bufferPercent) as [| | |[] mc ec]; try discriminate.
  eauto.
Qed.

Lemma memoryTarget_nonneg (peak bufferPercent : Z) :
  0 <= peak -> 0 <= bufferPercent <= 100 ->
  fits_int64 (memoryTargetFloat peak bufferPercent) = true ->
  0 <= Float64.to_int64 (memoryTargetFloat peak bufferPercent).
Proof.
  intros Hp Hb Hf. unfold memoryTargetFloat in *.
  destruct (bufferMultiplier_positive bufferPercent Hb) as (mc & ec & Hbm).
  rewrite Hbm in *. unfold fits_int64 in Hf.
  destruct (Float64.truncate _) as [z|] eqn:Hz; [|discriminate].
  pose proof (mul_nonneg_truncate peak mc ec z Hp Hz).
  unfold Float64.to_int64. now rewrite Hz, Hf.
Qed.

(* ===================================================================== *)
(** * float64: products that convert without overflow *)
(* ===================================================================== *)

(** [float64(t)] for a positive int64: finite, canonical, and within one
    part in 2^52 above [t]. *)
Lemma of_int_pos_upper (p : positive) :
  Z.pos p < 2 ^ 63 ->
  exists m e,
    Float64.of_int (Z.pos p) = S754_finite false m e
    /\ Z.pos (digits2_pos m) = 53
    /\ -52 <= e <= 11
    /\ Z.pos m * 2 ^ (e + 52) <= Z.pos p * (2 ^ 52 + 1).
Proof.
  intros Hp.
  unfold Float64.of_int, Float64.prec, Float64.emax.
  cbn [binary_normalize]. unfold binary_round.
  destruct (digits2_pos_spec p) as [Dlo Dhi].
  set (d := Z.pos (digits2_pos p)) in *.
  assert (Hd1 : 1 <= d) by (subst d; lia).
  assert (Hd63 : d <= 63).
  { destruct (Z.le_gt_cases d 63); [assumption|].
    assert (2 ^ 63 <= 2 ^ (d - 1)) by (apply Z.pow_le_mono_r; lia). lia. }
  rewrite Z.add_0_r, fexp_normal by lia.
  unfold shl_align. rewrite Z.sub_0_r.
  destruct (d - 53) as [|n|n] eqn:En.
  - cbv beta iota zeta. rewrite binary_round_aux_canonical by (fold d; lia).
    exists p, 0. cbn [Z.leb Z.compare]. split; [reflexivity|].
    split; [fold d; lia|]. split; [lia|]. rewrite Z.add_0_l. lia.
  - cbv beta iota zeta.
    destruct (binary_round_aux_normal false p 0) as (m & e & Hm & He & _ & Hhi & Hr);
      [fold d; lia | fold d; lia |]. fold d in He, Hhi.
    rewrite Z.sub_0_r in Hhi.
    exists m, e.
    replace (e <=? 971) with true in Hr by (symmetry; apply Z.leb_le; lia).
    split; [exact Hr|]. split; [exact Hm|]. split; [lia|].
    assert (Hn : 0 < 2 ^ (d - 53)) by (apply Z.pow_pos_nonneg; lia).
    pose proof (Z.mod_pos_bound (Z.pos p) (2 ^ (d - 53)) Hn) as Hmod.
    pose proof (Z.div_mod (Z.pos p) (2 ^ (d - 53)) ltac:(lia)) as Hdm.
    assert (Hle : Z.pos m * 2 ^ e <= Z.pos p + 2 ^ (d - 53)) by nia.
    assert (Hd52 : 2 ^ (d - 53) * 2 ^ 52 <= Z.pos p).
    { rewrite <- Z.pow_add_r by lia. replace (d - 53 + 52) with (d - 1) by lia.
      exact Dlo. }
    rewrite Z.pow_add_r by lia. nia.
  - cbv beta iota zeta.
    assert (Hmz : 2 ^ 52 <= Z.pos (Pos.iter xO p n) < 2 ^ 53).
    { rewrite iter_xO_pow.
      replace 52 with ((d - 1) + Z.pos n) by lia.
      replace 53 with (d + Z.pos n) by lia.
      rewrite !Z.pow_add_r by lia.
      assert (0 < 2 ^ Z.pos n) by (apply Z.pow_pos_nonneg; lia). nia. }
    rewrite binary_round_aux_canonical
      by (try (apply digits2_pos_unique; exact Hmz); lia).
    exists (Pos.iter xO p n), (Z.neg n).
    replace (Z.neg n <=? 971) with true by (symmetry; apply Z.leb_le; lia).
    split; [reflexivity|].
    split; [apply digits2_pos_unique; exact Hmz|]. split; [lia|].
    rewrite iter_xO_pow.
    replace 52 with (Z.pos n + (Z.neg n + 52)) at 2 by lia.
    rewrite (Z.pow_add_r 2 (Z.pos n) (Z.neg n + 52)) by lia.
    assert (0 < 2 ^ Z.pos n) by (apply Z.pow_pos_nonneg; lia).
    assert (0 < 2 ^ (Z.neg n + 52)) by (apply Z.pow_pos_nonneg; lia). nia.
Qed.

(** The rounded product of two canonical positive floats of moderate
    exponent: finite, canonical, and within one part in 2^51 above the
    exact product. *)
Lemma mul_canonical_upper (m1 : positive) (e1 : Z) (mc : positive) (ec : Z) :
  Z.pos (digits2_pos m1) = 53 -> Z.pos (digits2_pos mc) = 53 ->
  -52 <= e1 <= 11 -> -52 <= ec <= 0 ->
  exists m e,
    Float64.mul (S754_finite false m1 e1) (S754_finite false mc ec)
      = S754_finite false m e
    /\ Z.pos (digits2_pos m) = 53
    /\ -52 <= e
    /\ 2 ^ 51 * (Z.pos m * 2 ^ (e + 104))
       <= (2 ^ 51 + 1)
          * ((Z.pos m1 * 2 ^ (e1 + 52)) * (Z.pos mc * 2 ^ (ec + 52))).
Proof.
  intros H1 Hc He1 Hec.
  pose proof (digits53_bounds m1 H1) as B1.
  pose proof (digits53_bounds mc Hc) as Bc.
  unfold Float64.mul, Float64.prec, Float64.emax. cbn [SFmul xorb].
  set (M := (m1 * mc)%positive).
  assert (HM : Z.pos M = Z.pos m1 * Z.pos mc) by (subst M; lia).
  change (2 ^ 52) with 4503599627370496 in B1, Bc.
  change (2 ^ 53) with 9007199254740992 in B1, Bc.
  assert (BM : 2 ^ 104 <= Z.pos M < 2 ^ 106).
  { change (2 ^ 104) with (4503599627370496 * 4503599627370496).
    change (2 ^ 106) with (9007199254740992 * 9007199254740992). nia. }
  destruct (digits2_pos_spec M) as [Dlo Dhi].
  set (d := Z.pos (digits2_pos M)) in *.
  assert (Hd : 105 <= d <= 106).
  { split.
    - destruct (Z.le_gt_cases 105 d); [assumption|].
      assert (2 ^ d <= 2 ^ 104) by (apply Z.pow_le_mono_r; lia). lia.
    - destruct (Z.le_gt_cases d 106); [assumption|].
      assert (2 ^ 106 <= 2 ^ (d - 1)) by (apply Z.pow_le_mono_r; lia). lia. }
  destruct (binary_round_aux_normal false M (e1 + ec))
    as (m & e & Hm & He & _ & Hhi & Hr); [fold d; lia | fold d; lia |].
  fold d in He, Hhi.
  exists m, e.
  replace (e <=? 971) with true in Hr by (symmetry; apply Z.leb_le; lia).
  split; [exact Hr|]. split; [exact Hm|]. split; [lia|].
  assert (Hn : 0 < 2 ^ (d - 53)) by (apply Z.pow_pos_nonneg; lia).
  pose proof (Z.mod_pos_bound (Z.pos M) (2 ^ (d - 53)) Hn) as Hmod.
  pose proof (Z.div_mod (Z.pos M) (2 ^ (d - 53)) ltac:(lia)) as Hdm.
  assert (Hn53 : 2 ^ (d - 53) <= 2 ^ 53) by (apply Z.pow_le_mono_r; lia).
  assert (Hup : Z.pos m * 2 ^ (e - (e1 + ec)) <= Z.pos M + 2 ^ 53) by nia.
  assert (H51 : 2 ^ 51 * 2 ^ 53 <= Z.pos M)
    by (rewrite <- Z.pow_add_r by lia; exact (proj1 BM)).
  assert (Hrel : 2 ^ 51 * (Z.pos m * 2 ^ (e - (e1 + ec)))
                 <= (2 ^ 51 + 1) * Z.pos M).
  { change (2 ^ 51) with 2251799813685248 in *.
    change (2 ^ 53) with 9007199254740992 in *. nia. }
  replace (e + 104) with ((e - (e1 + ec)) + ((e1 + 52) + (ec + 52))) by lia.
  rewrite (Z.pow_add_r 2 (e - (e1 + ec)) ((e1 + 52) + (ec + 52))) by lia.
  rewrite (Z.pow_add_r 2 (e1 + 52) (ec + 52)) by lia.
  assert (HX : 0 < 2 ^ (e1 + 52)) by (apply Z.pow_pos_nonneg; lia).
  assert (HY : 0 < 2 ^ (ec + 52)) by (apply Z.pow_pos_nonneg; lia).
  rewrite HM in Hrel.
  generalize dependent (2 ^ (e - (e1 + ec))). intros R _ Hrel.
  generalize dependent (2 ^ (e1 + 52)). intros X HX.
  generalize dependent (2 ^ (ec + 52)). intros Y HY.
  change (2 ^ 51) with 2251799813685248 in *.
  assert (HXY : 0 < X * Y) by nia.
  replace (2251799813685248 * (Z.pos m * (R * (X * Y))))
    with (2251799813685248 * (Z.pos m * R) * (X * Y)) by ring.
  replace ((2251799813685248 + 1) * (Z.pos m1 * X * (Z.pos mc * Y)))
    with ((2251799813685248 + 1) * (Z.pos m1 * Z.pos mc) * (X * Y)) by ring.
  apply Z.mul_le_mono_nonneg_r; lia.
Qed.

(** A product [float64(t) * c] whose exact value is at most 2^62
    converts without overflow, to an integer within one part in 2^50 of
    the exact product. *)
Lemma mul_of_int_fits (t : Z) (mc : positive) (ec : Z) :
  0 <= t -> Z.pos (digits2_pos mc) = 53 -> -52 <= ec <= 0 ->
  t * (Z.pos mc * 2 ^ (ec + 52)) <= 2 ^ 114 ->
  let r := Float64.mul (Float64.of_int t) (S754_finite false mc ec) in
  fits_int64 r = true
  /\ 0 <= Float64.to_int64 r
  /\ 2 ^ 155 * Float64.to_int64 r
     <= (2 ^ 51 + 1) * (2 ^ 52 + 1) * (t * (Z.pos mc * 2 ^ (ec + 52)))
  /\ (r = S754_zero false \/ exists m e, r = S754_finite false m e).
Proof.
  intros Ht Hc Hec Hprod r. subst r.
  pose proof (digits53_bounds mc Hc) as Bc.
  assert (HY : 1 <= 2 ^ (ec + 52))
    by (pose proof (Z.pow_pos_nonneg 2 (ec + 52)); lia).
  destruct t as [|p|p]; try lia.
  - cbn. repeat split; try lia; auto.
  - assert (Hp : Z.pos p < 2 ^ 63).
    { change (2 ^ 52) with 4503599627370496 in Bc.
      change (2 ^ 114) with (4503599627370496 * 4611686018427387904) in Hprod.
      change (2 ^ 63) with 9223372036854775808. nia. }
    destruct (of_int_pos_upper p Hp) as (m1 & e1 & -> & H1 & He1 & Hx).
    destruct (mul_canonical_upper m1 e1 mc ec H1 Hc He1 Hec)
      as (m & e & -> & Hm & He & Hup).
    assert (Htr := truncate_scaled m e 104 ltac:(lia) ltac:(lia)).
    set (z := Z.pos m * 2 ^ (e + 104) / 2 ^ 104) in *.
    assert (Hz0 : 0 <= z).
    { subst z. apply Z.div_pos; [|reflexivity].
      pose proof (Z.pow_pos_nonneg 2 (e + 104)). lia. }
    assert (Hzle : 2 ^ 104 * z <= Z.pos m * 2 ^ (e + 104))
      by (subst z; apply Z.mul_div_le; reflexivity).
    assert (Hbound : 2 ^ 155 * z
                     <= (2 ^ 51 + 1) * (2 ^ 52 + 1)
                        * (Z.pos p * (Z.pos mc * 2 ^ (ec + 52)))).
    { clearbody z.
      set (V := Z.pos m * 2 ^ (e + 104)) in *.
      set (X := Z.pos m1 * 2 ^ (e1 + 52)) in *.
      set (C := Z.pos mc * 2 ^ (ec + 52)) in *.
      assert (HX0 : 0 < X)
        by (subst X; pose proof (Z.pow_pos_nonneg 2 (e1 + 52)); nia).
      assert (HC0 : 0 < C) by (subst C; nia).
      clearbody V X C.
      change (2 ^ 155) with (2 ^ 51 * 2 ^ 104).
      assert (X * C <= Z.pos p * (2 ^ 52 + 1) * C) by nia.
      change (2 ^ 51) with 2251799813685248 in *.
      change (2 ^ 52) with 4503599627370496 in *.
      change (2 ^ 104) with 20282409603651670423947251286016 in *.
      nia. }
    assert (Hin : Int64.in_range z = true).
    { unfold Int64.in_range, Int64.min_int, Int64.max_int.
      apply andb_true_intro; split; apply Z.leb_le; [lia|].
      change (2 ^ 155) with 45671926166590716193865151022383844364247891968 in Hbound.
      change (2 ^ 114) with 20769187434139310514121985316880384 in Hprod.
      change (2 ^ 51) with 2251799813685248 in Hbound.
      change (2 ^ 52) with 4503599627370496 in Hbound.
      change (2 ^ 63) with 9223372036854775808.
      clearbody z.
      set (P := Z.pos p * (Z.pos mc * 2 ^ (ec + 52))) in *. clearbody P. lia. }
    assert (Hfit : fits_int64 (S754_finite false m e) = true)
      by (unfold fits_int64; rewrite Htr; exact Hin).
    rewrite (to_int64_fits _ z Hfit Htr).
    repeat split; try assumption. right. eauto.
Qed.

Lemma max_selects (a b : Float64.t) :
  (a = S754_zero false \/ exists m e, a = S754_finite false m e) ->
  (b = S754_zero false \/ exists m e, b = S754_finite false m e) ->
  Float64.max a b = a \/ Float64.max a b = b.
Proof.
  intros [->|(ma & ea & ->)] [->|(mb & eb & ->)]; unfold Float64.max;
    cbn [Float64.is_pinf Float64.is_nan orb].
  - left. reflexivity.
  - right. reflexivity.
  - left. reflexivity.
  - change (Float64.eqb (S754_finite false ma ea) Float64.zero) with false.
    cbn [andb]. destruct (Float64.ltb _ _); auto.
Qed.

Lemma bufferMultiplier_canonical (bufferPercent : Z) :
  0 <= bufferPercent <= 100 ->
  exists mc ec,
    bufferMultiplier bufferPercent = S754_finite false mc ec
    /\ Z.pos (digits2_pos mc) = 53
    /\ -52 <= ec <= 0
    /\ Z.pos mc * 2 ^ (ec + 52) <= 2 ^ 53.
Proof.
  intros H.
  assert (Hall : forallb
                   (fun n => match bufferMultiplier (Z.of_nat n) with
                             | S754_finite false mc ec =>
                                 (Z.pos (digits2_pos mc) =? 53)
                                 && (-52 <=? ec) && (ec <=? 0)
                                 && (Z.pos mc * 2 ^ (ec + 52) <=? 2 ^ 53)
                             | _ => false
                             end) (seq 0 101) = true) by (vm_compute; reflexivity).
  rewrite forallb_forall in Hall.
  specialize (Hall (Z.to_nat bufferPercent)).
  rewrite Z2Nat.id in Hall by lia.
  assert (Hin : In (Z.to_nat bufferPercent) (seq 0 101)) by (apply in_seq; lia).
  specialize (Hall Hin).
  destruct (bufferMultiplier bufferPercent) as [| | |[] mc ec]; try discriminate.
  apply andb_prop in Hall as [Hall H4]. apply andb_prop in Hall as [Hall H3].
  apply andb_prop in Hall as [H1 H2].
  apply Z.eqb_eq in H1. apply Z.leb_le in H2, H3, H4.
  exists mc, ec. repeat split; assumption.
Qed.

(** [float64(t)] is exact for a positive integer below 2^53. *)
Lemma of_int_exact (p : positive) :
  Z.pos p < 2 ^ 53 ->
  exists m e,
    Float64.of_int (Z.pos p) = S754_finite false m e
    /\ Z.pos (digits2_pos m) = 53
    /\ -52 <= e <= 0
    /\ Z.pos m * 2 ^ (e + 52) = Z.pos p * 2 ^ 52.
Proof.
  intros Hp.
  unfold Float64.of_int, Float64.prec, Float64.emax.
  cbn [binary_normalize]. unfold binary_round.
  destruct (digits2_pos_spec p) as [Dlo Dhi].
  set (d := Z.pos (digits2_pos p)) in *.
  assert (Hd1 : 1 <= d) by (subst d; lia).
  assert (Hd53 : d <= 53).
  { destruct (Z.le_gt_cases d 53); [assumption|].
    assert (2 ^ 53 <= 2 ^ (d - 1)) by (apply Z.pow_le_mono_r; lia). lia. }
  rewrite Z.add_0_r, fexp_normal by lia.
  unfold shl_align. rewrite Z.sub_0_r.
  destruct (d - 53) as [|n|n] eqn:En; [| lia |].
  - cbv beta iota zeta. rewrite binary_round_aux_canonical by (fold d; lia).
    exists p, 0. cbn [Z.leb Z.compare]. split; [reflexivity|].
    split; [fold d; lia|]. split; [lia|]. reflexivity.
  - cbv beta iota zeta.
    assert (Hmz : 2 ^ 52 <= Z.pos (Pos.iter xO p n) < 2 ^ 53).
    { rewrite iter_xO_pow.
      replace 52 with ((d - 1) + Z.pos n) by lia.
      replace 53 with (d + Z.pos n) by lia.
      rewrite !Z.pow_add_r by lia.
      assert (0 < 2 ^ Z.pos n) by (apply Z.pow_pos_nonneg; lia). nia. }
    rewrite binary_round_aux_canonical
      by (try (apply digits2_pos_unique; exact Hmz); lia).
    exists (Pos.iter xO p n), (Z.neg n).
    replace (Z.neg n <=? 971) with true by (symmetry; apply Z.leb_le; lia).
    split; [reflexivity|].
    split; [apply digits2_pos_unique; exact Hmz|]. split; [lia|].
    rewrite iter_xO_pow.
    replace 52 with (Z.pos n + (Z.neg n + 52)) at 2 by lia.
    rewrite (Z.pow_add_r 2 (Z.pos n) (Z.neg n + 52)) by lia.
    lia.
Qed.

Lemma mul_canonical_near (m1 : positive) (e1 : Z) (mc : positive) (ec : Z) :
  Z.pos (digits2_pos m1) = 53 -> Z.pos (digits2_pos mc) = 53 ->
  -52 <= e1 <= 11 -> -52 <= ec <= 0 ->
  exists m e,
    Float64.mul (S754_finite false m1 e1) (S754_finite false mc ec)
      = S754_finite false m e
    /\ -52 <= e
    /\ 2 ^ 51 * (Z.pos m * 2 ^ (e + 104))
       <= (2 ^ 51 + 1)
          * ((Z.pos m1 * 2 ^ (e1 + 52)) * (Z.pos mc * 2 ^ (ec + 52)))
    /\ (2 ^ 52 - 1)
         * ((Z.pos m1 * 2 ^ (e1 + 52)) * (Z.pos mc * 2 ^ (ec + 52)))
       <= 2 ^ 52 * (Z.pos m * 2 ^ (e + 104)).
Proof.
  intros H1 Hc He1 Hec.
  pose proof (digits53_bounds m1 H1) as B1.
  pose proof (digits53_bounds mc Hc) as Bc.
  unfold Float64.mul, Float64.prec, Float64.emax. cbn [SFmul xorb].
  set (M := (m1 * mc)%positive).
  assert (HM : Z.pos M = Z.pos m1 * Z.pos mc) by (subst M; lia).
  change (2 ^ 52) with 4503599627370496 in B1, Bc.
  change (2 ^ 53) with 9007199254740992 in B1, Bc.
  assert (BM : 2 ^ 104 <= Z.pos M < 2 ^ 106).
  { change (2 ^ 104) with (4503599627370496 * 4503599627370496).
    change (2 ^ 106) with (9007199254740992 * 9007199254740992). nia. }
  destruct (digits2_pos_spec M) as [Dlo Dhi].
  set (d := Z.pos (digits2_pos M)) in *.
  assert (Hd : 105 <= d <= 106).
  { split.
    - destruct (Z.le_gt_cases 105 d); [assumption|].
      assert (2 ^ d <= 2 ^ 104) by (apply Z.pow_le_mono_r; lia). lia.
    - destruct (Z.le_gt_cases d 106); [assumption|].
      assert (2 ^ 106 <= 2 ^ (d - 1)) by (apply Z.pow_le_mono_r; lia). lia. }
  destruct (binary_round_aux_normal false M (e1 + ec))
    as (m & e & Hm & He & Hlo & Hhi & Hr); [fold d; lia | fold d; lia |].
  fold d in He, Hhi, Hlo.
  exists m, e.
  replace (e <=? 971) with true in Hr by (symmetry; apply Z.leb_le; lia).
  split; [exact Hr|]. split; [lia|].
  assert (Hn : 0 < 2 ^ (d - 53)) by (apply Z.pow_pos_nonneg; lia).
  pose proof (Z.mod_pos_bound (Z.pos M) (2 ^ (d - 53)) Hn) as Hmod.
  pose proof (Z.div_mod (Z.pos M) (2 ^ (d - 53)) ltac:(lia)) as Hdm.
  assert (Hn53 : 2 ^ (d - 53) <= 2 ^ 53) by (apply Z.pow_le_mono_r; lia).
  assert (Hup : Z.pos m * 2 ^ (e - (e1 + ec)) <= Z.pos M + 2 ^ 53) by nia.
  assert (Hdown : Z.pos M - 2 ^ (d - 53) < Z.pos m * 2 ^ (e - (e1 + ec))) by nia.
  assert (Hsplit : 2 ^ (d - 1) = 2 ^ 52 * 2 ^ (d - 53)).
  { rewrite <- Z.pow_add_r by lia. f_equal. lia. }
  assert (H51 : 2 ^ 51 * 2 ^ 53 <= Z.pos M)
    by (rewrite <- Z.pow_add_r by lia; exact (proj1 BM)).
  assert (Hrel : 2 ^ 51 * (Z.pos m * 2 ^ (e - (e1 + ec)))
                 <= (2 ^ 51 + 1) * Z.pos M).
  { change (2 ^ 51) with 2251799813685248 in *.
    change (2 ^ 53) with 9007199254740992 in *. nia. }
  assert (Hrel' : (2 ^ 52 - 1) * Z.pos M
                  <= 2 ^ 52 * (Z.pos m * 2 ^ (e - (e1 + ec)))).
  { change (2 ^ 52) with 4503599627370496 in *. nia. }
  replace (e + 104) with ((e - (e1 + ec)) + ((e1 + 52) + (ec + 52))) by lia.
  rewrite (Z.pow_add_r 2 (e - (e1 + ec)) ((e1 + 52) + (ec + 52))) by lia.
  rewrite (Z.pow_add_r 2 (e1 + 52) (ec + 52)) by lia.
  assert (HX : 0 < 2 ^ (e1 + 52)) by (apply Z.pow_pos_nonneg; lia).
  assert (HY : 0 < 2 ^ (ec + 52)) by (apply Z.pow_pos_nonneg; lia).
  rewrite HM in Hrel, Hrel'.
  clear Hup Hdown Hlo Hhi Hmod Hdm.
  generalize dependent (2 ^ (e - (e1 + ec))). intros R Hrel Hrel'.
  generalize dependent (2 ^ (e1 + 52)). intros X HX.
  generalize dependent (2 ^ (ec + 52)). intros Y HY.
  change (2 ^ 51) with 2251799813685248 in *.
  change (2 ^ 52) with 4503599627370496 in *.
  assert (HXY : 0 < X * Y) by nia.
  split.
  - replace (2251799813685248 * (Z.pos m * (R * (X * Y))))
      with (2251799813685248 * (Z.pos m * R) * (X * Y)) by ring.
    replace ((2251799813685248 + 1) * (Z.pos m1 * X * (Z.pos mc * Y)))
      with ((2251799813685248 + 1) * (Z.pos m1 * Z.pos mc) * (X * Y)) by ring.
    apply Z.mul_le_mono_nonneg_r; lia.
  - replace (4503599627370496 * (Z.pos m * (R * (X * Y))))
      with (4503599627370496 * (Z.pos m * R) * (X * Y)) by ring.
    replace ((4503599627370496 - 1) * (Z.pos m1 * X * (Z.pos mc * Y)))
      with ((4503599627370496 - 1) * (Z.pos m1 * Z.pos mc) * (X * Y)) by ring.
    apply Z.mul_le_mono_nonneg_r; lia.
Qed.

Lemma mul_of_int_near (t : Z) (mc : positive) (ec : Z) :
  0 <= t < 2 ^ 53 -> Z.pos (digits2_pos mc) = 53 -> -52 <= ec <= 0 ->
  Z.pos mc * 2 ^ (ec + 52) <= 2 ^ 53 ->
  let r := Float64.mul (Float64.of_int t) (S754_finite false mc ec) in
  let z := Float64.to_int64 r in
  fits_int64 r = true
  /\ 0 <= z
  /\ 2 ^ 103 * z <= (2 ^ 51 + 1) * (t * (Z.pos mc * 2 ^ (ec + 52)))
  /\ (2 ^ 52 - 1) * (t * (Z.pos mc * 2 ^ (ec + 52))) < 2 ^ 104 * (z + 1).
Proof.
  intros Ht Hc Hec HD r z. subst z r.
  assert (Hprod : t * (Z.pos mc * 2 ^ (ec + 52)) <= 2 ^ 114).
  { change (2 ^ 53) with 9007199254740992 in *.
    change (2 ^ 114) with (9007199254740992 * 9007199254740992 * 256). nia. }
  destruct (mul_of_int_fits t mc ec (proj1 Ht) Hc Hec Hprod)
    as (Hfit & Hz0 & _ & _).
  split; [exact Hfit|]. split; [exact Hz0|].
  destruct t as [|p|p]; try lia.
  - cbn. split; [lia|]. reflexivity.
  - destruct (of_int_exact p (proj2 Ht)) as (m1 & e1 & E1 & H1 & He1 & Hx).
    rewrite E1 in *.
    destruct (mul_canonical_near m1 e1 mc ec H1 Hc ltac:(lia) Hec)
      as (m & e & E & He & Hup & Hdown).
    rewrite E in *.
    assert (Htr := truncate_scaled m e 104 ltac:(lia) ltac:(lia)).
    rewrite (to_int64_fits _ _ Hfit Htr).
    set (V := Z.pos m * 2 ^ (e + 104)) in *.
    assert (HV : 0 <= V).
    { subst V. pose proof (Z.pow_pos_nonneg 2 (e + 104)). lia. }
    pose proof (Z.mul_div_le V (2 ^ 104) ltac:(reflexivity)) as Hzle.
    pose proof (Z.mul_succ_div_gt V (2 ^ 104) ltac:(reflexivity)) as Hzgt.
    set (z := V / 2 ^ 104) in *. clearbody z.
    rewrite Hx in Hup, Hdown.
    set (C := Z.pos mc * 2 ^ (ec + 52)) in *. clearbody C V.
    change (2 ^ 103) with (2 ^ 51 * 2 ^ 52) in *.
    change (2 ^ 104) with (2 ^ 52 * 2 ^ 52) in *.
    change (2 ^ 51) with 2251799813685248 in *.
    change (2 ^ 52) with 4503599627370496 in *.
    split; nia.
Qed.

Lemma bufferMultiplier_near (bufferPercent : Z) :
  0 <= bufferPercent <= 100 ->
  exists mc ec,
    bufferMultiplier bufferPercent = S754_finite false mc ec
    /\ Z.pos (digits2_pos mc) = 53
    /\ -52 <= ec <= 0
    /\ Z.pos mc * 2 ^ (ec + 52) <= 2 ^ 53
    /\ (100 + bufferPercent) * 2 ^ 52 - 100
       <= 100 * (Z.pos mc * 2 ^ (ec + 52))
       <= (100 + bufferPercent) * 2 ^ 52 + 100.
Proof.
  intros H.
  assert (Hall : forallb
                   (fun n => match bufferMultiplier (Z.of_nat n) with
                             | S754_finite false mc ec =>
                                 (Z.pos (digits2_pos mc) =? 53)
                                 && (-52 <=? ec) && (ec <=? 0)
                                 && (Z.pos mc * 2 ^ (ec + 52) <=? 2 ^ 53)
                                 && ((100 + Z.of_nat n) * 2 ^ 52 - 100
                                     <=? 100 * (Z.pos mc * 2 ^ (ec + 52)))
                                 && (100 * (Z.pos mc * 2 ^ (ec + 52))
                                     <=? (100 + Z.of_nat n) * 2 ^ 52 + 100)
                             | _ => false
                             end) (seq 0 101) = true) by (vm_compute; reflexivity).
  rewrite forallb_forall in Hall.
  specialize (Hall (Z.to_nat bufferPercent)).
  rewrite Z2Nat.id in Hall by lia.
  assert (Hin : In (Z.to_nat bufferPercent) (seq 0 101)) by (apply in_seq; lia).
  specialize (Hall Hin).
  destruct (bufferMultiplier bufferPercent) as [| | |[] mc ec]; try discriminate.
  apply andb_prop in Hall as [Hall H6]. apply andb_prop in Hall as [Hall H5].
  apply andb_prop in Hall as [Hall H4]. apply andb_prop in Hall as [Hall H3].
  apply andb_prop in Hall as [H1 H2].
  apply Z.eqb_eq in H1. apply Z.leb_le in H2, H3, H4, H5, H6.
  exists mc, ec. repeat split; assumption.
Qed.

(** For a peak of at most 2^43 bytes the converted float product is the
    exact product [peak * (100 + b) / 100] rounded down to a whole byte,
    or one byte less when the exact product is itself whole. *)
Lemma memoryTarget_near (peak bufferPercent : Z) :
  0 <= peak <= 2 ^ 43 -> 0 <= bufferPercent <= 100 ->
  let request := Float64.to_int64 (memoryTargetFloat peak bufferPercent) in
  0 <= request
  /\ 100 * request <= peak * (100 + bufferPercent) <= 100 * request + 100.
Proof.
  intros Hp Hb request. subst request. unfold memoryTargetFloat.
  destruct (bufferMultiplier_near _ Hb) as (mc & ec & -> & Hc & Hec & HD & Hlo & Hhi).
  destruct (mul_of_int_near peak mc ec ltac:(lia) Hc Hec HD)
    as (_ & Hz0 & Hup & Hdown).
  set (z := Float64.to_int64 _) in *. clearbody z.
  set (D := Z.pos mc * 2 ^ (ec + 52)) in *. clearbody D.
  split; [exact Hz0|].
  change (2 ^ 103) with 10141204801825835211973625643008 in *.
  change (2 ^ 104) with 20282409603651670423947251286016 in *.
  change (2 ^ 51) with 2251799813685248 in *.
  change (2 ^ 52) with 4503599627370496 in *.
  change (2 ^ 53) with 9007199254740992 in *.
  change (2 ^ 43) with 8796093022208 in *.
  split; nia.
Qed.

Lemma c1_2_near :
  exists mc ec,
    Float64.c1_2 = S754_finite false mc ec
    /\ Z.pos (digits2_pos mc) = 53
    /\ -52 <= ec <= 0
    /\ Z.pos mc * 2 ^ (ec + 52) <= 2 ^ 53
    /\ 6 * 2 ^ 52 - 5 <= 5 * (Z.pos mc * 2 ^ (ec + 52)) <= 6 * 2 ^ 52 + 5.
Proof.
  do 2 eexists. split; [reflexivity|].
  split; [reflexivity|]. cbn. lia.
Qed.

(** For a request of at most 2^44 bytes the converted float product is
    [request * 6 / 5] rounded down, or one byte less when that is
    whole. *)
Lemma memoryLimit_near (target : Z) :
  0 <= target <= 2 ^ 44 ->
  let limit := Float64.to_int64 (memoryLimitFloat target) in
  5 * limit <= 6 * target <= 5 * limit + 5.
Proof.
  intros Ht limit. subst limit. unfold memoryLimitFloat.
  destruct c1_2_near as (mc & ec & -> & Hc & Hec & HD & Hlo & Hhi).
  destruct (mul_of_int_near target mc ec ltac:(lia) Hc Hec HD)
    as (_ & Hz0 & Hup & Hdown).
  set (z := Float64.to_int64 _) in *. clearbody z.
  set (D := Z.pos mc * 2 ^ (ec + 52)) in *. clearbody D.
  change (2 ^ 103) with 10141204801825835211973625643008 in *.
  change (2 ^ 104) with 20282409603651670423947251286016 in *.
  change (2 ^ 51) with 2251799813685248 in *.
  change (2 ^ 52) with 4503599627370496 in *.
  change (2 ^ 53) with 9007199254740992 in *.
  change (2 ^ 44) with 17592186044416 in *.
  split; nia.
Qed.

Lemma maxZ_le (xs : list Z) (bound : Z) :
  0 <= bound -> Forall (fun x => x <= bound) xs -> maxZ xs <= bound.
Proof.
  intros Hb H. unfold maxZ. induction H as [|x xs Hx _ IH]; cbn; lia.
Qed.

(** The float converted for the CPU limit fits an int64 when the request
    and the peak are at most 2^60. *)
Lemma cpuLimitFloat_fits (request peak : Z) :
  request <= 2 ^ 60 -> 0 <= peak <= 2 ^ 60 ->
  fits_int64 (cpuLimitFloat request peak) = true.
Proof.
  intros Hreq Hpeak.
  change (2 ^ 60) with 1152921504606846976 in *.
  assert (H15 : Z.pos (digits2_pos 6755399441055744) = 53) by reflexivity.
  assert (H11 : Z.pos (digits2_pos 4953959590107546) = 53) by reflexivity.
  destruct (mul_of_int_fits peak 4953959590107546 (-52))
    as (Fb & _ & _ & Sb); [lia | exact H11 | lia | cbn; lia |].
  destruct (Z.lt_ge_cases request 0) as [Hn|Ht].
  { rewrite cpuLimitFloat_negative by lia. exact Fb. }
  destruct (mul_of_int_fits request 6755399441055744 (-52)) as (Fa & _ & _ & Sa);
    [lia | exact H15 | lia | cbn; lia |].
  unfold cpuLimitFloat.
  destruct (max_selects _ _ Sa Sb) as [E|E];
    unfold Float64.c1_5, Float64.c1_1; rewrite E; assumption.
Qed.

(** The conversions never overflow when the upper CPU bound and every
    reading are at most 2^60 (milli-cores, bytes). *)
Lemma conversionsFit_below_2_60 (metrics : WorkloadMetrics) (policy : Policy)
  (lo hi : Quantity.t) :
  Quantity.ParseQuantity (Min (Cpu policy)) = Some lo ->
  Quantity.ParseQuantity (Max (Cpu policy)) = Some hi ->
  0 <= BufferPercent (Memory policy) <= 100 ->
  Quantity.MilliValue hi <= 2 ^ 60 ->
  Forall (fun u => cpuMilli u <= 2 ^ 60 /\ memBytes u <= 2 ^ 60)
    (Usage metrics) ->
  conversionsFit metrics policy lo hi = true.
Proof.
  intros Hlo Hhi Hbp Hmax Hall.
  destruct (ParseQuantity_whole_milli _ _ Hlo) as [Plo _].
  destruct (ParseQuantity_whole_milli _ _ Hhi) as [Phi _].
  assert (Hcpu : maxZ (cpuValues metrics) <= 2 ^ 60).
  { apply maxZ_le; [lia|]. unfold cpuValues. apply Forall_map.
    eapply Forall_impl; [|exact Hall]. cbn. tauto. }
  assert (Hmem : maxZ (memValues metrics) <= 2 ^ 60).
  { apply maxZ_le; [lia|]. unfold memValues. apply Forall_map.
    eapply Forall_impl; [|exact Hall]. cbn. tauto. }
  pose proof (maxZ_nonneg (cpuValues metrics)) as Hcpu0.
  pose proof (maxZ_nonneg (memValues metrics)) as Hmem0.
  unfold conversionsFit.
  set (request := clamp _ _ _).
  assert (Hreq : request <= 2 ^ 60).
  { subst request. unfold clamp.
    rewrite (maxMilli_exact _ _ (in_range_below _ _ (conj Phi Hmax)
                                   ltac:(vm_compute; discriminate))).
    lia. }
  (* CPU limit *)
  assert (F1 : fits_int64 (cpuLimitFloat request (maxZ (cpuValues metrics))) = true)
    by (apply cpuLimitFloat_fits; lia).
  change (2 ^ 60) with 1152921504606846976 in *.
  assert (H12 : Z.pos (digits2_pos 5404319552844595) = 53) by reflexivity.
  (* memory request *)
  destruct (bufferMultiplier_canonical _ Hbp) as (mc & ec & Em & Hmc & Hec & Hc).
  change (2 ^ 53) with 9007199254740992 in Hc.
  destruct (mul_of_int_fits (maxZ (memValues metrics)) mc ec)
    as (F2 & T0 & Tb & _); [lia | exact Hmc | lia | |].
  { change (2 ^ 114) with (1152921504606846976 * 18014398509481984).
    assert (0 < Z.pos mc * 2 ^ (ec + 52))
      by (pose proof (Z.pow_pos_nonneg 2 (ec + 52)); nia).
    nia. }
  fold (memoryTargetFloat (maxZ (memValues metrics)) (BufferPercent (Memory policy)))
    in F1.
  unfold memoryTargetFloat. rewrite Em.
  set (T := Float64.to_int64 _) in *.
  (* memory limit *)
  assert (HT : T * 5404319552844595 <= 2 ^ 114).
  { assert (Hprod : maxZ (memValues metrics) * (Z.pos mc * 2 ^ (ec + 52))
                    <= 1152921504606846976 * 9007199254740992).
    { assert (0 < Z.pos mc * 2 ^ (ec + 52))
        by (pose proof (Z.pow_pos_nonneg 2 (ec + 52)); nia).
      nia. }
    set (P := maxZ (memValues metrics) * (Z.pos mc * 2 ^ (ec + 52))) in *.
    clearbody P T.
    change (2 ^ 155) with 45671926166590716193865151022383844364247891968 in Tb.
    change (2 ^ 114) with 20769187434139310514121985316880384.
    change (2 ^ 51) with 2251799813685248 in Tb.
    change (2 ^ 52) with 4503599627370496 in Tb.
    lia. }
  destruct (mul_of_int_fits T 5404319552844595 (-52)) as (F3 & _ & _ & _);
    [exact T0 | exact H12 | lia | cbn; exact HT |].
  unfold memoryLimitFloat, Float64.c1_2.
  rewrite F1, F2, F3. reflexivity.
Qed.

(* ===================================================================== *)
(** * Collector *)
(* ===================================================================== *)

Lemma addContainers_sum (cs : list ContainerMetrics) (cpu mem : Quantity.t) :
  addContainers (cpu, mem) cs =
  (cpu + sumZ (map (fun c => lookupUsage (ContainerUsage c) "cpu") cs),
   mem + sumZ (map (fun c => lookupUsage (ContainerUsage c) "memory") cs)).
Proof.
  unfold addContainers, sumZ.
  revert cpu mem; induction cs as [|c cs IH]; intros cpu mem; cbn.
  - f_equal; lia.
  - rewrite IH. unfold Quantity.Add. f_equal; lia.
Qed.

Lemma collectLoop_running (items : list PodMetrics) :
  forall cpu mem acc,
    snd (collectLoop items (cpu, mem, acc)) = acc ++ runningSamples cpu mem items.
Proof.
  unfold collectLoop.
  induction items as [|pod items IH]; intros cpu mem acc; cbn.
  - now rewrite app_nil_r.
  - rewrite addContainers_sum. fold (podCPU pod) (podMemory pod).
    rewrite IH. now rewrite <- app_assoc.
Qed.

Lemma runningSamples_length (items : list PodMetrics) :
  forall cpu mem,
    List.length (runningSamples cpu mem items) = List.length items.
Proof.
  induction items as [|p ps IH]; intros cpu mem; cbn; [easy|now rewrite IH].
Qed.

(** The collector never fails once the query answered, appends one sample
    per snapshot, and each sample carries the totals accumulated over all
    snapshots up to and including its own. *)
Lemma CollectWorkloadMetrics_running_totals (cl : Cluster) (d : Deployment)
  (w : World) (items : list PodMetrics) :
  listPodMetrics cl (DeploymentNamespace d) (Selector d) = Ok items ->
  fst (CollectWorkloadMetrics cl d w) =
    Ok {| WorkloadDeployment := d; Usage := runningSamples 0 0 items |}.
Proof.
  intros Hq.
  unfold CollectWorkloadMetrics, bind, List. cbn. rewrite Hq.
  pose proof (collectLoop_running items Quantity.zero Quantity.zero []) as H.
  destruct (collectLoop items (Quantity.zero, Quantity.zero, []))
    as [[c m] usage]. cbn in *. now rewrite H.
Qed.

(** C2, evaluated: two pod snapshots, one container each, using 100m and
    150m of CPU and 64Mi and 32Mi of memory.  The collector returns one
    sample per snapshot, but the second sample holds 250m and 96Mi, the
    totals over both pods, not the usage of the second pod alone. *)
Theorem C2_second_sample_is_running_total :
  let a := Fixtures.pod "api-0" 10 100000000 (64 * Fixtures.Mi) in
  let b := Fixtures.pod "api-1" 20 150000000 (32 * Fixtures.Mi) in
  let cl := Fixtures.cluster Fixtures.emptyStatus (Ok [a; b]) 1000 in
  fst (CollectWorkloadMetrics cl Fixtures.deployment Fixtures.world0) =
    Ok {| WorkloadDeployment := Fixtures.deployment;
          Usage :=
            [ {| CPUUsage := Quantity.NewMilliQuantity 100;
                 MemoryUsage := Quantity.NewQuantity (64 * Fixtures.Mi);
                 Timestamp := 10 |};
              {| CPUUsage := Quantity.NewMilliQuantity 250;
                 MemoryUsage := Quantity.NewQuantity (96 * Fixtures.Mi);
                 Timestamp := 20 |} ] |}
  /\ podCPU b = Quantity.NewMilliQuantity 150
  /\ podMemory b = Quantity.NewQuantity (32 * Fixtures.Mi)
  /\ Quantity.NewMilliQuantity 250 <> podCPU b.
Proof.
  cbv zeta. repeat split; try reflexivity. vm_compute. discriminate.
Qed.

(** C9 as worded fails on the code: a failed usage query is answered
    by a new error that wraps the store's one; neither the error value
    nor its text is the store's. *)
Lemma C9_returned_error_is_not_the_store_error :
  let store := ErrorString "metrics API unavailable" in
  let cl := Fixtures.cluster Fixtures.emptyStatus (Err store) 1000 in
  exists e,
    fst (CollectWorkloadMetrics cl Fixtures.deployment Fixtures.world0) = Err e
    /\ e <> store
    /\ Error e = "failed to get pod metrics: metrics API unavailable"%string
    /\ Error e <> Error store.
Proof.
  cbv zeta. eexists. split; [reflexivity|].
  repeat split; try discriminate. 
Qed.

(** C9, amended: when the usage query fails with [err], the collector
    sends that one query and no other, produces no metrics, and returns
    an error whose text is the store's prefixed with
    "failed to get pod metrics: " and whose cause is [err] itself. *)
Theorem C9_query_failure_is_wrapped_once (cl : Cluster) (d : Deployment)
  (w : World) (err : error) :
  listPodMetrics cl (DeploymentNamespace d) (Selector d) = Err err ->
  exists e w',
    CollectWorkloadMetrics cl d w = (Err e, w')
    /\ Unwrap e = Some err
    /\ Error e = ("failed to get pod metrics: " ++ Error err)%string
    /\ listCalls w' = S (listCalls w)
    /\ clockReads w' = clockReads w
    /\ events w' = events w
    /\ statusWrites w' = statusWrites w.
Proof.
  intros Hq. unfold CollectWorkloadMetrics, bind, List. rewrite Hq.
  do 2 eexists. split; [reflexivity|]. cbn. repeat split.
Qed.

Lemma C9_query_failure_witness :
  let store := ErrorString "metrics API unavailable" in
  let cl := Fixtures.cluster Fixtures.emptyStatus (Err store) 1000 in
  listPodMetrics cl "production" "app=api-service" = Err store
  /\ exists e w',
      CollectWorkloadMetrics cl Fixtures.deployment Fixtures.world0 = (Err e, w')
      /\ Unwrap e = Some store
      /\ Error e = ("failed to get pod metrics: " ++ Error store)%string
      /\ listCalls w' = S (listCalls Fixtures.world0)
      /\ clockReads w' = clockReads Fixtures.world0
      /\ events w' = events Fixtures.world0
      /\ statusWrites w' = statusWrites Fixtures.world0.
Proof.
  cbv zeta. split; [reflexivity|].
  apply (C9_query_failure_is_wrapped_once
           (Fixtures.cluster Fixtures.emptyStatus
              (Err (ErrorString "metrics API unavailable")) 1000)
           Fixtures.deployment Fixtures.world0
           (ErrorString "metrics API unavailable")).
  reflexivity.
Defined.

(* ===================================================================== *)
(** * Analyzer: the precondition *)
(* ===================================================================== *)

Lemma calculateCPURecommendation_returns (metrics : WorkloadMetrics)
  (policy : CPUPolicy) (lo hi : Quantity.t) :
  Usage metrics <> [] ->
  Quantity.ParseQuantity (Min policy) = Some lo ->
  Quantity.ParseQuantity (Max policy) = Some hi ->
  exists rec reason,
    calculateCPURecommendation metrics policy = Done (rec, reason).
Proof.
  intros Hne Hlo Hhi. unfold calculateCPURecommendation, MustParse.
  destruct (peakTotal cpuMilli (Usage metrics)) as [peak total].
  destruct (Usage metrics) as [|u us]; [contradiction|].
  replace (Z.of_nat (List.length (u :: us)) =? 0) with false
    by (symmetry; apply Z.eqb_neq; cbn [List.length]; lia).
  rewrite Hlo, Hhi. eauto.
Qed.

Lemma calculateMemoryRecommendation_returns (metrics : WorkloadMetrics)
  (policy : MemoryPolicy) :
  Usage metrics <> [] ->
  exists rec reason,
    calculateMemoryRecommendation metrics policy = Done (rec, reason).
Proof.
  intros Hne. unfold calculateMemoryRecommendation.
  destruct (peakTotal memBytes (Usage metrics)) as [peak total].
  destruct (Usage metrics) as [|u us]; [contradiction|].
  replace (Z.of_nat (List.length (u :: us)) =? 0) with false
    by (symmetry; apply Z.eqb_neq; cbn [List.length]; lia).
  eauto.
Qed.

(** With a policy whose CPU bounds parse, the analyzer returns its
    "no usage data available" error exactly on the empty series, and a
    recommendation on every other one. *)
Lemma GenerateRecommendation_error_iff_empty (metrics : WorkloadMetrics)
  (policy : Policy) (lo hi : Quantity.t) :
  Quantity.ParseQuantity (Min (Cpu policy)) = Some lo ->
  Quantity.ParseQuantity (Max (Cpu policy)) = Some hi ->
  (Usage metrics = [] ->
   GenerateRecommendation metrics policy =
     Done (Err (ErrorString "no usage data available")))
  /\ (Usage metrics <> [] ->
      exists rec, GenerateRecommendation metrics policy = Done (Ok rec))
  /\ ((exists e, GenerateRecommendation metrics policy = Done (Err e))
      <-> Usage metrics = []).
Proof.
  intros Hlo Hhi.
  assert (Hne : Usage metrics <> [] ->
                exists rec, GenerateRecommendation metrics policy = Done (Ok rec)).
  { intros Hne.
    destruct (calculateCPURecommendation_returns metrics (Cpu policy) lo hi
                Hne Hlo Hhi) as (c & rc & Hc).
    destruct (calculateMemoryRecommendation_returns metrics (Memory policy) Hne)
      as (m & rm & Hm).
    unfold GenerateRecommendation. rewrite Hc, Hm.
    destruct (Usage metrics); [contradiction|]. eauto. }
  assert (He : Usage metrics = [] ->
               GenerateRecommendation metrics policy =
                 Done (Err (ErrorString "no usage data available"))).
  { intros E. unfold GenerateRecommendation. now rewrite E. }
  repeat split; auto.
  - intros [e He']. destruct (Usage metrics) as [|u us] eqn:E; [reflexivity|].
    destruct Hne as [rec Hrec]; [discriminate|]. congruence.
  - intros E. eauto.
Qed.

(* ===================================================================== *)
(** * Analyzer: closed forms *)
(* ===================================================================== *)

Lemma clamp_steps (lo hi t : Z) :
  (let t1 := if t <? lo then lo else t in if t1 >? hi then hi else t1)
  = clamp lo hi t.
Proof.
  cbv zeta. unfold clamp.
  destruct (Z.ltb_spec t lo).
  - destruct (Z.gtb_spec lo hi); lia.
  - destruct (Z.gtb_spec t hi); lia.
Qed.

Lemma samples_pos (metrics : WorkloadMetrics) :
  Usage metrics <> [] -> 0 < samples metrics.
Proof.
  unfold samples. destruct (Usage metrics); [contradiction|].
  intros _. cbn [List.length]. lia.
Qed.

Lemma calculateCPURecommendation_closed (metrics : WorkloadMetrics)
  (policy : CPUPolicy) (lo hi : Quantity.t) :
  Usage metrics <> [] ->
  Quantity.ParseQuantity (Min policy) = Some lo ->
  Quantity.ParseQuantity (Max policy) = Some hi ->
  let avg :=
    Int64.quot (Int64.wrap (sumZ (cpuValues metrics))) (samples metrics) in
  let peak := maxZ (cpuValues metrics) in
  let target :=
    clamp (minMilli policy lo) (maxMilli policy hi)
      (cpuTarget avg (TargetUtilization policy)) in
  exists reason,
    calculateCPURecommendation metrics policy =
    Done ({| cpuRequest := Quantity.NewMilliQuantity target;
             cpuLimit :=
               Quantity.NewMilliQuantity
                 (Float64.to_int64 (cpuLimitFloat target peak)) |}, reason).
Proof.
  intros Hne Hlo Hhi. cbv zeta.
  pose proof (samples_pos metrics Hne) as Hn.
  unfold calculateCPURecommendation, MustParse.
  rewrite peakTotal_closed. fold (cpuValues metrics) (samples metrics).
  replace (samples metrics =? 0) with false by (symmetry; apply Z.eqb_neq; lia).
  rewrite Hlo, Hhi.
  fold (cpuTarget (Int64.quot (Int64.wrap (sumZ (cpuValues metrics)))
                     (samples metrics)) (TargetUtilization policy)).
  fold (minMilli policy lo) (maxMilli policy hi).
  rewrite clamp_steps. unfold cpuLimitFloat. eauto.
Qed.

Lemma calculateMemoryRecommendation_closed (metrics : WorkloadMetrics)
  (policy : MemoryPolicy) :
  Usage metrics <> [] ->
  let peak := maxZ (memValues metrics) in
  let target :=
    Float64.to_int64 (memoryTargetFloat peak (BufferPercent policy)) in
  exists reason,
    calculateMemoryRecommendation metrics policy =
    Done ({| memRequest := Quantity.NewQuantity target;
             memLimit :=
               Quantity.NewQuantity
                 (Float64.to_int64 (memoryLimitFloat target)) |}, reason).
Proof.
  intros Hne. cbv zeta.
  pose proof (samples_pos metrics Hne) as Hn.
  unfold calculateMemoryRecommendation.
  rewrite peakTotal_closed. fold (memValues metrics) (samples metrics).
  replace (samples metrics =? 0) with false by (symmetry; apply Z.eqb_neq; lia).
  unfold memoryTargetFloat, memoryLimitFloat, bufferMultiplier. eauto.
Qed.

Lemma GenerateRecommendation_closed (metrics : WorkloadMetrics)
  (policy : Policy) (lo hi : Quantity.t) :
  Usage metrics <> [] ->
  Quantity.ParseQuantity (Min (Cpu policy)) = Some lo ->
  Quantity.ParseQuantity (Max (Cpu policy)) = Some hi ->
  let avg :=
    Int64.quot (Int64.wrap (sumZ (cpuValues metrics))) (samples metrics) in
  let cpuTarget :=
    clamp (minMilli (Cpu policy) lo) (maxMilli (Cpu policy) hi)
      (cpuTarget avg (TargetUtilization (Cpu policy))) in
  let memTarget :=
    Float64.to_int64
      (memoryTargetFloat (maxZ (memValues metrics))
         (BufferPercent (Memory policy))) in
  exists reason,
    GenerateRecommendation metrics policy =
    Done (Ok {| CPURequest := Quantity.NewMilliQuantity cpuTarget;
                CPULimit :=
                  Quantity.NewMilliQuantity
                    (Float64.to_int64
                       (cpuLimitFloat cpuTarget (maxZ (cpuValues metrics))));
                MemoryRequest := Quantity.NewQuantity memTarget;
                MemoryLimit :=
                  Quantity.NewQuantity
                    (Float64.to_int64 (memoryLimitFloat memTarget));
                RecReason := reason;
                RecConfidence := calculateConfidence metrics |}).
Proof.
  intros Hne Hlo Hhi. cbv zeta.
  destruct (calculateCPURecommendation_closed metrics (Cpu policy) lo hi
              Hne Hlo Hhi) as [rc Hc].
  destruct (calculateMemoryRecommendation_closed metrics (Memory policy) Hne)
    as [rm Hm].
  unfold GenerateRecommendation. rewrite Hc, Hm.
  destruct (Usage metrics); [contradiction|]. cbn. eauto.
Qed.

(* ===================================================================== *)
(** * Analyzer: CPU bounds and formulas *)
(* ===================================================================== *)

(** C6 as worded fails on the code.  Bounds of 1 core and
    9223372036854775807 cores, both admitted by the validation pattern,
    with cpuMin <= cpuMax: the upper bound is 9223372036854775807000
    milli-cores, which no int64 holds, and [MilliValue()] returns -1000 for
    it; a reading of 100m at 70% then gives the request -1000m, below
    cpuMin, and the limit 110m. *)
Lemma C6_counterexample_bound_beyond_int64 :
  exists lo hi rec,
    Quantity.ParseQuantity "1" = Some lo
    /\ Quantity.ParseQuantity "9223372036854775807" = Some hi
    /\ lo <= hi
    /\ Quantity.MilliValue hi = 9223372036854775807000
    /\ maxMilli (Cpu (Fixtures.policy "1" "9223372036854775807" 70 20)) hi
       = -1000
    /\ GenerateRecommendation
         (Fixtures.series [Fixtures.sample 100 0])
         (Fixtures.policy "1" "9223372036854775807" 70 20) = Done (Ok rec)
    /\ CPURequest rec = Quantity.NewMilliQuantity (-1000)
    /\ CPULimit rec = Quantity.NewMilliQuantity 110
    /\ ~ lo <= CPURequest rec <= hi.
Proof.
  do 3 eexists. split; [reflexivity|]. split; [reflexivity|].
  split; [vm_compute; discriminate|]. split; [reflexivity|].
  split; [reflexivity|]. split; [vm_compute; reflexivity|].
  split; [reflexivity|]. split; [reflexivity|].
  vm_compute. intros [H _]. apply H. reflexivity.
Qed.

(** C6, amended.  For every non-empty series and every policy whose CPU
    bounds parse to counts of milli-cores within int64, with
    cpuMin <= cpuMax, the analyzer returns a recommendation whose CPU
    request lies in [cpuMin, cpuMax], whatever the series. *)
Theorem C6_cpu_request_within_bounds (metrics : WorkloadMetrics)
  (policy : Policy) (lo hi : Quantity.t) :
  Usage metrics <> [] ->
  Quantity.ParseQuantity (Min (Cpu policy)) = Some lo ->
  Quantity.ParseQuantity (Max (Cpu policy)) = Some hi ->
  Int64.in_range (Quantity.MilliValue lo) = true ->
  Int64.in_range (Quantity.MilliValue hi) = true ->
  Quantity.MilliValue lo <= Quantity.MilliValue hi ->
  exists rec,
    GenerateRecommendation metrics policy = Done (Ok rec)
    /\ Quantity.MilliValue lo <= Quantity.MilliValue (CPURequest rec)
         <= Quantity.MilliValue hi
    /\ lo <= CPURequest rec <= hi.
Proof.
  intros Hne Hlo Hhi Rlo Rhi Hle.
  destruct (GenerateRecommendation_closed metrics policy lo hi Hne Hlo Hhi)
    as [reason H].
  rewrite (minMilli_exact _ _ Rlo), (maxMilli_exact _ _ Rhi) in H.
  eexists. split; [exact H|]. cbn [CPURequest].
  rewrite MilliValue_NewMilliQuantity.
  destruct (ParseQuantity_whole_milli _ _ Hlo) as [_ Elo].
  destruct (ParseQuantity_whole_milli _ _ Hhi) as [_ Ehi].
  set (t := cpuTarget _ _).
  assert (Hc : Quantity.MilliValue lo
               <= clamp (Quantity.MilliValue lo) (Quantity.MilliValue hi) t
               <= Quantity.MilliValue hi) by (unfold clamp; lia).
  split; [exact Hc|].
  unfold Quantity.NewMilliQuantity in *.
  set (lm := Quantity.MilliValue lo) in *.
  set (hm := Quantity.MilliValue hi) in *.
  lia.
Qed.

(** An instance of C6: an average far above cpuMax (5000m against
    200m..800m) gives a request within the bounds. *)
Lemma C6_witness_average_above_max :
  let metrics := Fixtures.series [Fixtures.sample 5000 0] in
  let policy := Fixtures.policy "200m" "800m" 70 20 in
  Usage metrics <> []
  /\ Quantity.ParseQuantity (Min (Cpu policy)) = Some (Quantity.NewMilliQuantity 200)
  /\ Quantity.ParseQuantity (Max (Cpu policy)) = Some (Quantity.NewMilliQuantity 800)
  /\ Int64.in_range (Quantity.MilliValue (Quantity.NewMilliQuantity 200)) = true
  /\ Int64.in_range (Quantity.MilliValue (Quantity.NewMilliQuantity 800)) = true
  /\ Quantity.MilliValue (Quantity.NewMilliQuantity 200)
       <= Quantity.MilliValue (Quantity.NewMilliQuantity 800)
  /\ exists rec,
      GenerateRecommendation metrics policy = Done (Ok rec)
      /\ Quantity.MilliValue (Quantity.NewMilliQuantity 200)
           <= Quantity.MilliValue (CPURequest rec)
           <= Quantity.MilliValue (Quantity.NewMilliQuantity 800)
      /\ Quantity.NewMilliQuantity 200 <= CPURequest rec
           <= Quantity.NewMilliQuantity 800.
Proof.
  cbv zeta.
  split; [discriminate|]. split; [reflexivity|]. split; [reflexivity|].
  split; [reflexivity|]. split; [reflexivity|].
  split; [vm_compute; discriminate|].
  apply (C6_cpu_request_within_bounds
           (Fixtures.series [Fixtures.sample 5000 0])
           (Fixtures.policy "200m" "800m" 70 20)
           (Quantity.NewMilliQuantity 200) (Quantity.NewMilliQuantity 800)).
  - discriminate.
  - reflexivity.
  - reflexivity.
  - reflexivity.
  - reflexivity.
  - vm_compute; discriminate.
Defined.


(** A remark on the float quotient: readings of 7m at 7% utilization give
    the exact target 100m, but 7 / 0.07 in binary64 lies just below 100
    and truncates to 99m. *)
Lemma float_quotient_below_exact :
  exists rec,
    GenerateRecommendation
      (Fixtures.series [Fixtures.sample 7 0])
      (Fixtures.policy "0" "800m" 7 20) = Done (Ok rec)
    /\ Quantity.MilliValue (CPURequest rec) = 99
    /\ Qeq (Spec.cpuRequest [7] 7 0 800) (inject_Z 100).
Proof.
  eexists. split; [vm_compute; reflexivity|].
  split; reflexivity.
Qed.



(* ===================================================================== *)
(** * Analyzer: memory formulas *)
(* ===================================================================== *)

(** C7 as worded fails on the code.  A peak of 100 bytes with a 13%
    buffer: the exact product [100 * (1 + 13/100)] is 113 bytes, but in
    binary64 the product lies just below 113 and the analyzer stores 112
    bytes; the limit stored is 134 bytes, which is neither 1.2 times the
    request of the formula (135.6) nor 1.2 times the stored request
    (134.4). *)
Lemma C7_counterexample_exact_product :
  exists rec reason,
    calculateMemoryRecommendation
      (Fixtures.series [Fixtures.sample 0 100; Fixtures.sample 0 60])
      {| BufferPercent := 13 |} = Done (rec, reason)
    /\ Quantity.Value (memRequest rec) = 112
    /\ Quantity.Value (memLimit rec) = 134
    /\ Qeq (Spec.memoryRequest [100; 60] 13) (inject_Z 113)
    /\ Qeq (Spec.memoryLimit [100; 60] 13) (1356 # 10)
    /\ ~ Qeq (inject_Z (Quantity.Value (memRequest rec)))
            (Spec.memoryRequest [100; 60] 13)
    /\ ~ Qeq (inject_Z (Quantity.Value (memLimit rec)))
            (Spec.memoryLimit [100; 60] 13)
    /\ ~ Qeq (inject_Z (Quantity.Value (memLimit rec)))
            (inject_Z (Quantity.Value (memRequest rec)) * (12 # 10)).
Proof.
  do 2 eexists. split; [vm_compute; reflexivity|].
  split; [reflexivity|]. split; [reflexivity|].
  split; [reflexivity|]. split; [reflexivity|].
  repeat split; vm_compute; discriminate.
Qed.

(** C7, amended.  For every non-empty series whose memory readings are at
    most 2^43 bytes and a bufferPercent within 0..100, the memory request
    is [peak * (1 + bufferPercent / 100)] computed in float64 and
    truncated to whole bytes, where [peak] is the largest reading (0
    when none is positive): that is the exact product rounded down to a
    whole byte, or one byte less when the exact product is itself whole.
    The memory limit is [request * 1.2] computed in float64 from the
    stored request and truncated: the exact product of the stored request
    rounded down, or one byte less when that is whole.  No minimum or
    maximum enters the result, which depends on the policy through
    bufferPercent alone. *)
Theorem C7_memory_recommendation_formula (metrics : WorkloadMetrics)
  (policy : MemoryPolicy) :
  Usage metrics <> [] ->
  0 <= BufferPercent policy <= 100 ->
  Forall (fun u => memBytes u <= 2 ^ 43) (Usage metrics) ->
  exists rec reason,
    calculateMemoryRecommendation metrics policy = Done (rec, reason)
    /\ let peak := maxZ (memValues metrics) in
       let request := Quantity.Value (memRequest rec) in
       let limit := Quantity.Value (memLimit rec) in
       memRequest rec = Quantity.NewQuantity request
       /\ memLimit rec = Quantity.NewQuantity limit
       /\ request =
            Float64.to_int64
              (Float64.mul (Float64.of_int peak)
                 (Float64.add (Float64.of_int 1)
                    (Float64.div (Float64.of_int (BufferPercent policy))
                       (Float64.of_int 100))))
       /\ limit =
            Float64.to_int64
              (Float64.mul (Float64.of_int request) (Float64.decimal 12 10))
       /\ 100 * request <= peak * (100 + BufferPercent policy)
            <= 100 * request + 100
       /\ 5 * limit <= 6 * request <= 5 * limit + 5.
Proof.
  intros Hne Hb Hall.
  destruct (calculateMemoryRecommendation_closed metrics policy Hne)
    as [reason H].
  do 2 eexists. split; [exact H|]. cbv zeta. cbn [memRequest memLimit].
  rewrite !Value_NewQuantity.
  assert (Hp : 0 <= maxZ (memValues metrics) <= 2 ^ 43).
  { split; [apply maxZ_nonneg|]. apply maxZ_le; [lia|].
    unfold memValues. apply Forall_map. exact Hall. }
  destruct (memoryTarget_near _ _ Hp Hb) as [Hr0 Hr].
  set (request := Float64.to_int64 (memoryTargetFloat _ _)) in *.
  assert (Hr44 : 0 <= request <= 2 ^ 44).
  { change (2 ^ 43) with 8796093022208 in Hp.
    change (2 ^ 44) with 17592186044416. nia. }
  pose proof (memoryLimit_near request Hr44) as Hl.
  split; [reflexivity|]. split; [reflexivity|]. split; [reflexivity|].
  split; [reflexivity|]. split; [exact Hr|exact Hl].
Qed.

(** Scenario E as an instance of C7: a memory peak of 500Mi with a 20%
    buffer gives request 600Mi and limit 720Mi. *)
Lemma C7_witness_scenario_E :
  let policy := {| BufferPercent := 20 |} in
  Usage Fixtures.scenarioE <> []
  /\ 0 <= BufferPercent policy <= 100
  /\ Forall (fun u => memBytes u <= 2 ^ 43) (Usage Fixtures.scenarioE)
  /\ maxZ (memValues Fixtures.scenarioE) = 500 * Fixtures.Mi
  /\ exists rec reason,
      calculateMemoryRecommendation Fixtures.scenarioE policy
        = Done (rec, reason)
      /\ memRequest rec = Quantity.NewQuantity (600 * Fixtures.Mi)
      /\ memLimit rec = Quantity.NewQuantity (720 * Fixtures.Mi).
Proof.
  cbv zeta.
  assert (Hall : Forall (fun u => memBytes u <= 2 ^ 43)
                   (Usage Fixtures.scenarioE))
    by (cbn; repeat constructor; vm_compute; discriminate).
  split; [discriminate|]. split; [cbn; lia|]. split; [exact Hall|].
  split; [reflexivity|].
  destruct (C7_memory_recommendation_formula Fixtures.scenarioE
              {| BufferPercent := 20 |})
    as (rec & reason & Hrec & Hreq & Hlim & Hr & Hl & _).
  - discriminate.
  - cbn; lia.
  - exact Hall.
  - exists rec, reason. split; [exact Hrec|]. split.
    + rewrite Hreq. f_equal. rewrite Hr. vm_compute. reflexivity.
    + rewrite Hlim. f_equal. rewrite Hl, Hr. vm_compute. reflexivity.
Defined.

(** The recommendation returned by the analyzer carries these two
    quantities unchanged. *)
Lemma GenerateRecommendation_memory (metrics : WorkloadMetrics)
  (policy : Policy) (rec : Recommendation) :
  GenerateRecommendation metrics policy = Done (Ok rec) ->
  exists mem reason,
    calculateMemoryRecommendation metrics (Memory policy) = Done (mem, reason)
    /\ MemoryRequest rec = memRequest mem
    /\ MemoryLimit rec = memLimit mem.
Proof.
  unfold GenerateRecommendation.
  destruct (Usage metrics); [discriminate|].
  destruct (calculateCPURecommendation metrics (Cpu policy)) as [[c rc]|];
    [|discriminate].
  destruct (calculateMemoryRecommendation metrics (Memory policy))
    as [[m rm]|]; [|discriminate].
  intros [= <-]. eauto.
Qed.

(* ===================================================================== *)
(** * Analyzer: limits against requests *)
(* ===================================================================== *)

(** C5 as worded fails on the code at the edge of int64.  (i) CPU bounds
    of 9 * 10^15 cores (a string the CRD pattern admits): the request is
    9 * 10^18 milli-cores, the float 1.5 times that exceeds 2^63, and the
    conversion yields the limit -2^63 milli-cores, below the request.
    (ii) A memory reading of 6.5 * 10^18 bytes with a 20% buffer: the
    request is 7.8 * 10^18 bytes and the limit again -2^63. *)
Lemma C5_counterexample_conversion_overflow :
  (exists rec,
     GenerateRecommendation
       (Fixtures.series [Fixtures.sample 100 0])
       (Fixtures.policy "9000000000000000" "9000000000000000" 70 20)
     = Done (Ok rec)
     /\ Quantity.MilliValue (CPURequest rec) = 9000000000000000000
     /\ Quantity.MilliValue (CPULimit rec) = - 2 ^ 63
     /\ ~ CPURequest rec <= CPULimit rec)
  /\
  (exists rec,
     GenerateRecommendation
       (Fixtures.series [Fixtures.sample 100 6500000000000000000])
       (Fixtures.policy "100m" "800m" 70 20)
     = Done (Ok rec)
     /\ Quantity.Value (MemoryRequest rec) = 7800000000000000000
     /\ Quantity.Value (MemoryLimit rec) = - 2 ^ 63
     /\ ~ MemoryRequest rec <= MemoryLimit rec).
Proof.
  split; eexists; (split; [vm_compute; reflexivity|]);
    (split; [reflexivity|]); (split; [reflexivity|]);
    vm_compute; intros H; apply H; reflexivity.
Qed.

(** C5, amended.  For every non-empty series and every policy whose CPU
    bounds parse and whose bufferPercent is within 0..100, provided the
    three float values converted for the CPU limit, the memory request
    and the memory limit have an integer part within int64, the
    recommendation satisfies cpuLimit >= cpuRequest and
    memoryLimit >= memoryRequest, truncation included. *)
Theorem C5_limits_cover_requests (metrics : WorkloadMetrics)
  (policy : Policy) (lo hi : Quantity.t) :
  Usage metrics <> [] ->
  Quantity.ParseQuantity (Min (Cpu policy)) = Some lo ->
  Quantity.ParseQuantity (Max (Cpu policy)) = Some hi ->
  0 <= BufferPercent (Memory policy) <= 100 ->
  conversionsFit metrics policy lo hi = true ->
  exists rec,
    GenerateRecommendation metrics policy = Done (Ok rec)
    /\ CPURequest rec <= CPULimit rec
    /\ MemoryRequest rec <= MemoryLimit rec
    /\ Quantity.MilliValue (CPURequest rec) <= Quantity.MilliValue (CPULimit rec)
    /\ Quantity.Value (MemoryRequest rec) <= Quantity.Value (MemoryLimit rec).
Proof.
  intros Hne Hlo Hhi Hbp Hfit.
  destruct (GenerateRecommendation_closed metrics policy lo hi Hne Hlo Hhi)
    as [reason H].
  unfold conversionsFit in Hfit.
  apply andb_prop in Hfit as [Hfit Hf3]. apply andb_prop in Hfit as [Hf1 Hf2].
  eexists. split; [exact H|].
  cbn [CPURequest CPULimit MemoryRequest MemoryLimit].
  rewrite !MilliValue_NewMilliQuantity, !Value_NewQuantity.
  set (request := clamp _ _ _) in *.
  pose proof (cpuLimit_covers_request request (maxZ (cpuValues metrics))
                (maxZ_nonneg _) Hf1) as Hcpu.
  pose proof (memoryTarget_nonneg _ _ (maxZ_nonneg (memValues metrics)) Hbp Hf2)
    as Hmem0.
  pose proof (memoryLimit_covers_request _ Hmem0 Hf3) as Hmem.
  unfold Quantity.NewMilliQuantity, Quantity.NewQuantity.
  repeat split; lia.
Qed.

(** An instance of C5: readings of 100m..300m and 300Mi..500Mi, bounds
    100m..800m, 50% utilization, 20% buffer. *)
Lemma C5_witness_ordinary_series :
  let metrics :=
    Fixtures.series
      [Fixtures.sample 100 (300 * Fixtures.Mi);
       Fixtures.sample 200 (500 * Fixtures.Mi);
       Fixtures.sample 300 (400 * Fixtures.Mi)] in
  let policy := Fixtures.policy "100m" "800m" 50 20 in
  let lo := Quantity.NewMilliQuantity 100 in
  let hi := Quantity.NewMilliQuantity 800 in
  Usage metrics <> []
  /\ Quantity.ParseQuantity (Min (Cpu policy)) = Some lo
  /\ Quantity.ParseQuantity (Max (Cpu policy)) = Some hi
  /\ 0 <= BufferPercent (Memory policy) <= 100
  /\ conversionsFit metrics policy lo hi = true
  /\ exists rec,
      GenerateRecommendation metrics policy = Done (Ok rec)
      /\ CPURequest rec <= CPULimit rec
      /\ MemoryRequest rec <= MemoryLimit rec
      /\ Quantity.MilliValue (CPURequest rec)
           <= Quantity.MilliValue (CPULimit rec)
      /\ Quantity.Value (MemoryRequest rec)
           <= Quantity.Value (MemoryLimit rec).
Proof.
  cbv zeta.
  split; [discriminate|]. split; [reflexivity|]. split; [reflexivity|].
  split; [cbn; lia|]. split; [vm_compute; reflexivity|].
  apply (C5_limits_cover_requests
           (Fixtures.series
              [Fixtures.sample 100 (300 * Fixtures.Mi);
               Fixtures.sample 200 (500 * Fixtures.Mi);
               Fixtures.sample 300 (400 * Fixtures.Mi)])
           (Fixtures.policy "100m" "800m" 50 20)
           (Quantity.NewMilliQuantity 100) (Quantity.NewMilliQuantity 800)).
  - discriminate.
  - reflexivity.
  - reflexivity.
  - cbn; lia.
  - vm_compute; reflexivity.
Defined.

(** The invariant of C5 for magnitudes below 2^60: when the upper CPU
    bound and every reading are at most 2^60, no conversion overflows and
    both limits cover their requests. *)
Lemma limits_cover_requests_below_2_60 (metrics : WorkloadMetrics)
  (policy : Policy) (lo hi : Quantity.t) :
  Usage metrics <> [] ->
  Quantity.ParseQuantity (Min (Cpu policy)) = Some lo ->
  Quantity.ParseQuantity (Max (Cpu policy)) = Some hi ->
  0 <= BufferPercent (Memory policy) <= 100 ->
  Quantity.MilliValue hi <= 2 ^ 60 ->
  Forall (fun u => cpuMilli u <= 2 ^ 60 /\ memBytes u <= 2 ^ 60)
    (Usage metrics) ->
  exists rec,
    GenerateRecommendation metrics policy = Done (Ok rec)
    /\ CPURequest rec <= CPULimit rec
    /\ MemoryRequest rec <= MemoryLimit rec.
Proof.
  intros Hne Hlo Hhi Hbp Hmax Hall.
  pose proof (conversionsFit_below_2_60 metrics policy lo hi Hlo Hhi Hbp Hmax
                Hall) as Hfit.
  destruct (GenerateRecommendation_closed metrics policy lo hi Hne Hlo Hhi)
    as [reason H].
  unfold conversionsFit in Hfit.
  apply andb_prop in Hfit as [Hfit Hf3]. apply andb_prop in Hfit as [Hf1 Hf2].
  eexists. split; [exact H|].
  cbn [CPURequest CPULimit MemoryRequest MemoryLimit].
  set (request := clamp _ _ _) in *.
  pose proof (cpuLimit_covers_request request (maxZ (cpuValues metrics))
                (maxZ_nonneg _) Hf1) as Hcpu.
  pose proof (memoryTarget_nonneg _ _ (maxZ_nonneg (memValues metrics)) Hbp Hf2)
    as Hmem0.
  pose proof (memoryLimit_covers_request _ Hmem0 Hf3) as Hmem.
  unfold Quantity.NewMilliQuantity, Quantity.NewQuantity.
  split; lia.
Qed.

(* ===================================================================== *)
(** * Analyzer: confidence *)
(* ===================================================================== *)

Lemma SFcompare_antisym (x y : spec_float) :
  SFcompare y x = option_map CompOpp (SFcompare x y).
Proof.
  destruct x as [sx|sx| |sx mx ex], y as [sy|sy| |sy my ey]; cbn;
    try reflexivity;
    try (destruct sx; reflexivity);
    try (destruct sy; reflexivity);
    try (destruct sx, sy; reflexivity).
  destruct sx, sy; cbn; try reflexivity;
    rewrite (Z.compare_antisym ex ey);
    destruct (ex ?= ey); cbn; try reflexivity;
    rewrite (Pos.compare_cont_antisym mx my Eq); reflexivity.
Qed.

Lemma calculateConfidence_unfold (metrics : WorkloadMetrics) :
  calculateConfidence metrics =
  if samples metrics <? 5 then Float64.c0_3
  else if samples metrics <? 20 then Float64.c0_6
  else if Float64.ltb (cpuVariance metrics) Float64.c100 then Float64.c0_9
  else if Float64.ltb (cpuVariance metrics) Float64.c500 then Float64.c0_7
  else Float64.c0_5.
Proof.
  unfold calculateConfidence, cpuVariance, cpuValues, samples.
  now rewrite map_map.
Qed.

Lemma floatSum_fold (xs : list Float64.t) :
  forall acc, fold_left Float64.add xs acc = Spec.floatSum acc xs.
Proof. induction xs as [|x xs IH]; intros acc; cbn; [reflexivity|apply IH]. Qed.

Lemma floatSum_squares (mean : Float64.t) (xs : list Float64.t) :
  forall acc,
    fold_left (fun variance v =>
                 Float64.add variance (Float64.pow2 (Float64.sub v mean)))
      xs acc
    = Spec.floatSum acc
        (map (fun v => Float64.mul (Float64.sub v mean) (Float64.sub v mean))
           xs).
Proof. induction xs as [|x xs IH]; intros acc; cbn; [reflexivity|apply IH]. Qed.

(** What [calculateVariance] returns for the CPU readings of a non-empty
    series is the variance of the readings taken in binary64. *)
Lemma cpuVariance_varianceFloat (metrics : WorkloadMetrics) :
  Usage metrics <> [] ->
  cpuVariance metrics = Spec.varianceFloat (cpuValues metrics).
Proof.
  intros Hne. unfold cpuVariance, Spec.varianceFloat, calculateVariance.
  assert (Hv : map Float64.of_int (cpuValues metrics) <> []).
  { unfold cpuValues. destruct (Usage metrics); [contradiction|discriminate]. }
  destruct (map Float64.of_int (cpuValues metrics)) as [|v vs] eqn:E;
    [contradiction|].
  rewrite <- E. rewrite length_map.
  rewrite floatSum_squares, floatSum_fold. reflexivity.
Qed.

Lemma samples_nonempty (metrics : WorkloadMetrics) :
  0 < samples metrics -> Usage metrics <> [].
Proof.
  unfold samples. destruct (Usage metrics); [cbn; lia|discriminate].
Qed.

(** C8 as worded fails on the code.  25 samples whose population
    variance is exactly 500 call for 0.5 (the variance is not below
    500), but the variance the analyzer computes in binary64 lies just
    below 500 and the score is 0.7. *)
Lemma C8_counterexample_variance_500 :
  samples Fixtures.variance500 = 25
  /\ Qeq (Spec.variance (cpuValues Fixtures.variance500)) (inject_Z 500)
  /\ calculateConfidence Fixtures.variance500 = Float64.decimal 7 10
  /\ calculateConfidence Fixtures.variance500 <> Float64.decimal 5 10
  /\ Float64.ltb (Spec.varianceFloat (cpuValues Fixtures.variance500))
       (Float64.of_int 500) = true.
Proof.
  split; [reflexivity|]. split; [vm_compute; reflexivity|].
  split; [vm_compute; reflexivity|].
  split; [vm_compute; discriminate|]. vm_compute; reflexivity.
Qed.

(** C8, amended.  The confidence score depends on the series only
    through its number of samples and the variance of its CPU readings
    taken in binary64 (the readings summed from left to right and divided
    by their count for the mean, the squared deviations from that mean
    summed from left to right and divided by the count, every operation
    rounded): 0.3 below 5 samples, 0.6 from 5 to 19 samples, and from 20
    samples on 0.9 when that variance is below 100, 0.7 when it is not
    below 100 but below 500, and 0.5 otherwise.  Three samples give 0.3;
    the 25 samples of scenario C, whose variance is 50 in exact and in
    float arithmetic alike, give 0.9; 20 samples alternating between 0m
    and 100m, variance 2500, give 0.5. *)
Theorem C8_confidence_tiers :
  (forall metrics,
     let n := samples metrics in
     let variance := Spec.varianceFloat (cpuValues metrics) in
     let confidence := calculateConfidence metrics in
     (n < 5 -> confidence = Float64.decimal 3 10)
     /\ (5 <= n < 20 -> confidence = Float64.decimal 6 10)
     /\ (20 <= n -> Float64.ltb variance (Float64.of_int 100) = true ->
         confidence = Float64.decimal 9 10)
     /\ (20 <= n -> Float64.ltb variance (Float64.of_int 100) = false ->
         Float64.ltb variance (Float64.of_int 500) = true ->
         confidence = Float64.decimal 7 10)
     /\ (20 <= n -> Float64.ltb variance (Float64.of_int 100) = false ->
         Float64.ltb variance (Float64.of_int 500) = false ->
         confidence = Float64.decimal 5 10))
  /\ (forall m1 m2,
        samples m1 = samples m2 ->
        (20 <= samples m1 ->
         Spec.varianceFloat (cpuValues m1) = Spec.varianceFloat (cpuValues m2)) ->
        calculateConfidence m1 = calculateConfidence m2)
  /\ calculateConfidence Fixtures.scenarioA = Float64.decimal 3 10
  /\ samples Fixtures.scenarioA = 3
  /\ samples Fixtures.scenarioC = 25
  /\ Qeq (Spec.variance (cpuValues Fixtures.scenarioC)) (inject_Z 50)
  /\ Spec.varianceFloat (cpuValues Fixtures.scenarioC) = Float64.of_int 50
  /\ calculateConfidence Fixtures.scenarioC = Float64.decimal 9 10
  /\ samples Fixtures.spread = 20
  /\ Qeq (Spec.variance (cpuValues Fixtures.spread)) (inject_Z 2500)
  /\ Spec.varianceFloat (cpuValues Fixtures.spread) = Float64.of_int 2500
  /\ calculateConfidence Fixtures.spread = Float64.decimal 5 10.
Proof.
  split; [|split].
  - intros metrics n variance confidence.
    subst confidence. rewrite calculateConfidence_unfold.
    fold n.
    change (Float64.of_int 100) with Float64.c100.
    change (Float64.of_int 500) with Float64.c500.
    assert (Hv : 20 <= n -> cpuVariance metrics = variance).
    { intros H. apply cpuVariance_varianceFloat, samples_nonempty.
      fold n. lia. }
    repeat split.
    + intros H. destruct (Z.ltb_spec n 5); [reflexivity|lia].
    + intros H. destruct (Z.ltb_spec n 5); [lia|].
      destruct (Z.ltb_spec n 20); [reflexivity|lia].
    + intros H H1. destruct (Z.ltb_spec n 5); [lia|].
      destruct (Z.ltb_spec n 20); [lia|]. now rewrite (Hv H), H1.
    + intros H H1 H2. destruct (Z.ltb_spec n 5); [lia|].
      destruct (Z.ltb_spec n 20); [lia|]. now rewrite (Hv H), H1, H2.
    + intros H H1 H2. destruct (Z.ltb_spec n 5); [lia|].
      destruct (Z.ltb_spec n 20); [lia|]. now rewrite (Hv H), H1, H2.
  - intros m1 m2 Hn Hv. rewrite !calculateConfidence_unfold, <- Hn.
    destruct (Z.ltb_spec (samples m1) 5); [reflexivity|].
    destruct (Z.ltb_spec (samples m1) 20); [reflexivity|].
    rewrite !cpuVariance_varianceFloat
      by (apply samples_nonempty; lia).
    now rewrite Hv.
  - repeat split; vm_compute; reflexivity.
Qed.

(** An instance of C8 at scenario C: 25 samples, variance 50, below 100. *)
Lemma C8_witness_scenario_C :
  20 <= samples Fixtures.scenarioC
  /\ Float64.ltb (Spec.varianceFloat (cpuValues Fixtures.scenarioC))
       (Float64.of_int 100) = true
  /\ calculateConfidence Fixtures.scenarioC = Float64.decimal 9 10.
Proof.
  split; [vm_compute; discriminate|]. split; [vm_compute; reflexivity|].
  apply (proj1 C8_confidence_tiers Fixtures.scenarioC).
  - vm_compute; discriminate.
  - vm_compute; reflexivity.
Defined.


(* ===================================================================== *)
(** * Controller: conditions *)
(* ===================================================================== *)

Lemma updateCondition_found (cl : Cluster) (conds : list Condition)
  (condType : string) (statusType : ConditionStatus) (reason : string)
  (message : Text) (now : Time) (c : Condition) :
  findCondition conds condType = Some c ->
  exists m,
    updateCondition cl conds condType statusType reason message now = Some m
    /\ forall w,
        findCondition (fst (m w)) condType =
          Some {| Type_ := Type_ c; Status := statusType; Reason := reason;
                  Message := message;
                  LastTransitionTime := wallClock cl (clockReads w) |}
        /\ clockReads (snd (m w)) = S (clockReads w).
Proof.
  unfold findCondition.
  induction conds as [|c0 conds IH]; cbn; [discriminate|].
  destruct (String.eqb (Type_ c0) condType) eqn:E.
  - intros [= <-]. eexists. split; [reflexivity|].
    intros w. unfold bind, ret, Now. cbn.
    destruct (negb _); cbn; rewrite E; split; reflexivity.
  - intros H. destruct (IH H) as (m & -> & Hm).
    eexists. split; [reflexivity|]. intros w.
    unfold bind, ret. destruct (Hm w) as [Hf Hc].
    destruct (m w) as [conds' w']. cbn in *. now rewrite E.
Qed.

(** Whenever a condition of the type already exists, [addCondition]
    stamps it with a fresh clock reading, whether or not the value it
    stores differs from the one applied. *)
Lemma addCondition_existing_restamps (cl : Cluster)
  (status : ResourceOptimizerStatus) (condType : string)
  (statusType : ConditionStatus) (reason : string) (message : Text)
  (w : World) (c : Condition) :
  findCondition (Conditions status) condType = Some c ->
  findCondition (Conditions (fst (addCondition cl status condType statusType
                                     reason message w))) condType =
    Some {| Type_ := Type_ c; Status := statusType; Reason := reason;
            Message := message;
            LastTransitionTime := wallClock cl (S (clockReads w)) |}.
Proof.
  intros H. unfold addCondition, bind, Now. cbn.
  destruct (updateCondition_found cl (Conditions status) condType statusType
              reason message (wallClock cl (clockReads w)) c H)
    as (m & -> & Hm).
  match goal with |- context [m ?w0] => destruct (Hm w0) as [Hf _] end.
  destruct (m _) as [conds' w']. cbn in *. exact Hf.
Qed.

(** C1, evaluated.  (i) A status holds DeploymentReady=True since instant
    100; applying the very same condition again at instant 500 rewrites
    its lastTransitionTime (to the second clock reading, 501).  (ii) Two
    full passes over an unchanged cluster, the second one starting from
    the status the first one persisted: every condition keeps its value,
    and every lastTransitionTime moves. *)
Theorem C1_same_value_moves_lastTransitionTime :
  (let cl := Fixtures.cluster Fixtures.emptyStatus (Ok []) 500 in
   let status :=
     {| Conditions := [Fixtures.readyAt 100];
        CurrentRecommendation := None; LastOptimized := None |} in
   Conditions
     (fst (addCondition cl status "DeploymentReady" ConditionTrue
             "TargetFound" (Lit "Target Deployment exists") Fixtures.world0))
   = [Fixtures.readyAt 501])
  /\
  (let usage := Ok [Fixtures.pod "api-0" 10 100000000 (64 * Fixtures.Mi)] in
   let first :=
     Reconcile (Fixtures.cluster Fixtures.emptyStatus usage 1000)
       "maintenance" "api-service-optimizer" Fixtures.world0 in
   exists st1 st2,
     statusWrites (snd first) = [st1]
     /\ statusWrites
          (snd (Reconcile (Fixtures.cluster st1 usage 2000)
                  "maintenance" "api-service-optimizer" Fixtures.world0))
        = [st2]
     /\ map Type_ (Conditions st1) =
          ["DeploymentReady"; "OptimizationReady"; "Ready"]%string
     /\ map Type_ (Conditions st2) = map Type_ (Conditions st1)
     /\ map Status (Conditions st2) = map Status (Conditions st1)
     /\ map LastTransitionTime (Conditions st1) = [1000; 1002; 1003]
     /\ map LastTransitionTime (Conditions st2) = [2001; 2004; 2006]).
Proof.
  split.
  - reflexivity.
  - cbv zeta. do 2 eexists.
    split; [vm_compute; reflexivity|].
    split; [vm_compute; reflexivity|].
    repeat split.
Qed.

(* ===================================================================== *)
(** * Controller: a successful pass *)
(* ===================================================================== *)

Lemma CollectWorkloadMetrics_ok (cl : Cluster) (d : Deployment) (w : World)
  (items : list PodMetrics) :
  listPodMetrics cl (DeploymentNamespace d) (Selector d) = Ok items ->
  exists w',
    CollectWorkloadMetrics cl d w =
      (Ok {| WorkloadDeployment := d; Usage := runningSamples 0 0 items |}, w')
    /\ statusWrites w' = statusWrites w.
Proof.
  intros Hq.
  pose proof (CollectWorkloadMetrics_running_totals cl d w items Hq) as H.
  revert H. unfold CollectWorkloadMetrics, bind, List. rewrite Hq.
  destruct (collectLoop items (Quantity.zero, Quantity.zero, []))
    as [[c m] usage]. cbn. intros [= ->].
  eexists. split; reflexivity.
Qed.

Lemma addCondition_keeps (cl : Cluster) (status : ResourceOptimizerStatus)
  (condType : string) (statusType : ConditionStatus) (reason : string)
  (message : Text) (w : World) :
  CurrentRecommendation
    (fst (addCondition cl status condType statusType reason message w))
  = CurrentRecommendation status
  /\ statusWrites
       (snd (addCondition cl status condType statusType reason message w))
     = statusWrites w.
Proof.
  unfold addCondition, bind, Now. cbn.
  set (w1 := {| clockReads := S (clockReads w); listCalls := listCalls w;
                events := events w; statusWrites := statusWrites w |}).
  assert (Hu : forall conds now m,
             updateCondition cl conds condType statusType reason message now
               = Some m ->
             forall w0, statusWrites (snd (m w0)) = statusWrites w0).
  { induction conds as [|c conds IH]; cbn; [discriminate|].
    intros now m. destruct (String.eqb (Type_ c) condType).
    - intros [= <-] w0. reflexivity.
    - destruct (updateCondition cl conds condType statusType reason message now)
        as [m0|] eqn:E; [|discriminate].
      intros [= <-] w0. unfold bind, ret.
      specialize (IH now m0 E w0). destruct (m0 w0). exact IH. }
  destruct (updateCondition cl (Conditions status) condType statusType reason
              message (wallClock cl (clockReads w))) as [m|] eqn:E.
  - specialize (Hu _ _ _ E w1). destruct (m w1). cbn in *. now split.
  - cbn. now split.
Qed.

Lemma runningSamples_nonempty (items : list PodMetrics) (cpu mem : Quantity.t) :
  items <> [] -> runningSamples cpu mem items <> [].
Proof. destruct items; [contradiction|discriminate]. Qed.





(* ===================================================================== *)
(** * Controller: a pass without metrics, for every stored status *)
(* ===================================================================== *)

Lemma updateCondition_absent (cl : Cluster) (conds : list Condition)
  (condType : string) (statusType : ConditionStatus) (reason : string)
  (message : Text) (now : Time) :
  findCondition conds condType = None ->
  updateCondition cl conds condType statusType reason message now = None.
Proof.
  unfold findCondition.
  induction conds as [|c conds IH]; cbn; [reflexivity|].
  destruct (String.eqb (Type_ c) condType); [discriminate|].
  intros H. now rewrite (IH H).
Qed.

Lemma findCondition_app (conds : list Condition) (c : Condition)
  (condType : string) :
  findCondition (conds ++ [c]) condType =
    match findCondition conds condType with
    | Some found => Some found
    | None => if String.eqb (Type_ c) condType then Some c else None
    end.
Proof.
  unfold findCondition.
  induction conds as [|c0 conds IH]; cbn; [reflexivity|].
  destruct (String.eqb (Type_ c0) condType); [reflexivity|exact IH].
Qed.

(** After [addCondition], the condition of the type applied holds the
    value applied. *)
Lemma addCondition_sets (cl : Cluster) (status : ResourceOptimizerStatus)
  (condType : string) (statusType : ConditionStatus) (reason : string)
  (message : Text) (w : World) :
  exists c,
    findCondition
      (Conditions (fst (addCondition cl status condType statusType reason
                          message w))) condType = Some c
    /\ Status c = statusType /\ Reason c = reason /\ Message c = message.
Proof.
  destruct (findCondition (Conditions status) condType) as [c|] eqn:E.
  - rewrite (addCondition_existing_restamps cl status condType statusType
               reason message w c E).
    eexists. split; [reflexivity|]. cbn. auto.
  - unfold addCondition, bind, Now.
    rewrite (updateCondition_absent _ _ _ _ _ _ _ E).
    unfold ret. cbn [fst Conditions setConditions].
    rewrite findCondition_app, E. cbn [Type_].
    rewrite String.eqb_refl. eexists. split; [reflexivity|]. cbn. auto.
Qed.

Lemma updateCondition_other (cl : Cluster) (conds : list Condition)
  (condType other : string) (statusType : ConditionStatus) (reason : string)
  (message : Text) (now : Time) (m : M (list Condition)) :
  String.eqb condType other = false ->
  updateCondition cl conds condType statusType reason message now = Some m ->
  forall w, findCondition (fst (m w)) other = findCondition conds other.
Proof.
  intros Hneq. unfold findCondition. revert m.
  induction conds as [|c conds IH]; cbn; [discriminate|].
  intros m. destruct (String.eqb (Type_ c) condType) eqn:E.
  - intros [= <-] w. unfold bind, ret, Now. cbn.
    apply String.eqb_eq in E.
    assert (Hc : String.eqb (Type_ c) other = false) by (rewrite E; exact Hneq).
    destruct (negb _); cbn; rewrite Hc; reflexivity.
  - destruct (updateCondition cl conds condType statusType reason message now)
      as [m0|]; [|discriminate].
    intros [= <-] w. unfold bind, ret.
    specialize (IH m0 eq_refl w). destruct (m0 w) as [conds' w']. cbn in *.
    now rewrite IH.
Qed.

(** [addCondition] leaves the conditions of every other type as they
    were. *)
Lemma addCondition_other (cl : Cluster) (status : ResourceOptimizerStatus)
  (condType other : string) (statusType : ConditionStatus) (reason : string)
  (message : Text) (w : World) :
  String.eqb condType other = false ->
  findCondition
    (Conditions (fst (addCondition cl status condType statusType reason
                        message w))) other
  = findCondition (Conditions status) other.
Proof.
  intros Hneq. unfold addCondition, bind, Now. cbn.
  destruct (updateCondition cl (Conditions status) condType statusType reason
              message (wallClock cl (clockReads w))) as [m|] eqn:E.
  - pose proof (updateCondition_other _ _ _ _ _ _ _ _ _ Hneq E) as H.
    match goal with |- context [m ?w0] => specialize (H w0) end.
    destruct (m _) as [conds' w']. exact H.
  - unfold ret. cbn [fst Conditions setConditions].
    rewrite findCondition_app. cbn [Type_]. rewrite Hneq.
    now destruct (findCondition (Conditions status) other).
Qed.

(** Whatever status is stored, a pass whose target exists and whose usage
    query returns no snapshot persists OptimizationReady=False/NoMetricsData
    together with Ready=True/AllSubresourcesReady and asks for the
    15-minute requeue. *)
Lemma Reconcile_without_metrics (cl : Cluster) (namespace name : string)
  (w : World) (ro : ResourceOptimizer) (d : Deployment) :
  getOptimizer cl namespace name = Ok ro ->
  getDeployment cl (TargetNamespace (SpecTargetRef (Spec ro)))
    (TargetName (SpecTargetRef (Spec ro))) = Ok d ->
  listPodMetrics cl (DeploymentNamespace d) (Selector d) = Ok [] ->
  (forall written, statusUpdate cl written = None) ->
  exists w' status c1 c2,
    Reconcile cl namespace name w = (Done ({| RequeueAfter := 15 |}, None), w')
    /\ statusWrites w' = statusWrites w ++ [status]
    /\ findCondition (Conditions status) "OptimizationReady" = Some c1
    /\ Status c1 = ConditionFalse /\ Reason c1 = "NoMetricsData"%string
    /\ findCondition (Conditions status) "Ready" = Some c2
    /\ Status c2 = ConditionTrue /\ Reason c2 = "AllSubresourcesReady"%string.
Proof.
  intros Hro Hd Hq Hup.
  unfold Reconcile, bind, getDeploymentObject. rewrite Hro, Hd.
  unfold bind, recordEvent, ret.
  match goal with
  | |- context [addCondition ?c ?s ?t ?v ?r ?m ?w0] =>
      pose proof (addCondition_keeps c s t v r m w0) as [_ Hs1];
      destruct (addCondition c s t v r m w0) as [st1 w1]
  end.
  cbn in Hs1.
  destruct (CollectWorkloadMetrics_ok cl d w1 [] Hq) as (w2 & Hc & Hs2).
  unfold analyzeAndOptimize, bind. rewrite Hc. cbn [runningSamples Usage].
  unfold ret. cbn [OptimizerStatus setStatus].
  match goal with
  | |- context [addCondition ?c ?s ?t ?v ?r ?m ?w0] =>
      pose proof (addCondition_keeps c s t v r m w0) as [_ Hs3];
      destruct (addCondition_sets c s t v r m w0) as (c1 & Hf1 & Hv1 & Hr1 & _);
      destruct (addCondition c s t v r m w0) as [st3 w3]
  end.
  cbn in Hs3, Hf1.
  match goal with
  | |- context [addCondition ?c ?s ?t ?v ?r ?m ?w0] =>
      pose proof (addCondition_keeps c s t v r m w0) as [_ Hs4];
      destruct (addCondition_sets c s t v r m w0) as (c2 & Hf2 & Hv2 & Hr2 & _);
      pose proof (addCondition_other c s t "OptimizationReady" v r m w0 eq_refl)
        as Ho;
      destruct (addCondition c s t v r m w0) as [st4 w4]
  end.
  cbn in Hs4, Hf2, Ho. unfold updateStatus. rewrite Hup.
  do 2 eexists. exists c1, c2.
  split; [reflexivity|]. cbn [statusWrites OptimizerStatus setStatus].
  split; [rewrite Hs4, Hs3, Hs2, Hs1; reflexivity|].
  split; [rewrite Ho; exact Hf1|]. auto.
Qed.

(* ===================================================================== *)
(** * Controller: a pass without metrics *)
(* ===================================================================== *)

(** C3, evaluated on a cluster whose target exists and whose usage query
    answers with no snapshot.  The pass sets
    OptimizationReady=False/NoMetricsData and returns no error, but it
    does not stop there: it goes on to add Ready=True/AllSubresourcesReady
    to the same status, persists the three conditions together, and asks
    for the steady-state requeue of 15 minutes. *)
Theorem C3_empty_series_pass_still_marks_Ready :
  Reconcile (Fixtures.cluster Fixtures.emptyStatus (Ok []) 1000)
    "maintenance" "api-service-optimizer" Fixtures.world0
  = (Done ({| RequeueAfter := 15 |}, None),
     {| clockReads := 3;
        listCalls := 1;
        events :=
          [ {| EventType := "Normal"; EventReason := "DeploymentFound";
               EventMessage := Lit "Deployment found successfully" |} ];
        statusWrites :=
          [ {| Conditions :=
                 [ {| Type_ := "DeploymentReady"; Status := ConditionTrue;
                      Reason := "TargetFound";
                      Message := Lit "Target Deployment exists";
                      LastTransitionTime := 1000 |};
                   {| Type_ := "OptimizationReady"; Status := ConditionFalse;
                      Reason := "NoMetricsData";
                      Message := Lit "Waiting for metrics data to be available";
                      LastTransitionTime := 1001 |};
                   {| Type_ := "Ready"; Status := ConditionTrue;
                      Reason := "AllSubresourcesReady";
                      Message := Lit "All subresources are ready";
                      LastTransitionTime := 1002 |} ];
               CurrentRecommendation := None;
               LastOptimized := None |} ] |}).
Proof. reflexivity. Qed.

(* ===================================================================== *)
(** * Collector: the shape of the series *)
(* ===================================================================== *)

Lemma CollectWorkloadMetrics_world (cl : Cluster) (d : Deployment) (w : World) :
  snd (CollectWorkloadMetrics cl d w) =
    {| clockReads := clockReads w; listCalls := S (listCalls w);
       events := events w; statusWrites := statusWrites w |}.
Proof.
  unfold CollectWorkloadMetrics, bind, List.
  destruct (listPodMetrics cl _ _) as [items|err]; [|reflexivity].
  destruct (collectLoop items _) as [[c m] usage]. reflexivity.
Qed.

Lemma CollectWorkloadMetrics_returns (cl : Cluster) (d : Deployment)
  (w : World) (items : list PodMetrics) :
  listPodMetrics cl (DeploymentNamespace d) (Selector d) = Ok items ->
  CollectWorkloadMetrics cl d w =
    (Ok {| WorkloadDeployment := d; Usage := runningSamples 0 0 items |},
     {| clockReads := clockReads w; listCalls := S (listCalls w);
        events := events w; statusWrites := statusWrites w |}).
Proof.
  intros Hq.
  pose proof (CollectWorkloadMetrics_running_totals cl d w items Hq) as H1.
  pose proof (CollectWorkloadMetrics_world cl d w) as H2.
  destruct (CollectWorkloadMetrics cl d w) as [r w']. cbn [fst snd] in *.
  now subst.
Qed.

Lemma runningSamples_timestamps (items : list PodMetrics) :
  forall cpu mem,
    map Timestamp (runningSamples cpu mem items) = map PodTimestamp items.
Proof.
  induction items as [|pod items IH]; intros cpu mem; cbn; [reflexivity|].
  now rewrite IH.
Qed.

Lemma runningSamples_nth (items : list PodMetrics) :
  forall cpu mem k u,
    nth_error (runningSamples cpu mem items) k = Some u ->
    CPUUsage u = cpu + sumZ (map podCPU (firstn (S k) items))
    /\ MemoryUsage u = mem + sumZ (map podMemory (firstn (S k) items)).
Proof.
  induction items as [|pod items IH]; intros cpu mem k u.
  - destruct k; discriminate.
  - destruct k as [|k].
    + cbn. intros [= <-]. cbn. unfold sumZ. cbn. split; lia.
    + cbn [runningSamples nth_error]. intros H.
      destruct (IH _ _ _ _ H) as (Hc & Hm).
      rewrite Hc, Hm. change (firstn (S (S k)) (pod :: items))
        with (pod :: firstn (S k) items).
      unfold sumZ in *. cbn [map fold_right]. split; lia.
Qed.

(** X1.  When the usage query succeeds, the collector returns the
    deployment it was given and exactly one sample per pod snapshot, in
    the order of the answer, each stamped with the timestamp of its
    snapshot.  It sends one query, reads no clock, records no event and
    writes no status. *)
Theorem collector_one_sample_per_pod (cl : Cluster) (d : Deployment)
  (w : World) (items : list PodMetrics) :
  listPodMetrics cl (DeploymentNamespace d) (Selector d) = Ok items ->
  exists m w',
    CollectWorkloadMetrics cl d w = (Ok m, w')
    /\ WorkloadDeployment m = d
    /\ List.length (Usage m) = List.length items
    /\ map Timestamp (Usage m) = map PodTimestamp items
    /\ listCalls w' = S (listCalls w)
    /\ clockReads w' = clockReads w
    /\ events w' = events w
    /\ statusWrites w' = statusWrites w.
Proof.
  intros Hq. rewrite (CollectWorkloadMetrics_returns cl d w items Hq).
  do 2 eexists. split; [reflexivity|]. cbn [WorkloadDeployment Usage].
  split; [reflexivity|]. split; [apply runningSamples_length|].
  split; [apply runningSamples_timestamps|]. cbn. auto.
Qed.

(** An instance of X1: two pod snapshots taken at instants 10 and 20. *)
Lemma collector_one_sample_per_pod_witness :
  exists m w',
    CollectWorkloadMetrics
      (Fixtures.cluster Fixtures.emptyStatus (Ok Cases.twoPods) 1000)
      Fixtures.deployment Fixtures.world0 = (Ok m, w')
    /\ WorkloadDeployment m = Fixtures.deployment
    /\ List.length (Usage m) = List.length Cases.twoPods
    /\ map Timestamp (Usage m) = map PodTimestamp Cases.twoPods
    /\ listCalls w' = S (listCalls Fixtures.world0)
    /\ clockReads w' = clockReads Fixtures.world0
    /\ events w' = events Fixtures.world0
    /\ statusWrites w' = statusWrites Fixtures.world0.
Proof.
  apply (collector_one_sample_per_pod
           (Fixtures.cluster Fixtures.emptyStatus (Ok Cases.twoPods) 1000)
           Fixtures.deployment Fixtures.world0 Cases.twoPods).
  reflexivity.
Defined.

Lemma scale_up_nonneg (q unit : Z) :
  0 <= q -> 0 < unit -> 0 <= Quantity.scale_up q unit.
Proof.
  intros Hq Hu. unfold Quantity.scale_up.
  assert (0 <= (Z.abs q + unit - 1) / unit) by (apply Z.div_pos; lia).
  destruct (Z.eq_dec q 0) as [->|]; [cbn; lia|].
  rewrite Z.sgn_pos by lia. lia.
Qed.

Lemma scale_up_mono (a b unit : Z) :
  0 <= a <= b -> 0 < unit ->
  Quantity.scale_up a unit <= Quantity.scale_up b unit.
Proof.
  intros H Hu. unfold Quantity.scale_up.
  destruct (Z.eq_dec a 0) as [->|Ha].
  - cbn [Z.sgn Z.mul].
    assert (0 <= (Z.abs b + unit - 1) / unit) by (apply Z.div_pos; lia).
    destruct (Z.eq_dec b 0) as [->|]; [cbn; lia|].
    rewrite Z.sgn_pos by lia. lia.
  - rewrite !Z.sgn_pos by lia. rewrite !Z.abs_eq by lia.
    rewrite !Z.mul_1_l. apply Z.div_le_mono; lia.
Qed.

Lemma sumZ_cons (x : Z) (xs : list Z) : sumZ (x :: xs) = x + sumZ xs.
Proof. reflexivity. Qed.

Lemma sumZ_nonneg (xs : list Z) : Forall (fun x => 0 <= x) xs -> 0 <= sumZ xs.
Proof. induction 1; [cbn|rewrite sumZ_cons]; lia. Qed.

Lemma maxZ_cons (x : Z) (xs : list Z) : maxZ (x :: xs) = Z.max x (maxZ xs).
Proof. reflexivity. Qed.

Lemma maxZ_ge (xs : list Z) (x : Z) : In x xs -> x <= maxZ xs.
Proof.
  induction xs as [|y xs IH]; [contradiction|]. rewrite maxZ_cons.
  intros [->|H]; [lia|]. specialize (IH H). lia.
Qed.

Lemma sumZ_firstn_le (xs : list Z) :
  Forall (fun x => 0 <= x) xs ->
  forall k, sumZ (firstn k xs) <= sumZ xs.
Proof.
  induction 1 as [|x xs Hx Hxs IH]; intros k.
  - rewrite firstn_nil. lia.
  - destruct k as [|k]; cbn [firstn]; rewrite ?sumZ_cons.
    + change (sumZ []) with 0. pose proof (sumZ_nonneg xs Hxs). lia.
    + specialize (IH k). lia.
Qed.

(** X2.  When no pod reports a negative usage, the sample at position
    [k] of a collected series holds no less than the containers of the
    snapshots [0..k] use together and no more than the containers of
    all the snapshots use together, in CPU and in memory; the last sample
    holds exactly the usage of all the snapshots.  (A sample is a copy of
    the accumulators taken when snapshot [k] has been added; a quantity
    the library keeps behind a pointer is shared by that copy, which
    then goes on growing with the accumulator, and one kept in an int64
    is not: the bounds hold either way.) *)
Theorem collector_samples_cover_their_pods (cl : Cluster) (d : Deployment)
  (w : World) (items : list PodMetrics) (m : WorkloadMetrics) (k : nat)
  (u : UsageData) :
  listPodMetrics cl (DeploymentNamespace d) (Selector d) = Ok items ->
  Forall (fun pod => 0 <= podCPU pod /\ 0 <= podMemory pod) items ->
  fst (CollectWorkloadMetrics cl d w) = Ok m ->
  nth_error (Usage m) k = Some u ->
  sumZ (map podCPU (firstn (S k) items)) <= CPUUsage u
    <= sumZ (map podCPU items)
  /\ sumZ (map podMemory (firstn (S k) items)) <= MemoryUsage u
       <= sumZ (map podMemory items)
  /\ (S k = List.length items ->
      CPUUsage u = sumZ (map podCPU items)
      /\ MemoryUsage u = sumZ (map podMemory items)).
Proof.
  intros Hq Hall Hm Hu.
  rewrite (CollectWorkloadMetrics_returns cl d w items Hq) in Hm.
  injection Hm as <-. cbn [Usage] in Hu.
  destruct (runningSamples_nth _ _ _ _ _ Hu) as [Hc Hmem].
  rewrite Hc, Hmem, !Z.add_0_l.
  assert (H1 : Forall (fun x => 0 <= x) (map podCPU items)).
  { apply Forall_map. eapply Forall_impl; [|exact Hall]. cbn. tauto. }
  assert (H2 : Forall (fun x => 0 <= x) (map podMemory items)).
  { apply Forall_map. eapply Forall_impl; [|exact Hall]. cbn. tauto. }
  pose proof (sumZ_firstn_le _ H1 (S k)) as L1.
  pose proof (sumZ_firstn_le _ H2 (S k)) as L2.
  rewrite !firstn_map in L1, L2.
  split; [lia|]. split; [lia|].
  intros ->. rewrite firstn_all. split; reflexivity.
Qed.

(** An instance of X2: the second of two snapshots, 100m and 150m of CPU,
    64Mi and 32Mi of memory. *)
Lemma collector_samples_cover_their_pods_witness :
  let u :=
    {| CPUUsage := Quantity.NewMilliQuantity 250;
       MemoryUsage := Quantity.NewQuantity (96 * Fixtures.Mi);
       Timestamp := 20 |} in
  sumZ (map podCPU (firstn 2 Cases.twoPods)) <= CPUUsage u
    <= sumZ (map podCPU Cases.twoPods)
  /\ sumZ (map podMemory (firstn 2 Cases.twoPods)) <= MemoryUsage u
       <= sumZ (map podMemory Cases.twoPods)
  /\ (2%nat = List.length Cases.twoPods ->
      CPUUsage u = sumZ (map podCPU Cases.twoPods)
      /\ MemoryUsage u = sumZ (map podMemory Cases.twoPods)).
Proof.
  cbv zeta.
  apply (collector_samples_cover_their_pods
           (Fixtures.cluster Fixtures.emptyStatus (Ok Cases.twoPods) 1000)
           Fixtures.deployment Fixtures.world0 Cases.twoPods
           {| WorkloadDeployment := Fixtures.deployment;
              Usage := runningSamples 0 0 Cases.twoPods |}
           1%nat).
  - reflexivity.
  - repeat constructor; vm_compute; discriminate.
  - reflexivity.
  - reflexivity.
Defined.

(** With usages that are not negative the running totals grow, so the
    largest sample is the last one. *)
Lemma runningSamples_peaks (items : list PodMetrics) :
  forall cpu mem,
    0 <= cpu -> 0 <= mem ->
    Forall (fun pod => 0 <= podCPU pod /\ 0 <= podMemory pod) items ->
    items <> [] ->
    maxZ (map cpuMilli (runningSamples cpu mem items))
      = Quantity.MilliValue (cpu + sumZ (map podCPU items))
    /\ maxZ (map memBytes (runningSamples cpu mem items))
      = Quantity.Value (mem + sumZ (map podMemory items)).
Proof.
  induction items as [|pod items IH]; intros cpu mem Hc Hm Hall Hne;
    [contradiction|].
  inversion Hall as [|? ? [Hp1 Hp2] Hrest]; subst.
  cbn [runningSamples map]. rewrite !maxZ_cons, !sumZ_cons.
  unfold cpuMilli at 1, memBytes at 1. cbn [CPUUsage MemoryUsage].
  assert (Hs1 : 0 <= sumZ (map podCPU items)).
  { apply sumZ_nonneg, Forall_map. eapply Forall_impl; [|exact Hrest].
    cbn. tauto. }
  assert (Hs2 : 0 <= sumZ (map podMemory items)).
  { apply sumZ_nonneg, Forall_map. eapply Forall_impl; [|exact Hrest].
    cbn. tauto. }
  pose proof (scale_up_nonneg (cpu + podCPU pod) (10 ^ 6) ltac:(lia) ltac:(lia))
    as N1.
  pose proof (scale_up_nonneg (mem + podMemory pod) (10 ^ 9) ltac:(lia) ltac:(lia))
    as N2.
  pose proof (scale_up_mono (cpu + podCPU pod)
                (cpu + podCPU pod + sumZ (map podCPU items)) (10 ^ 6)
                ltac:(lia) ltac:(lia)) as M1.
  pose proof (scale_up_mono (mem + podMemory pod)
                (mem + podMemory pod + sumZ (map podMemory items)) (10 ^ 9)
                ltac:(lia) ltac:(lia)) as M2.
  rewrite !Z.add_assoc. unfold Quantity.MilliValue, Quantity.Value in *.
  destruct items as [|pod' items'].
  - cbn [runningSamples map]. change (maxZ []) with 0.
    change (sumZ []) with 0 in *. rewrite !Z.add_0_r in *. lia.
  - destruct (IH (cpu + podCPU pod) (mem + podMemory pod) ltac:(lia) ltac:(lia)
                Hrest ltac:(discriminate)) as [IHc IHm].
    rewrite IHc, IHm. lia.
Qed.

(** X3.  Collector and analyzer together: when no pod reports a negative
    usage, the peak the analyzer's scan finds in a collected series is
    the usage of all the pods of the answer together, in milli-cores and
    in bytes. *)
Theorem collected_peak_is_deployment_total (cl : Cluster) (d : Deployment)
  (w : World) (items : list PodMetrics) (m : WorkloadMetrics) :
  listPodMetrics cl (DeploymentNamespace d) (Selector d) = Ok items ->
  Forall (fun pod => 0 <= podCPU pod /\ 0 <= podMemory pod) items ->
  fst (CollectWorkloadMetrics cl d w) = Ok m ->
  fst (peakTotal cpuMilli (Usage m))
    = Quantity.MilliValue (sumZ (map podCPU items))
  /\ fst (peakTotal memBytes (Usage m))
    = Quantity.Value (sumZ (map podMemory items)).
Proof.
  intros Hq Hall Hm.
  rewrite (CollectWorkloadMetrics_returns cl d w items Hq) in Hm.
  injection Hm as <-. cbn [Usage]. rewrite !peakTotal_closed. cbn [fst].
  destruct items as [|pod items].
  - cbn. split; reflexivity.
  - destruct (runningSamples_peaks (pod :: items) 0 0 ltac:(lia) ltac:(lia) Hall
                ltac:(discriminate)) as [Hc Hm].
    rewrite Hc, Hm. split; reflexivity.
Qed.

(** An instance of X3: pods using 100m and 150m, 64Mi and 32Mi; the peak
    is 250m and 96Mi. *)
Lemma collected_peak_is_deployment_total_witness :
  fst (peakTotal cpuMilli (runningSamples 0 0 Cases.twoPods))
    = Quantity.MilliValue (sumZ (map podCPU Cases.twoPods))
  /\ fst (peakTotal memBytes (runningSamples 0 0 Cases.twoPods))
    = Quantity.Value (sumZ (map podMemory Cases.twoPods)).
Proof.
  apply (collected_peak_is_deployment_total
           (Fixtures.cluster Fixtures.emptyStatus (Ok Cases.twoPods) 1000)
           Fixtures.deployment Fixtures.world0 Cases.twoPods
           {| WorkloadDeployment := Fixtures.deployment;
              Usage := runningSamples 0 0 Cases.twoPods |}).
  - reflexivity.
  - repeat constructor; vm_compute; discriminate.
  - reflexivity.
Defined.

(* ===================================================================== *)
(** * Collector: GetAverageUsage *)
(* ===================================================================== *)

Lemma averageTotals_closed (vs : list UsageData) :
  fold_left
    (fun '(totalCPU, totalMemory) sample =>
       (Int64.add totalCPU (Quantity.MilliValue (CPUUsage sample)),
        Int64.add totalMemory (Quantity.Value (MemoryUsage sample))))
    vs (0, 0)
  = (Int64.wrap (sumZ (map cpuMilli vs)), Int64.wrap (sumZ (map memBytes vs))).
Proof.
  enough (H : forall c m,
            fold_left
              (fun '(totalCPU, totalMemory) sample =>
                 (Int64.add totalCPU (Quantity.MilliValue (CPUUsage sample)),
                  Int64.add totalMemory (Quantity.Value (MemoryUsage sample))))
              vs (Int64.wrap c, Int64.wrap m)
            = (Int64.wrap (c + sumZ (map cpuMilli vs)),
               Int64.wrap (m + sumZ (map memBytes vs)))).
  { exact (H 0 0). }
  induction vs as [|u vs IH]; intros c m; cbn [fold_left map].
  - change (sumZ []) with 0. now rewrite !Z.add_0_r.
  - unfold Int64.add. rewrite !wrap_add_idem, IH.
    unfold sumZ, cpuMilli, memBytes. cbn [fold_right].
    f_equal; f_equal; lia.
Qed.

(** The result of [GetAverageUsage] in terms of the samples after the
    cutoff. *)
Lemma GetAverageUsage_closed (cl : Cluster) (metrics : WorkloadMetrics)
  (duration : Z) (w : World) :
  fst (GetAverageUsage cl metrics duration w) =
    match recentSamples (cutoffAt cl w duration) metrics with
    | [] => (Quantity.zero, Quantity.zero)
    | _ :: _ =>
        (Quantity.NewMilliQuantity
           (Int64.quot
              (Int64.wrap
                 (sumZ (map cpuMilli
                          (recentSamples (cutoffAt cl w duration) metrics))))
              (Z.of_nat
                 (List.length
                    (recentSamples (cutoffAt cl w duration) metrics)))),
         Quantity.NewQuantity
           (Int64.quot
              (Int64.wrap
                 (sumZ (map memBytes
                          (recentSamples (cutoffAt cl w duration) metrics))))
              (Z.of_nat
                 (List.length
                    (recentSamples (cutoffAt cl w duration) metrics)))))
    end.
Proof.
  unfold GetAverageUsage, recentSamples, cutoffAt.
  destruct (Usage metrics) as [|u us] eqn:E; [reflexivity|].
  unfold bind, Now, ret. cbn [fst].
  destruct (filter _ (u :: us)) as [|v vs] eqn:F; [reflexivity|].
  rewrite averageTotals_closed. reflexivity.
Qed.

(** Go's integer division keeps a quotient between the bounds of the
    terms of the sum. *)
Lemma quot_between (total n lo hi : Z) :
  0 < n -> n * lo <= total <= n * hi -> lo <= Z.quot total n <= hi.
Proof.
  intros Hn [H1 H2].
  destruct (Z.le_gt_cases 0 total) as [Hs|Hs].
  - rewrite Z.quot_div_nonneg by lia. split.
    + destruct (Z.le_gt_cases lo 0).
      * pose proof (Z.div_pos total n). lia.
      * apply Z.div_le_lower_bound; lia.
    + apply Z.lt_succ_r. apply Z.div_lt_upper_bound; nia.
  - replace total with (- (- total)) by lia.
    rewrite Z.quot_opp_l by lia. rewrite Z.quot_div_nonneg by lia.
    split.
    + assert (- total / n < - lo + 1); [|lia].
      apply Z.div_lt_upper_bound; nia.
    + destruct (Z.le_gt_cases 0 hi).
      * pose proof (Z.div_pos (- total) n). lia.
      * assert (- hi <= - total / n); [|lia].
        apply Z.div_le_lower_bound; nia.
Qed.

Lemma sumZ_between (xs : list Z) (lo hi : Z) :
  Forall (fun x => lo <= x <= hi) xs ->
  Z.of_nat (List.length xs) * lo <= sumZ xs <= Z.of_nat (List.length xs) * hi.
Proof.
  induction 1 as [|x xs Hx _ IH].
  - cbn. lia.
  - rewrite sumZ_cons. cbn [List.length]. rewrite Nat2Z.inj_succ. lia.
Qed.

(** X4.  [GetAverageUsage] answers with two zero quantities when no
    sample is strictly later than the cutoff [now - duration]: a sample
    taken exactly at the cutoff does not count.  For an empty series it
    does not even read the clock. *)
Theorem GetAverageUsage_nothing_recent (cl : Cluster)
  (metrics : WorkloadMetrics) (duration : Z) (w : World) :
  Forall (fun u => Timestamp u <= cutoffAt cl w duration) (Usage metrics) ->
  fst (GetAverageUsage cl metrics duration w) = (Quantity.zero, Quantity.zero)
  /\ (Usage metrics = [] -> snd (GetAverageUsage cl metrics duration w) = w).
Proof.
  intros Hall. split.
  - rewrite GetAverageUsage_closed. unfold recentSamples.
    replace (filter _ (Usage metrics)) with (@nil UsageData); [reflexivity|].
    symmetry. induction Hall as [|u us Hu _ IH]; [reflexivity|].
    cbn [filter]. destruct (Z.ltb_spec (cutoffAt cl w duration) (Timestamp u));
      [lia|exact IH].
  - intros E. unfold GetAverageUsage. now rewrite E.
Qed.

(** An instance of X4: the clock reads 1000 and the window is 100; the
    samples were taken at 0, before the cutoff, and at 900, on it. *)
Lemma GetAverageUsage_nothing_recent_witness :
  fst (GetAverageUsage
         (Fixtures.cluster Fixtures.emptyStatus (Ok []) 1000)
         (Fixtures.series
            [ Fixtures.sample 100 0;
              {| CPUUsage := Quantity.NewMilliQuantity 300;
                 MemoryUsage := Quantity.NewQuantity 0;
                 Timestamp := 900 |} ])
         100 Fixtures.world0)
  = (Quantity.zero, Quantity.zero)
  /\ (Usage
        (Fixtures.series
           [ Fixtures.sample 100 0;
             {| CPUUsage := Quantity.NewMilliQuantity 300;
                MemoryUsage := Quantity.NewQuantity 0;
                Timestamp := 900 |} ]) = [] ->
      snd (GetAverageUsage
             (Fixtures.cluster Fixtures.emptyStatus (Ok []) 1000)
             (Fixtures.series
                [ Fixtures.sample 100 0;
                  {| CPUUsage := Quantity.NewMilliQuantity 300;
                     MemoryUsage := Quantity.NewQuantity 0;
                     Timestamp := 900 |} ])
             100 Fixtures.world0)
      = Fixtures.world0).
Proof.
  apply (GetAverageUsage_nothing_recent
           (Fixtures.cluster Fixtures.emptyStatus (Ok []) 1000)
           (Fixtures.series
              [ Fixtures.sample 100 0;
                {| CPUUsage := Quantity.NewMilliQuantity 300;
                   MemoryUsage := Quantity.NewQuantity 0;
                   Timestamp := 900 |} ])
           100 Fixtures.world0).
  repeat constructor; vm_compute; discriminate.
Defined.

(** X5.  When some sample is later than the cutoff and the sums of the
    later samples fit an int64, each average [GetAverageUsage] returns
    lies between the smallest and the largest reading among those
    samples. *)
Theorem GetAverageUsage_between_extremes (cl : Cluster)
  (metrics : WorkloadMetrics) (duration : Z) (w : World)
  (cpuLo cpuHi memLo memHi : Z) :
  recentSamples (cutoffAt cl w duration) metrics <> [] ->
  Forall (fun u => cpuLo <= cpuMilli u <= cpuHi /\ memLo <= memBytes u <= memHi)
    (recentSamples (cutoffAt cl w duration) metrics) ->
  Int64.in_range
    (sumZ (map cpuMilli (recentSamples (cutoffAt cl w duration) metrics)))
    = true ->
  Int64.in_range
    (sumZ (map memBytes (recentSamples (cutoffAt cl w duration) metrics)))
    = true ->
  cpuLo
    <= Quantity.MilliValue (fst (fst (GetAverageUsage cl metrics duration w)))
    <= cpuHi
  /\ memLo
     <= Quantity.Value (snd (fst (GetAverageUsage cl metrics duration w)))
     <= memHi.
Proof.
  intros Hne Hall Hc Hm.
  rewrite GetAverageUsage_closed.
  set (recent := recentSamples (cutoffAt cl w duration) metrics) in *.
  destruct recent as [|u us] eqn:E; [contradiction|]. rewrite <- E in *.
  assert (Hn : 0 < Z.of_nat (List.length recent)) by (rewrite E; cbn; lia).
  cbn [fst snd].
  rewrite MilliValue_NewMilliQuantity, Value_NewQuantity.
  rewrite (wrap_in_range _ Hc), (wrap_in_range _ Hm).
  rewrite !quot_in_range by assumption.
  split; apply quot_between; try assumption.
  - rewrite <- (length_map cpuMilli). apply sumZ_between, Forall_map.
    eapply Forall_impl; [|exact Hall]. cbn. tauto.
  - rewrite <- (length_map memBytes). apply sumZ_between, Forall_map.
    eapply Forall_impl; [|exact Hall]. cbn. tauto.
Qed.

(** An instance of X5: of three samples, the two taken at 950 and 990
    are later than the cutoff 900; they read 200m and 301m, 64 and 32
    bytes. *)
Lemma GetAverageUsage_between_extremes_witness :
  200 <= Quantity.MilliValue
           (fst (fst (GetAverageUsage
                        (Fixtures.cluster Fixtures.emptyStatus (Ok []) 1000)
                        (Fixtures.series
                           [ Fixtures.sample 5000 4096;
                             {| CPUUsage := Quantity.NewMilliQuantity 200;
                                MemoryUsage := Quantity.NewQuantity 64;
                                Timestamp := 950 |};
                             {| CPUUsage := Quantity.NewMilliQuantity 301;
                                MemoryUsage := Quantity.NewQuantity 32;
                                Timestamp := 990 |} ])
                        100 Fixtures.world0)))
      <= 301
  /\ 32 <= Quantity.Value
             (snd (fst (GetAverageUsage
                          (Fixtures.cluster Fixtures.emptyStatus (Ok []) 1000)
                          (Fixtures.series
                             [ Fixtures.sample 5000 4096;
                               {| CPUUsage := Quantity.NewMilliQuantity 200;
                                  MemoryUsage := Quantity.NewQuantity 64;
                                  Timestamp := 950 |};
                               {| CPUUsage := Quantity.NewMilliQuantity 301;
                                  MemoryUsage := Quantity.NewQuantity 32;
                                  Timestamp := 990 |} ])
                          100 Fixtures.world0)))
        <= 64.
Proof.
  apply (GetAverageUsage_between_extremes
           (Fixtures.cluster Fixtures.emptyStatus (Ok []) 1000)
           (Fixtures.series
              [ Fixtures.sample 5000 4096;
                {| CPUUsage := Quantity.NewMilliQuantity 200;
                   MemoryUsage := Quantity.NewQuantity 64;
                   Timestamp := 950 |};
                {| CPUUsage := Quantity.NewMilliQuantity 301;
                   MemoryUsage := Quantity.NewQuantity 32;
                   Timestamp := 990 |} ])
           100 Fixtures.world0 200 301 32 64).
  - vm_compute; discriminate.
  - cbn. repeat constructor; cbn; lia.
  - vm_compute; reflexivity.
  - vm_compute; reflexivity.
Defined.

(** X6.  The samples taken at or before the cutoff have no influence on
    the averages: [GetAverageUsage] answers the same on the series with
    those samples removed. *)
Theorem GetAverageUsage_ignores_old_samples (cl : Cluster)
  (metrics : WorkloadMetrics) (duration : Z) (w : World) :
  fst (GetAverageUsage cl metrics duration w) =
  fst (GetAverageUsage cl
         {| WorkloadDeployment := WorkloadDeployment metrics;
            Usage := recentSamples (cutoffAt cl w duration) metrics |}
         duration w).
Proof.
  rewrite !GetAverageUsage_closed.
  unfold recentSamples. cbn [Usage].
  set (f := fun usage => cutoffAt cl w duration <? Timestamp usage).
  assert (Hf : forall l, filter f (filter f l) = filter f l).
  { induction l as [|x l IH]; [reflexivity|]. cbn [filter].
    destruct (f x) eqn:Fx; [cbn [filter]; rewrite Fx, IH|]; auto. }
  rewrite !Hf. reflexivity.
Qed.

(* ===================================================================== *)
(** * Analyzer: what a recommendation depends on *)
(* ===================================================================== *)

Lemma sumZ_Permutation (xs ys : list Z) : Permutation xs ys -> sumZ xs = sumZ ys.
Proof. unfold sumZ. induction 1; cbn; lia. Qed.

Lemma maxZ_Permutation (xs ys : list Z) : Permutation xs ys -> maxZ xs = maxZ ys.
Proof. unfold maxZ. induction 1; cbn; lia. Qed.

(** X7.  The CPU and the memory recommendation, reason text included,
    depend only on which CPU readings and which memory readings the
    series holds: two series with the same readings in another order,
    paired otherwise or stamped otherwise, get the same answers. *)
Theorem recommendations_ignore_sample_order (m1 m2 : WorkloadMetrics)
  (policy : Policy) :
  Permutation (cpuValues m1) (cpuValues m2) ->
  Permutation (memValues m1) (memValues m2) ->
  calculateCPURecommendation m1 (Cpu policy)
    = calculateCPURecommendation m2 (Cpu policy)
  /\ calculateMemoryRecommendation m1 (Memory policy)
    = calculateMemoryRecommendation m2 (Memory policy).
Proof.
  intros Hc Hm.
  assert (Hn : List.length (Usage m1) = List.length (Usage m2)).
  { apply Permutation_length in Hc. unfold cpuValues in Hc.
    now rewrite !length_map in Hc. }
  unfold calculateCPURecommendation, calculateMemoryRecommendation.
  rewrite !peakTotal_closed. fold (cpuValues m1) (cpuValues m2)
    (memValues m1) (memValues m2).
  rewrite (sumZ_Permutation _ _ Hc), (maxZ_Permutation _ _ Hc),
    (sumZ_Permutation _ _ Hm), (maxZ_Permutation _ _ Hm), Hn.
  split; reflexivity.
Qed.

(** An instance of X7: the readings 100m/300Mi and 200m/500Mi, and the
    same readings the other way round and paired crosswise. *)
Lemma recommendations_ignore_sample_order_witness :
  calculateCPURecommendation
    (Fixtures.series
       [Fixtures.sample 100 (300 * Fixtures.Mi);
        Fixtures.sample 200 (500 * Fixtures.Mi)])
    (Cpu (Fixtures.policy "100m" "800m" 50 20))
  = calculateCPURecommendation
      (Fixtures.series
         [Fixtures.sample 200 (300 * Fixtures.Mi);
          Fixtures.sample 100 (500 * Fixtures.Mi)])
      (Cpu (Fixtures.policy "100m" "800m" 50 20))
  /\ calculateMemoryRecommendation
       (Fixtures.series
          [Fixtures.sample 100 (300 * Fixtures.Mi);
           Fixtures.sample 200 (500 * Fixtures.Mi)])
       (Memory (Fixtures.policy "100m" "800m" 50 20))
     = calculateMemoryRecommendation
         (Fixtures.series
            [Fixtures.sample 200 (300 * Fixtures.Mi);
             Fixtures.sample 100 (500 * Fixtures.Mi)])
         (Memory (Fixtures.policy "100m" "800m" 50 20)).
Proof.
  apply (recommendations_ignore_sample_order
           (Fixtures.series
              [Fixtures.sample 100 (300 * Fixtures.Mi);
               Fixtures.sample 200 (500 * Fixtures.Mi)])
           (Fixtures.series
              [Fixtures.sample 200 (300 * Fixtures.Mi);
               Fixtures.sample 100 (500 * Fixtures.Mi)])
           (Fixtures.policy "100m" "800m" 50 20)).
  - vm_compute. apply perm_swap.
  - vm_compute. apply Permutation_refl.
Defined.

(** X8.  The upper bound is applied last, so it always holds: with
    bounds that are counts of milli-cores within int64, the CPU request
    never exceeds [Max], also when the policy sets [Min] above [Max], and
    in that case the request is [Max] whatever the usage. *)
Theorem cpu_request_never_above_Max (metrics : WorkloadMetrics)
  (policy : Policy) (lo hi : Quantity.t) :
  Usage metrics <> [] ->
  Quantity.ParseQuantity (Min (Cpu policy)) = Some lo ->
  Quantity.ParseQuantity (Max (Cpu policy)) = Some hi ->
  Int64.in_range (Quantity.MilliValue lo) = true ->
  Int64.in_range (Quantity.MilliValue hi) = true ->
  exists rec,
    GenerateRecommendation metrics policy = Done (Ok rec)
    /\ Quantity.MilliValue (CPURequest rec) <= Quantity.MilliValue hi
    /\ CPURequest rec <= hi
    /\ (Quantity.MilliValue hi < Quantity.MilliValue lo -> CPURequest rec = hi).
Proof.
  intros Hne Hlo Hhi Rlo Rhi.
  destruct (GenerateRecommendation_closed metrics policy lo hi Hne Hlo Hhi)
    as [reason ->].
  rewrite (minMilli_exact _ _ Rlo), (maxMilli_exact _ _ Rhi).
  eexists. split; [reflexivity|]. cbn [CPURequest].
  destruct (ParseQuantity_whole_milli _ _ Hhi) as [_ Ehi].
  rewrite MilliValue_NewMilliQuantity.
  set (t := cpuTarget _ _). unfold clamp.
  split; [lia|]. split.
  - rewrite Ehi at 2. unfold Quantity.NewMilliQuantity. lia.
  - intros Hx. rewrite Ehi at 2. f_equal. lia.
Qed.

(** An instance of X8: bounds 800m..200m, crossed, and a usage of 500m. *)
Lemma cpu_request_never_above_Max_witness :
  exists rec,
    GenerateRecommendation
      (Fixtures.series [Fixtures.sample 500 0])
      (Fixtures.policy "800m" "200m" 70 20) = Done (Ok rec)
    /\ Quantity.MilliValue (CPURequest rec)
       <= Quantity.MilliValue (Quantity.NewMilliQuantity 200)
    /\ CPURequest rec <= Quantity.NewMilliQuantity 200
    /\ (Quantity.MilliValue (Quantity.NewMilliQuantity 200)
        < Quantity.MilliValue (Quantity.NewMilliQuantity 800) ->
        CPURequest rec = Quantity.NewMilliQuantity 200).
Proof.
  apply (cpu_request_never_above_Max
           (Fixtures.series [Fixtures.sample 500 0])
           (Fixtures.policy "800m" "200m" 70 20)
           (Quantity.NewMilliQuantity 800) (Quantity.NewMilliQuantity 200)).
  - discriminate.
  - reflexivity.
  - reflexivity.
  - reflexivity.
  - reflexivity.
Defined.

Lemma sumZ_zero (xs : list Z) : Forall (fun x => x = 0) xs -> sumZ xs = 0.
Proof. unfold sumZ. induction 1; cbn; lia. Qed.

Lemma maxZ_zero (xs : list Z) : Forall (fun x => x = 0) xs -> maxZ xs = 0.
Proof. unfold maxZ. induction 1; cbn; lia. Qed.

Lemma cpuTarget_zero (targetUtilization : Z) :
  1 <= targetUtilization <= 100 -> cpuTarget 0 targetUtilization = 0.
Proof.
  intros H.
  assert (Hall : forallb (fun n => cpuTarget 0 (Z.of_nat n) =? 0) (seq 1 100)
                 = true) by (vm_compute; reflexivity).
  rewrite forallb_forall in Hall.
  specialize (Hall (Z.to_nat targetUtilization)).
  rewrite Z2Nat.id in Hall by lia.
  apply Z.eqb_eq, Hall, in_seq. lia.
Qed.

Lemma memoryTarget_zero (bufferPercent : Z) :
  0 <= bufferPercent <= 100 ->
  Float64.to_int64 (memoryTargetFloat 0 bufferPercent) = 0.
Proof.
  intros H. unfold memoryTargetFloat.
  destruct (bufferMultiplier_positive _ H) as (mc & ec & ->). reflexivity.
Qed.

(** X9.  A series in which every sample reads zero CPU and zero memory,
    as when the containers report neither entry: with bounds
    [Min <= Max] that are counts of milli-cores within int64, a target
    utilization of 1..100 and a buffer of 0..100 percent, the CPU request
    is [Min] and the memory request and the memory limit are both
    zero. *)
Theorem idle_series_gets_the_minimum (metrics : WorkloadMetrics)
  (policy : Policy) (lo hi : Quantity.t) :
  Usage metrics <> [] ->
  Quantity.ParseQuantity (Min (Cpu policy)) = Some lo ->
  Quantity.ParseQuantity (Max (Cpu policy)) = Some hi ->
  Int64.in_range (Quantity.MilliValue lo) = true ->
  Int64.in_range (Quantity.MilliValue hi) = true ->
  Quantity.MilliValue lo <= Quantity.MilliValue hi ->
  1 <= TargetUtilization (Cpu policy) <= 100 ->
  0 <= BufferPercent (Memory policy) <= 100 ->
  Forall (fun u => cpuMilli u = 0 /\ memBytes u = 0) (Usage metrics) ->
  exists rec,
    GenerateRecommendation metrics policy = Done (Ok rec)
    /\ CPURequest rec = lo
    /\ MemoryRequest rec = Quantity.zero
    /\ MemoryLimit rec = Quantity.zero.
Proof.
  intros Hne Hlo Hhi Rlo Rhi Hle Hu Hb Hall.
  destruct (GenerateRecommendation_closed metrics policy lo hi Hne Hlo Hhi)
    as [reason ->].
  rewrite (minMilli_exact _ _ Rlo), (maxMilli_exact _ _ Rhi).
  eexists. split; [reflexivity|].
  cbn [CPURequest MemoryRequest MemoryLimit].
  assert (Hc : sumZ (cpuValues metrics) = 0).
  { apply sumZ_zero. unfold cpuValues. apply Forall_map.
    eapply Forall_impl; [|exact Hall]. cbn. tauto. }
  assert (Hm : maxZ (memValues metrics) = 0).
  { apply maxZ_zero. unfold memValues. apply Forall_map.
    eapply Forall_impl; [|exact Hall]. cbn. tauto. }
  rewrite Hc, Hm, (memoryTarget_zero _ Hb).
  change (Int64.wrap 0) with 0.
  replace (Int64.quot 0 (samples metrics)) with 0
    by (unfold Int64.quot; rewrite Z.quot_0_l;
        [reflexivity | pose proof (samples_pos metrics Hne); lia]).
  rewrite (cpuTarget_zero _ Hu).
  destruct (ParseQuantity_whole_milli _ _ Hlo) as [Plo Elo].
  split; [|split; reflexivity].
  rewrite Elo at 2. f_equal. unfold clamp. lia.
Qed.

(** An instance of X9: three samples without usage, bounds 200m..800m. *)
Lemma idle_series_gets_the_minimum_witness :
  exists rec,
    GenerateRecommendation
      (Fixtures.series
         [Fixtures.sample 0 0; Fixtures.sample 0 0; Fixtures.sample 0 0])
      (Fixtures.policy "200m" "800m" 70 20) = Done (Ok rec)
    /\ CPURequest rec = Quantity.NewMilliQuantity 200
    /\ MemoryRequest rec = Quantity.zero
    /\ MemoryLimit rec = Quantity.zero.
Proof.
  apply (idle_series_gets_the_minimum
           (Fixtures.series
              [Fixtures.sample 0 0; Fixtures.sample 0 0; Fixtures.sample 0 0])
           (Fixtures.policy "200m" "800m" 70 20)
           (Quantity.NewMilliQuantity 200) (Quantity.NewMilliQuantity 800)).
  - discriminate.
  - reflexivity.
  - reflexivity.
  - reflexivity.
  - reflexivity.
  - vm_compute; discriminate.
  - cbn; lia.
  - cbn; lia.
  - repeat constructor.
Defined.

(* ===================================================================== *)
(** * Analyzer: limits and requests against the readings *)
(* ===================================================================== *)

Lemma ltb_true_canonical (ma mb : positive) (ea eb K : Z) :
  Z.pos (digits2_pos ma) = 53 -> Z.pos (digits2_pos mb) = 53 ->
  Float64.ltb (S754_finite false mb eb) (S754_finite false ma ea) = true ->
  0 <= K -> - ea <= K -> - eb <= K ->
  Z.pos mb * 2 ^ (eb + K) <= Z.pos ma * 2 ^ (ea + K).
Proof.
  intros Ha Hb Hlt HK HaK HbK.
  apply (ltb_false_canonical mb ma eb ea K Hb Ha); try assumption.
  unfold Float64.ltb, SFltb in *.
  rewrite SFcompare_antisym.
  destruct (SFcompare (S754_finite false mb eb) (S754_finite false ma ea))
    as [[]|]; try discriminate. reflexivity.
Qed.

(** [math.Max] of two such products is not below the second either. *)
Lemma max_grown_r (t p : Z) (a b : Float64.t) :
  0 <= t -> 0 <= p -> grown t a -> grown p b -> grown p (Float64.max a b).
Proof.
  intros Ht Hp Ha Hb. unfold Float64.max.
  destruct Ha as [->| |ma ea Hma Hea Hva]; destruct Hb as [->| |mb eb Hmb Heb Hvb];
    cbn [Float64.is_pinf Float64.is_nan orb]; try apply grown_inf.
  - cbn. apply grown_zero. reflexivity.
  - cbn. now apply grown_finite.
  - cbn. apply grown_finite; try assumption.
    assert (0 < 2 ^ (ea + 52)) by (apply Z.pow_pos_nonneg; lia). nia.
  - change (Float64.eqb (S754_finite false ma ea) Float64.zero) with false.
    cbn [andb].
    destruct (Float64.ltb (S754_finite false mb eb) (S754_finite false ma ea))
      eqn:Hlt.
    + apply grown_finite; try assumption.
      pose proof (ltb_true_canonical ma mb ea eb 52 Hma Hmb Hlt
                    ltac:(lia) ltac:(lia) ltac:(lia)). lia.
    + now apply grown_finite.
Qed.

Lemma cpuLimit_covers_peak (target peak : Z) :
  0 <= peak ->
  fits_int64 (cpuLimitFloat target peak) = true ->
  peak <= Float64.to_int64 (cpuLimitFloat target peak).
Proof.
  intros Hp Hf. destruct (Z.lt_ge_cases target 0) as [Hn|Ht].
  { exact (cpuLimit_negative_target target peak Hn Hp Hf). }
  apply grown_truncate; [exact Hp| |exact Hf].
  unfold cpuLimitFloat. apply (max_grown_r target peak); try assumption.
  - apply mul_grown; [exact Ht|mantissa_in_range].
  - apply mul_grown; [exact Hp|mantissa_in_range].
Qed.

(** X10.  When the upper CPU bound and every CPU reading are at most
    2^60 milli-cores, the CPU limit is not below any reading of the
    series, also for readings above [Max]: the policy bounds the
    request, not the limit. *)
Theorem cpu_limit_covers_every_reading (metrics : WorkloadMetrics)
  (policy : Policy) (lo hi : Quantity.t) :
  Usage metrics <> [] ->
  Quantity.ParseQuantity (Min (Cpu policy)) = Some lo ->
  Quantity.ParseQuantity (Max (Cpu policy)) = Some hi ->
  Quantity.MilliValue hi <= 2 ^ 60 ->
  Forall (fun u => cpuMilli u <= 2 ^ 60) (Usage metrics) ->
  exists rec,
    GenerateRecommendation metrics policy = Done (Ok rec)
    /\ Forall (fun u => cpuMilli u <= Quantity.MilliValue (CPULimit rec))
         (Usage metrics).
Proof.
  intros Hne Hlo Hhi Hmax Hall.
  destruct (GenerateRecommendation_closed metrics policy lo hi Hne Hlo Hhi)
    as [reason ->].
  eexists. split; [reflexivity|]. cbn [CPULimit].
  rewrite MilliValue_NewMilliQuantity.
  destruct (ParseQuantity_whole_milli _ _ Hlo) as [Plo _].
  destruct (ParseQuantity_whole_milli _ _ Hhi) as [Phi _].
  pose proof (maxZ_nonneg (cpuValues metrics)) as Hp0.
  assert (Hp : maxZ (cpuValues metrics) <= 2 ^ 60).
  { apply maxZ_le; [lia|]. unfold cpuValues. apply Forall_map. exact Hall. }
  set (request := clamp _ _ _).
  assert (Hreq : request <= 2 ^ 60).
  { subst request. unfold clamp.
    rewrite (maxMilli_exact _ _ (in_range_below _ _ (conj Phi Hmax)
                                   ltac:(vm_compute; discriminate))).
    lia. }
  pose proof (cpuLimit_covers_peak request (maxZ (cpuValues metrics)) Hp0
                (cpuLimitFloat_fits _ _ Hreq (conj Hp0 Hp))) as Hcov.
  apply Forall_forall. intros u Hu.
  assert (cpuMilli u <= maxZ (cpuValues metrics))
    by (apply maxZ_ge; unfold cpuValues; now apply in_map).
  lia.
Qed.

(** An instance of X10: readings of 300m and 5000m under bounds
    200m..800m; the limit is 5500m. *)
Lemma cpu_limit_covers_every_reading_witness :
  exists rec,
    GenerateRecommendation
      (Fixtures.series [Fixtures.sample 300 0; Fixtures.sample 5000 0])
      (Fixtures.policy "200m" "800m" 70 20) = Done (Ok rec)
    /\ Forall (fun u => cpuMilli u <= Quantity.MilliValue (CPULimit rec))
         (Usage
            (Fixtures.series [Fixtures.sample 300 0; Fixtures.sample 5000 0])).
Proof.
  apply (cpu_limit_covers_every_reading
           (Fixtures.series [Fixtures.sample 300 0; Fixtures.sample 5000 0])
           (Fixtures.policy "200m" "800m" 70 20)
           (Quantity.NewMilliQuantity 200) (Quantity.NewMilliQuantity 800)).
  - discriminate.
  - reflexivity.
  - reflexivity.
  - vm_compute; discriminate.
  - repeat constructor; vm_compute; discriminate.
Defined.

(** The rounded product of a canonical positive float by a canonical
    constant of [1, 2]: finite, canonical, and not below the first
    factor. *)
Lemma mul_canonical_ge (m1 : positive) (e1 : Z) (mc : positive) (ec : Z) :
  Z.pos (digits2_pos m1) = 53 -> Z.pos (digits2_pos mc) = 53 ->
  -52 <= e1 <= 11 -> -52 <= ec <= 0 ->
  exists m e,
    Float64.mul (S754_finite false m1 e1) (S754_finite false mc ec)
      = S754_finite false m e
    /\ Z.pos (digits2_pos m) = 53
    /\ -52 <= e
    /\ Z.pos m1 * 2 ^ (e1 + 52) <= Z.pos m * 2 ^ (e + 52).
Proof.
  intros H1 Hc He1 Hec.
  pose proof (digits53_bounds m1 H1) as B1.
  pose proof (digits53_bounds mc Hc) as Bc.
  unfold Float64.mul, Float64.prec, Float64.emax. cbn [SFmul xorb].
  set (M := (m1 * mc)%positive).
  assert (HM : Z.pos M = Z.pos m1 * Z.pos mc) by (subst M; lia).
  change (2 ^ 52) with 4503599627370496 in B1, Bc.
  change (2 ^ 53) with 9007199254740992 in B1, Bc.
  assert (BM : 2 ^ 104 <= Z.pos M < 2 ^ 106).
  { change (2 ^ 104) with (4503599627370496 * 4503599627370496).
    change (2 ^ 106) with (9007199254740992 * 9007199254740992). nia. }
  destruct (digits2_pos_spec M) as [Dlo Dhi].
  set (d := Z.pos (digits2_pos M)) in *.
  assert (Hd : 105 <= d <= 106).
  { split.
    - destruct (Z.le_gt_cases 105 d); [assumption|].
      assert (2 ^ d <= 2 ^ 104) by (apply Z.pow_le_mono_r; lia). lia.
    - destruct (Z.le_gt_cases d 106); [assumption|].
      assert (2 ^ 106 <= 2 ^ (d - 1)) by (apply Z.pow_le_mono_r; lia). lia. }
  destruct (binary_round_aux_normal false M (e1 + ec))
    as (m & e & Hm & He & Hlo & _ & Hr); [fold d; lia | fold d; lia |].
  fold d in He, Hlo.
  exists m, e.
  replace (e <=? 971) with true in Hr by (symmetry; apply Z.leb_le; lia).
  split; [exact Hr|]. split; [exact Hm|]. split; [lia|].
  (* the product cut to 53 bits is not below m1 * 2^52 *)
  assert (Hcut : Z.pos m1 * 2 ^ 52 <= Z.pos M / 2 ^ (d - 53) * 2 ^ (d - 53)).
  { assert (Hdd : d = 105 \/ d = 106) by lia. destruct Hdd as [Hdd|Hdd];
      rewrite Hdd in *.
    - change (105 - 53) with 52. change (2 ^ 52) with 4503599627370496.
      assert (Z.pos m1 <= Z.pos M / 4503599627370496)
        by (apply Z.div_le_lower_bound; nia).
      nia.
    - change (106 - 53) with 53. change (106 - 1) with 105 in Dlo.
      assert (2 ^ 52 <= Z.pos M / 2 ^ 53).
      { apply Z.div_le_lower_bound; [reflexivity|].
        change (2 ^ 53 * 2 ^ 52) with (2 ^ 105). exact Dlo. }
      change (2 ^ 52) with 4503599627370496 in *.
      change (2 ^ 53) with 9007199254740992 in *. nia. }
  assert (Hrel : Z.pos m1 * 2 ^ 52 <= Z.pos m * 2 ^ (e - (e1 + ec))) by lia.
  clear Hlo Hcut Dlo Dhi.
  assert (HX : 0 < 2 ^ (e1 + 52)) by (apply Z.pow_pos_nonneg; lia).
  assert (HY : 1 <= 2 ^ (ec + 52))
    by (pose proof (Z.pow_pos_nonneg 2 (ec + 52)); lia).
  assert (E1 : Z.pos m * 2 ^ (e + 52) * 2 ^ 52
               = Z.pos m * 2 ^ (e - (e1 + ec)) * (2 ^ (e1 + 52) * 2 ^ (ec + 52))).
  { rewrite <- (Z.pow_add_r 2 (e1 + 52) (ec + 52)) by lia.
    rewrite <- !Z.mul_assoc.
    rewrite <- (Z.pow_add_r 2 (e + 52) 52) by lia.
    rewrite <- (Z.pow_add_r 2 (e - (e1 + ec)) (e1 + 52 + (ec + 52))) by lia.
    do 2 f_equal. lia. }
  set (R := 2 ^ (e - (e1 + ec))) in *.
  set (X := 2 ^ (e1 + 52)) in *. set (Y := 2 ^ (ec + 52)) in *.
  set (V := Z.pos m * 2 ^ (e + 52)) in *.
  clearbody R X Y V.
  change (2 ^ 52) with 4503599627370496 in *.
  assert (Z.pos m1 * 4503599627370496 * (X * Y) <= Z.pos m * R * (X * Y))
    by (apply Z.mul_le_mono_nonneg_r; nia).
  nia.
Qed.

Lemma memoryTarget_covers_peak (peak bufferPercent : Z) :
  0 <= peak < 2 ^ 53 -> 0 <= bufferPercent <= 100 ->
  peak <= Float64.to_int64 (memoryTargetFloat peak bufferPercent).
Proof.
  intros Hp Hb. unfold memoryTargetFloat.
  destruct (bufferMultiplier_canonical _ Hb) as (mc & ec & -> & Hmc & Hec & Hc).
  destruct (mul_of_int_fits peak mc ec) as (Hf & _ & _ & _);
    [lia | exact Hmc | lia | |].
  { change (2 ^ 114) with (2 ^ 53 * 2 ^ 61).
    assert (0 < Z.pos mc * 2 ^ (ec + 52))
      by (pose proof (Z.pow_pos_nonneg 2 (ec + 52)); nia).
    change (2 ^ 53) with 9007199254740992 in *.
    change (2 ^ 61) with 2305843009213693952. nia. }
  destruct peak as [|p|p]; try lia.
  - cbn. reflexivity.
  - revert Hf.
    destruct (of_int_exact p ltac:(lia)) as (m1 & e1 & -> & H1 & He1 & Hv1).
    destruct (mul_canonical_ge m1 e1 mc ec H1 Hmc ltac:(lia) Hec)
      as (m & e & -> & Hm & He & Hv).
    intros Hf.
    destruct (truncate_ge m e (Z.pos p) He ltac:(lia)) as (z & Hz & Hle).
    now rewrite (to_int64_fits _ z Hf Hz).
Qed.

(** X11.  With a buffer of 0..100 percent and memory readings below 2^53
    bytes, the memory request is not below any reading of the series:
    the rounding of the float product never takes the request under the
    peak. *)
Theorem memory_request_covers_every_reading (metrics : WorkloadMetrics)
  (policy : MemoryPolicy) :
  Usage metrics <> [] ->
  0 <= BufferPercent policy <= 100 ->
  Forall (fun u => memBytes u < 2 ^ 53) (Usage metrics) ->
  exists rec reason,
    calculateMemoryRecommendation metrics policy = Done (rec, reason)
    /\ Forall (fun u => memBytes u <= Quantity.Value (memRequest rec))
         (Usage metrics).
Proof.
  intros Hne Hb Hall.
  destruct (calculateMemoryRecommendation_closed metrics policy Hne)
    as [reason ->].
  do 2 eexists. split; [reflexivity|]. cbn [memRequest].
  rewrite Value_NewQuantity.
  pose proof (maxZ_nonneg (memValues metrics)) as Hp0.
  assert (Hp : maxZ (memValues metrics) < 2 ^ 53).
  { assert (maxZ (memValues metrics) <= 2 ^ 53 - 1); [|lia].
    apply maxZ_le; [lia|]. unfold memValues. apply Forall_map.
    eapply Forall_impl; [|exact Hall]. cbn. intros. lia. }
  pose proof (memoryTarget_covers_peak _ _ (conj Hp0 Hp) Hb) as Hcov.
  apply Forall_forall. intros u Hu.
  assert (memBytes u <= maxZ (memValues metrics))
    by (apply maxZ_ge; unfold memValues; now apply in_map).
  lia.
Qed.

(** An instance of X11: readings of 100 and 60 bytes with a buffer of
    13 percent; the request is 112 bytes. *)
Lemma memory_request_covers_every_reading_witness :
  exists rec reason,
    calculateMemoryRecommendation
      (Fixtures.series [Fixtures.sample 0 100; Fixtures.sample 0 60])
      {| BufferPercent := 13 |} = Done (rec, reason)
    /\ Forall (fun u => memBytes u <= Quantity.Value (memRequest rec))
         (Usage
            (Fixtures.series [Fixtures.sample 0 100; Fixtures.sample 0 60])).
Proof.
  apply (memory_request_covers_every_reading
           (Fixtures.series [Fixtures.sample 0 100; Fixtures.sample 0 60])
           {| BufferPercent := 13 |}).
  - discriminate.
  - cbn; lia.
  - repeat constructor.
Defined.

(* ===================================================================== *)
(** * Controller: what addCondition keeps *)
(* ===================================================================== *)

Lemma updateCondition_positions (cl : Cluster) (conds : list Condition)
  (condType : string) (statusType : ConditionStatus) (reason : string)
  (message : Text) (now : Time) (m : M (list Condition)) :
  updateCondition cl conds condType statusType reason message now = Some m ->
  forall w i c,
    nth_error conds i = Some c ->
    exists c',
      nth_error (fst (m w)) i = Some c'
      /\ Type_ c' = Type_ c
      /\ (Type_ c <> condType -> c' = c).
Proof.
  revert m. induction conds as [|c0 conds IH]; cbn [updateCondition];
    [discriminate|].
  intros m. destruct (String.eqb (Type_ c0) condType) eqn:E.
  - intros [= <-] w i c Hi. unfold bind, ret, Now. cbn [fst].
    destruct i as [|i]; cbn [nth_error] in *.
    + injection Hi as <-. eexists. split; [reflexivity|].
      apply String.eqb_eq in E. split.
      * destruct (negb _); reflexivity.
      * intros Hne. contradiction.
    + eauto.
  - destruct (updateCondition cl conds condType statusType reason message now)
      as [m0|]; [|discriminate].
    intros [= <-] w i c Hi. unfold bind, ret.
    specialize (IH m0 eq_refl w).
    destruct (m0 w) as [conds' w']. cbn [fst] in *.
    destruct i as [|i]; cbn [nth_error] in *.
    + injection Hi as <-. eauto.
    + apply IH. exact Hi.
Qed.

Lemma updateCondition_length (cl : Cluster) (conds : list Condition)
  (condType : string) (statusType : ConditionStatus) (reason : string)
  (message : Text) (now : Time) (m : M (list Condition)) :
  updateCondition cl conds condType statusType reason message now = Some m ->
  forall w, List.length (fst (m w)) = List.length conds.
Proof.
  revert m. induction conds as [|c0 conds IH]; cbn [updateCondition];
    [discriminate|].
  intros m. destruct (String.eqb (Type_ c0) condType) eqn:E.
  - intros [= <-] w. reflexivity.
  - destruct (updateCondition cl conds condType statusType reason message now)
      as [m0|]; [|discriminate].
    intros [= <-] w. unfold bind, ret.
    specialize (IH m0 eq_refl w).
    destruct (m0 w) as [conds' w']. cbn [fst List.length] in *. now rewrite IH.
Qed.

Lemma updateCondition_world (cl : Cluster) (conds : list Condition)
  (condType : string) (statusType : ConditionStatus) (reason : string)
  (message : Text) (now : Time) (m : M (list Condition)) :
  updateCondition cl conds condType statusType reason message now = Some m ->
  forall w, snd (m w) = afterReadings 1 w.
Proof.
  revert m. induction conds as [|c conds IH]; cbn; [discriminate|].
  intros m. destruct (String.eqb (Type_ c) condType).
  - intros [= <-] w. reflexivity.
  - destruct (updateCondition cl conds condType statusType reason message now)
      as [m0|]; [|discriminate].
    intros [= <-] w. unfold bind, ret.
    specialize (IH m0 eq_refl w). destruct (m0 w). exact IH.
Qed.

Lemma findCondition_None (conds : list Condition) (condType : string) :
  findCondition conds condType = None <-> ~ In condType (map Type_ conds).
Proof.
  unfold findCondition. induction conds as [|c conds IH]; cbn.
  - tauto.
  - destruct (String.eqb_spec (Type_ c) condType) as [->|Hne].
    + split; [discriminate|]. intros H. exfalso. apply H. now left.
    + rewrite IH. tauto.
Qed.

(** The types held after [addCondition], in order. *)
Lemma addCondition_types (cl : Cluster) (status : ResourceOptimizerStatus)
  (condType : string) (statusType : ConditionStatus) (reason : string)
  (message : Text) (w : World) :
  map Type_
    (Conditions
       (fst (addCondition cl status condType statusType reason message w)))
  = match findCondition (Conditions status) condType with
    | Some _ => map Type_ (Conditions status)
    | None => map Type_ (Conditions status) ++ [condType]
    end.
Proof.
  unfold addCondition, bind, Now.
  destruct (findCondition (Conditions status) condType) as [c|] eqn:E.
  - destruct (updateCondition_found cl (Conditions status) condType statusType
                reason message (wallClock cl (clockReads w)) c E)
      as (m & Em & _).
    rewrite Em.
    pose proof (updateCondition_positions _ _ _ _ _ _ _ _ Em) as Hp.
    pose proof (updateCondition_length _ _ _ _ _ _ _ _ Em) as Hl.
    match goal with |- context [m ?w0] =>
      specialize (Hp w0); specialize (Hl w0) end.
    destruct (m _) as [conds' w']. cbn [fst Conditions setConditions ret] in *.
    apply nth_error_ext. intros i. rewrite !nth_error_map.
    destruct (nth_error (Conditions status) i) as [c0|] eqn:Hi.
    + destruct (Hp i c0 Hi) as (c' & -> & Ht & _). cbn. now rewrite Ht.
    + apply nth_error_None in Hi.
      replace (nth_error conds' i) with (@None Condition); [reflexivity|].
      symmetry. apply nth_error_None. lia.
  - rewrite (updateCondition_absent _ _ _ _ _ _ _ E).
    cbn [fst ret Conditions setConditions]. now rewrite map_app.
Qed.

Lemma addCondition_world (cl : Cluster) (status : ResourceOptimizerStatus)
  (condType : string) (statusType : ConditionStatus) (reason : string)
  (message : Text) (w : World) :
  snd (addCondition cl status condType statusType reason message w)
  = afterReadings
      (match findCondition (Conditions status) condType with
       | Some _ => 2
       | None => 1
       end) w.
Proof.
  unfold addCondition, bind, Now.
  destruct (findCondition (Conditions status) condType) as [c|] eqn:E.
  - destruct (updateCondition_found cl (Conditions status) condType statusType
                reason message (wallClock cl (clockReads w)) c E)
      as (m & Em & _).
    rewrite Em. pose proof (updateCondition_world _ _ _ _ _ _ _ _ Em) as Hw.
    match goal with |- context [m ?w0] => specialize (Hw w0) end.
    destruct (m _) as [conds' w']. cbn [snd] in *. subst w'. reflexivity.
  - rewrite (updateCondition_absent _ _ _ _ _ _ _ E). reflexivity.
Qed.

Lemma addCondition_LastOptimized (cl : Cluster)
  (status : ResourceOptimizerStatus) (condType : string)
  (statusType : ConditionStatus) (reason : string) (message : Text)
  (w : World) :
  LastOptimized
    (fst (addCondition cl status condType statusType reason message w))
  = LastOptimized status.
Proof.
  unfold addCondition, bind, Now.
  destruct (updateCondition cl (Conditions status) condType statusType reason
              message _) as [m|].
  - destruct (m _). reflexivity.
  - reflexivity.
Qed.

(** X12.  [addCondition] keeps the condition list a map keyed by type: if
    no two conditions share a type before the call, none do after it,
    and the types held afterwards are those held before together with
    the type applied. *)
Theorem addCondition_keeps_types_unique (cl : Cluster)
  (status : ResourceOptimizerStatus) (condType : string)
  (statusType : ConditionStatus) (reason : string) (message : Text)
  (w : World) :
  NoDup (map Type_ (Conditions status)) ->
  NoDup
    (map Type_
       (Conditions
          (fst (addCondition cl status condType statusType reason message w))))
  /\ forall t,
       In t
         (map Type_
            (Conditions
               (fst (addCondition cl status condType statusType reason
                       message w))))
       <-> t = condType \/ In t (map Type_ (Conditions status)).
Proof.
  intros Hnd. rewrite addCondition_types.
  destruct (findCondition (Conditions status) condType) as [c|] eqn:E.
  - split; [exact Hnd|]. intros t. split; [tauto|].
    intros [->|H]; [|exact H].
    unfold findCondition in E. apply find_some in E as [Hin Heq].
    apply String.eqb_eq in Heq. subst condType. now apply in_map.
  - apply findCondition_None in E. split.
    + apply NoDup_app; [exact Hnd|repeat constructor; intros []|].
      intros t Ht [<-|[]]. contradiction.
    + intros t. rewrite in_app_iff. cbn. intuition congruence.
Qed.

(** An instance of X12: OptimizationReady applied to a status holding
    DeploymentReady and Ready. *)
Lemma addCondition_keeps_types_unique_witness :
  NoDup
    (map Type_
       (Conditions
          (fst (addCondition
                  (Fixtures.cluster Cases.settled (Ok []) 1000)
                  Cases.settled "OptimizationReady" ConditionFalse
                  "NoMetricsData"
                  (Lit "Waiting for metrics data to be available")
                  Fixtures.world0))))
  /\ forall t,
       In t
         (map Type_
            (Conditions
               (fst (addCondition
                       (Fixtures.cluster Cases.settled (Ok []) 1000)
                       Cases.settled "OptimizationReady" ConditionFalse
                       "NoMetricsData"
                       (Lit "Waiting for metrics data to be available")
                       Fixtures.world0))))
       <-> t = "OptimizationReady"%string
           \/ In t (map Type_ (Conditions Cases.settled)).
Proof.
  apply (addCondition_keeps_types_unique
           (Fixtures.cluster Cases.settled (Ok []) 1000)
           Cases.settled "OptimizationReady" ConditionFalse "NoMetricsData"
           (Lit "Waiting for metrics data to be available") Fixtures.world0).
  repeat constructor; cbn; intuition discriminate.
Defined.

(** X13.  [addCondition] touches one condition only.  The recommendation
    and lastOptimized are as before; every condition keeps its position
    and its type; and a condition whose type is not the one applied is
    left exactly as it was. *)
Theorem addCondition_leaves_the_rest (cl : Cluster)
  (status : ResourceOptimizerStatus) (condType : string)
  (statusType : ConditionStatus) (reason : string) (message : Text)
  (w : World) :
  CurrentRecommendation
    (fst (addCondition cl status condType statusType reason message w))
  = CurrentRecommendation status
  /\ LastOptimized
       (fst (addCondition cl status condType statusType reason message w))
     = LastOptimized status
  /\ forall i c,
       nth_error (Conditions status) i = Some c ->
       exists c',
         nth_error
           (Conditions
              (fst (addCondition cl status condType statusType reason
                      message w))) i = Some c'
         /\ Type_ c' = Type_ c
         /\ (Type_ c <> condType -> c' = c).
Proof.
  split; [apply addCondition_keeps|].
  split; [apply addCondition_LastOptimized|].
  intros i c Hi. unfold addCondition, bind, Now.
  destruct (updateCondition cl (Conditions status) condType statusType reason
              message (wallClock cl (clockReads w))) as [m|] eqn:E.
  - pose proof (updateCondition_positions _ _ _ _ _ _ _ _ E) as Hp.
    match goal with |- context [m ?w0] => specialize (Hp w0 i c Hi) end.
    destruct (m _) as [conds' w']. cbn [fst Conditions setConditions ret] in *.
    exact Hp.
  - cbn [fst ret Conditions setConditions].
    exists c. split; [|auto].
    rewrite nth_error_app1; [exact Hi|].
    apply nth_error_Some. congruence.
Qed.

(* ===================================================================== *)
(** * Controller: the paths of a pass *)
(* ===================================================================== *)

Lemma addCondition_spec (cl : Cluster) (status : ResourceOptimizerStatus)
  (condType : string) (statusType : ConditionStatus) (reason : string)
  (message : Text) (w : World) :
  exists status' k,
    addCondition cl status condType statusType reason message w
      = (status', afterReadings k w)
    /\ (1 <= k <= 2)%nat
    /\ applied status status' condType statusType reason message.
Proof.
  pose proof (addCondition_world cl status condType statusType reason message w)
    as Hw.
  pose proof (addCondition_keeps cl status condType statusType reason message w)
    as [Hk _].
  pose proof (addCondition_LastOptimized cl status condType statusType reason
                message w) as Hl.
  pose proof (addCondition_sets cl status condType statusType reason message w)
    as Hs.
  pose proof (fun other =>
                addCondition_other cl status condType other statusType reason
                  message w) as Ho.
  destruct (addCondition cl status condType statusType reason message w)
    as [status' w'].
  cbn [fst snd] in *. subst w'.
  exists status'. eexists. split; [reflexivity|]. split.
  - destruct (findCondition (Conditions status) condType); lia.
  - unfold applied. auto.
Qed.

Ltac apply_addCondition st k H :=
  match goal with
  | |- context [addCondition ?c ?s ?t ?v ?r ?m ?w0] =>
      let E := fresh "E" in
      let Hk := fresh "Hk" in
      destruct (addCondition_spec c s t v r m w0) as (st & k & E & Hk & H);
      rewrite E; clear E
  end.

Lemma updateStatus_accepted (cl : Cluster) (ro : ResourceOptimizer)
  (status : ResourceOptimizerStatus) (w : World) :
  updateStatus cl (setStatus ro status) w =
    (statusUpdate cl (setStatus ro status),
     {| clockReads := clockReads w; listCalls := listCalls w;
        events := events w;
        statusWrites := statusWrites w ++ accepted cl ro status |}).
Proof.
  unfold updateStatus, accepted.
  destruct (statusUpdate cl (setStatus ro status)); [|reflexivity].
  rewrite app_nil_r. destruct w; reflexivity.
Qed.

Lemma accepted_length (cl : Cluster) (ro : ResourceOptimizer)
  (status : ResourceOptimizerStatus) :
  (List.length (accepted cl ro status) <= 1)%nat.
Proof. unfold accepted. destruct (statusUpdate _ _); cbn; lia. Qed.

Lemma accepted_In (cl : Cluster) (ro : ResourceOptimizer)
  (status st : ResourceOptimizerStatus) :
  In st (accepted cl ro status) -> st = status.
Proof.
  unfold accepted. destruct (statusUpdate _ _); cbn; [contradiction|].
  intros [<-|[]]. reflexivity.
Qed.

Lemma GenerateRecommendation_nonempty (metrics : WorkloadMetrics)
  (policy : Policy) (err : error) :
  Usage metrics <> [] ->
  GenerateRecommendation metrics policy <> Done (Err err).
Proof.
  intros Hne. unfold GenerateRecommendation.
  destruct (Usage metrics); [contradiction|].
  destruct (calculateCPURecommendation _ _) as [[c cr]|]; [|discriminate].
  destruct (calculateMemoryRecommendation _ _) as [[m mr]|]; discriminate.
Qed.

Lemma branch_optimizer_unreadable (cl : Cluster) (namespace name : string)
  (w : World) (err : error) :
  getOptimizer cl namespace name = Err err ->
  Reconcile cl namespace name w = (Done (noRequeue, IgnoreNotFound err), w).
Proof. intros H. unfold Reconcile. now rewrite H. Qed.

Lemma branch_target_unreadable (cl : Cluster)
  (namespace name : string) (w : World) (ro : ResourceOptimizer)
  (err : error) :
  getOptimizer cl namespace name = Ok ro ->
  getDeployment cl (fst (targetKey ro)) (snd (targetKey ro)) = Err err ->
  IsNotFound err = false ->
  Reconcile cl namespace name w = (Done (noRequeue, Some err), w).
Proof.
  intros Hro Hd Hnf. unfold Reconcile, bind, getDeploymentObject.
  cbn [targetKey fst snd] in Hd. rewrite Hro, Hd. unfold ret. now rewrite Hnf.
Qed.

Lemma branch_target_absent (cl : Cluster) (namespace name : string)
  (w : World) (ro : ResourceOptimizer) (err : error) :
  getOptimizer cl namespace name = Ok ro ->
  getDeployment cl (fst (targetKey ro)) (snd (targetKey ro)) = Err err ->
  IsNotFound err = true ->
  exists status k,
    Reconcile cl namespace name w =
      (Done ({| RequeueAfter := 5 |}, None),
       {| clockReads := k + clockReads w; listCalls := listCalls w;
          events := events w;
          statusWrites := statusWrites w ++ accepted cl ro status |})
    /\ (1 <= k <= 2)%nat
    /\ applied (storedStatus ro) status "DeploymentReady" ConditionFalse
         "TargetNotFound" (Lit "Target Deployment does not exist yet").
Proof.
  intros Hro Hd Hnf. unfold Reconcile, bind, getDeploymentObject.
  cbn [targetKey fst snd] in Hd. rewrite Hro, Hd. unfold ret. rewrite Hnf.
  apply_addCondition st k Happ. rewrite updateStatus_accepted.
  exists st, k. split; [reflexivity|]. split; assumption.
Qed.

Lemma branch_query_failed (cl : Cluster) (namespace name : string)
  (w : World) (ro : ResourceOptimizer) (d : Deployment) (err : error) :
  getOptimizer cl namespace name = Ok ro ->
  getDeployment cl (fst (targetKey ro)) (snd (targetKey ro)) = Ok d ->
  listPodMetrics cl (DeploymentNamespace d) (Selector d) = Err err ->
  exists st1 st2 k,
    Reconcile cl namespace name w =
      (Done ({| RequeueAfter := 10 |}, None),
       {| clockReads := k + clockReads w; listCalls := S (listCalls w);
          events := events w ++ [deploymentFound];
          statusWrites := statusWrites w ++ accepted cl ro st2 |})
    /\ (2 <= k <= 4)%nat
    /\ applied (storedStatus ro) st1 "DeploymentReady" ConditionTrue
         "TargetFound" (Lit "Target Deployment exists")
    /\ applied st1 st2 "OptimizationReady" ConditionFalse "AnalysisFailed"
         (Lit ("failed to get pod metrics: " ++ Error err)).
Proof.
  intros Hro Hd Hq. unfold Reconcile, bind, getDeploymentObject.
  cbn [targetKey fst snd] in Hd. rewrite Hro, Hd.
  unfold bind, recordEvent, ret.
  apply_addCondition st1 k1 Happ1.
  unfold analyzeAndOptimize, bind, CollectWorkloadMetrics, bind, List.
  rewrite Hq. unfold ret. cbn [OptimizerStatus setStatus].
  apply_addCondition st2 k2 Happ2. rewrite updateStatus_accepted.
  exists st1, st2, (k2 + k1)%nat. split.
  - unfold afterReadings. cbn. now rewrite !Nat.add_assoc.
  - split; [lia|]. split; assumption.
Qed.

Lemma branch_no_samples (cl : Cluster) (namespace name : string)
  (w : World) (ro : ResourceOptimizer) (d : Deployment) :
  getOptimizer cl namespace name = Ok ro ->
  getDeployment cl (fst (targetKey ro)) (snd (targetKey ro)) = Ok d ->
  listPodMetrics cl (DeploymentNamespace d) (Selector d) = Ok [] ->
  exists st1 st2 st3 k,
    Reconcile cl namespace name w =
      (Done (match statusUpdate cl (setStatus ro st3) with
             | Some err => (noRequeue, Some err)
             | None => ({| RequeueAfter := 15 |}, None)
             end),
       {| clockReads := k + clockReads w; listCalls := S (listCalls w);
          events := events w ++ [deploymentFound];
          statusWrites := statusWrites w ++ accepted cl ro st3 |})
    /\ (3 <= k <= 6)%nat
    /\ applied (storedStatus ro) st1 "DeploymentReady" ConditionTrue
         "TargetFound" (Lit "Target Deployment exists")
    /\ applied st1 st2 "OptimizationReady" ConditionFalse "NoMetricsData"
         (Lit "Waiting for metrics data to be available")
    /\ applied st2 st3 "Ready" ConditionTrue "AllSubresourcesReady"
         (Lit "All subresources are ready").
Proof.
  intros Hro Hd Hq. unfold Reconcile, bind, getDeploymentObject.
  cbn [targetKey fst snd] in Hd. rewrite Hro, Hd.
  unfold bind, recordEvent, ret.
  apply_addCondition st1 k1 Happ1.
  unfold analyzeAndOptimize, bind, CollectWorkloadMetrics, bind, List.
  rewrite Hq. unfold ret.
  cbn [collectLoop fold_left Usage OptimizerStatus setStatus].
  apply_addCondition st2 k2 Happ2.
  apply_addCondition st3 k3 Happ3. rewrite updateStatus_accepted.
  exists st1, st2, st3, (k3 + (k2 + k1))%nat. split.
  - unfold afterReadings. cbn. rewrite !Nat.add_assoc.
    now destruct (statusUpdate cl (setStatus ro st3)).
  - split; [lia|]. split; [exact Happ1|]. split; [exact Happ2|exact Happ3].
Qed.

Lemma branch_analyzer_panics (cl : Cluster)
  (namespace name : string) (w : World) (ro : ResourceOptimizer)
  (d : Deployment) (items : list PodMetrics) :
  getOptimizer cl namespace name = Ok ro ->
  getDeployment cl (fst (targetKey ro)) (snd (targetKey ro)) = Ok d ->
  listPodMetrics cl (DeploymentNamespace d) (Selector d) = Ok items ->
  items <> [] ->
  GenerateRecommendation
    {| WorkloadDeployment := d; Usage := runningSamples 0 0 items |}
    (SpecPolicy (Spec ro)) = Panic ->
  exists k,
    Reconcile cl namespace name w =
      (Panic,
       {| clockReads := k + clockReads w; listCalls := S (listCalls w);
          events := events w ++ [deploymentFound];
          statusWrites := statusWrites w |})
    /\ (1 <= k <= 2)%nat.
Proof.
  intros Hro Hd Hq Hne Hrec. unfold Reconcile, bind, getDeploymentObject.
  cbn [targetKey fst snd] in Hd. rewrite Hro, Hd.
  unfold bind, recordEvent, ret.
  apply_addCondition st1 k1 Happ1.
  unfold analyzeAndOptimize, bind.
  rewrite (CollectWorkloadMetrics_returns _ _ _ _ Hq).
  pose proof (runningSamples_nonempty items 0 0 Hne) as Hne'.
  set (us := runningSamples 0 0 items) in *.
  destruct us as [|u us]; [contradiction|].
  cbn [Usage Spec setStatus]. rewrite Hrec. unfold ret.
  exists k1. split; [reflexivity|assumption].
Qed.

Lemma branch_recommends (cl : Cluster) (namespace name : string)
  (w : World) (ro : ResourceOptimizer) (d : Deployment)
  (items : list PodMetrics) (rec : Recommendation) :
  getOptimizer cl namespace name = Ok ro ->
  getDeployment cl (fst (targetKey ro)) (snd (targetKey ro)) = Ok d ->
  listPodMetrics cl (DeploymentNamespace d) (Selector d) = Ok items ->
  items <> [] ->
  GenerateRecommendation
    {| WorkloadDeployment := d; Usage := runningSamples 0 0 items |}
    (SpecPolicy (Spec ro)) = Done (Ok rec) ->
  exists st1 st2 st3 k g,
    Reconcile cl namespace name w =
      (Done (match statusUpdate cl (setStatus ro st3) with
             | Some err => (noRequeue, Some err)
             | None => ({| RequeueAfter := 15 |}, None)
             end),
       {| clockReads := k + clockReads w; listCalls := S (listCalls w);
          events :=
            events w ++ [deploymentFound; recommendationGenerated rec];
          statusWrites := statusWrites w ++ accepted cl ro st3 |})
    /\ (4 <= k <= 7)%nat
    /\ (clockReads w < g < k + clockReads w)%nat
    /\ applied (storedStatus ro) st1 "DeploymentReady" ConditionTrue
         "TargetFound" (Lit "Target Deployment exists")
    /\ applied (setRecommendation st1 (recommended rec (wallClock cl g))) st2
         "OptimizationReady" ConditionTrue "RecommendationGenerated"
         (RecReason rec)
    /\ applied st2 st3 "Ready" ConditionTrue "AllSubresourcesReady"
         (Lit "All subresources are ready").
Proof.
  intros Hro Hd Hq Hne Hrec. unfold Reconcile, bind, getDeploymentObject.
  cbn [targetKey fst snd] in Hd. rewrite Hro, Hd.
  unfold bind, recordEvent, ret.
  apply_addCondition st1 k1 Happ1.
  unfold analyzeAndOptimize, bind.
  rewrite (CollectWorkloadMetrics_returns _ _ _ _ Hq).
  pose proof (runningSamples_nonempty items 0 0 Hne) as Hne'.
  set (us := runningSamples 0 0 items) in *.
  destruct us as [|u us]; [contradiction|].
  cbn [Usage Spec setStatus OptimizerStatus]. rewrite Hrec.
  unfold recordEvent, Now, ret, bind.
  cbn [clockReads listCalls events statusWrites afterReadings].
  fold (recommendationGenerated rec).
  fold (recommended rec (wallClock cl (k1 + clockReads w))).
  fold (setRecommendation st1
          (recommended rec (wallClock cl (k1 + clockReads w)))).
  apply_addCondition st2 k2 Happ2.
  apply_addCondition st3 k3 Happ3. rewrite updateStatus_accepted.
  exists st1, st2, st3, (k3 + (k2 + S k1))%nat, (k1 + clockReads w)%nat.
  split.
  - unfold afterReadings. cbn. rewrite <- !app_assoc. cbn [app].
    replace (k3 + (k2 + S (k1 + clockReads w)))%nat
      with (k3 + (k2 + S k1) + clockReads w)%nat by lia.
    now destruct (statusUpdate cl (setStatus ro st3)).
  - split; [lia|]. split; [lia|].
    split; [exact Happ1|]. split; [exact Happ2|exact Happ3].
Qed.

(** Every pass takes one of the seven paths. *)
Lemma Reconcile_path (cl : Cluster) (namespace name : string) (w : World) :
  passPath cl namespace name w (Reconcile cl namespace name w).
Proof.
  destruct (getOptimizer cl namespace name) as [ro|err] eqn:Hro.
  2:{ rewrite (branch_optimizer_unreadable _ _ _ _ _ Hro). now constructor. }
  destruct (getDeployment cl (fst (targetKey ro)) (snd (targetKey ro)))
    as [d|err] eqn:Hd.
  2:{ destruct (IsNotFound err) eqn:Hnf.
      - destruct (branch_target_absent _ _ _ w _ _ Hro Hd Hnf)
          as (st & k & -> & Hk & Ha).
        eapply path_target_absent; eassumption.
      - rewrite (branch_target_unreadable _ _ _ w _ _ Hro Hd Hnf).
        eapply path_target_unreadable; eassumption. }
  destruct (listPodMetrics cl (DeploymentNamespace d) (Selector d))
    as [items|err] eqn:Hq.
  2:{ destruct (branch_query_failed _ _ _ w _ _ _ Hro Hd Hq)
        as (st1 & st2 & k & -> & Hk & H1 & H2).
      eapply path_query_failed; eassumption. }
  destruct items as [|pod items].
  { destruct (branch_no_samples _ _ _ w _ _ Hro Hd Hq)
      as (st1 & st2 & st3 & k & -> & Hk & H1 & H2 & H3).
    eapply path_no_samples; eassumption. }
  assert (Hne : pod :: items <> []) by discriminate.
  destruct (GenerateRecommendation
              {| WorkloadDeployment := d;
                 Usage := runningSamples 0 0 (pod :: items) |}
              (SpecPolicy (Spec ro))) as [[rec|err]|] eqn:Hrec.
  - destruct (branch_recommends _ _ _ w _ _ _ _ Hro Hd Hq Hne Hrec)
      as (st1 & st2 & st3 & k & g & -> & Hk & Hg & H1 & H2 & H3).
    eapply path_recommends; eassumption.
  - exfalso. revert Hrec. apply GenerateRecommendation_nonempty.
    discriminate.
  - destruct (branch_analyzer_panics _ _ _ w _ _ _ Hro Hd Hq Hne Hrec)
      as (k & -> & Hk).
    eapply path_analyzer_panics; eassumption.
Qed.

Ltac by_path cl namespace name w :=
  destruct (Reconcile_path cl namespace name w) as
    [e He|ro' e Hro' Hd Hnf|ro' e st k Hro' Hd Hnf Hk Ha
    |ro' d e st1 st2 k Hro' Hd Hq Hk H1 H2
    |ro' d st1 st2 st3 k Hro' Hd Hq Hk H1 H2 H3
    |ro' d items k Hro' Hd Hq Hne Hrec Hk
    |ro' d items rec st1 st2 st3 k g Hro' Hd Hq Hne Hrec Hk Hg H1 H2 H3].

(* ===================================================================== *)
(** * Controller: what every pass keeps *)
(* ===================================================================== *)

(** X14.  Whatever the cluster answers, one pass persists at most one
    status, records at most two events, sends at most one usage query
    and reads the clock at most seven times; what was persisted and
    recorded before stays in place. *)
Theorem Reconcile_effects_bounded (cl : Cluster) (namespace name : string)
  (w : World) :
  exists written recorded,
    statusWrites (snd (Reconcile cl namespace name w))
      = statusWrites w ++ written
    /\ (List.length written <= 1)%nat
    /\ events (snd (Reconcile cl namespace name w)) = events w ++ recorded
    /\ (List.length recorded <= 2)%nat
    /\ (listCalls w <= listCalls (snd (Reconcile cl namespace name w))
        <= S (listCalls w))%nat
    /\ (clockReads w <= clockReads (snd (Reconcile cl namespace name w))
        <= 7 + clockReads w)%nat.
Proof.
  by_path cl namespace name w;
    cbn [snd statusWrites events listCalls clockReads].
  - exists [], []. rewrite !app_nil_r. cbn. repeat split; lia.
  - exists [], []. rewrite !app_nil_r. cbn. repeat split; lia.
  - exists (accepted cl ro' st), []. rewrite !app_nil_r.
    pose proof (accepted_length cl ro' st). cbn. repeat split; lia.
  - exists (accepted cl ro' st2), [deploymentFound].
    pose proof (accepted_length cl ro' st2). cbn. repeat split; lia.
  - exists (accepted cl ro' st3), [deploymentFound].
    pose proof (accepted_length cl ro' st3). cbn. repeat split; lia.
  - exists [], [deploymentFound]. rewrite app_nil_r. cbn. repeat split; lia.
  - exists (accepted cl ro' st3), [deploymentFound; recommendationGenerated rec].
    pose proof (accepted_length cl ro' st3). cbn. repeat split; lia.
Qed.

(** X15.  A pass returns an error in three cases only: the optimizer
    cannot be read, the target cannot be read, or the final status write
    is rejected, each for a reason other than NotFound in the first two.
    A failed usage query is never returned.  With an error the pass asks
    for no requeue of its own and has persisted nothing. *)
Theorem Reconcile_error_origin (cl : Cluster) (namespace name : string)
  (w w' : World) (r : Result) (err : error) :
  Reconcile cl namespace name w = (Done (r, Some err), w') ->
  r = noRequeue
  /\ statusWrites w' = statusWrites w
  /\ ((getOptimizer cl namespace name = Err err /\ IsNotFound err = false)
      \/ exists ro,
           getOptimizer cl namespace name = Ok ro
           /\ ((getDeployment cl (TargetNamespace (SpecTargetRef (Spec ro)))
                  (TargetName (SpecTargetRef (Spec ro))) = Err err
                /\ IsNotFound err = false)
               \/ exists status,
                    statusUpdate cl (setStatus ro status) = Some err)).
Proof.
  intros H. pose proof (Reconcile_path cl namespace name w) as P.
  rewrite H in P. clear H.
  inversion P as [e He|ro e Hro Hd Hnf|ro e st k Hro Hd Hnf Hk Ha
                  |ro d e st1 st2 k Hro Hd Hq Hk H1 H2
                  |ro d st1 st2 st3 k Hro Hd Hq Hk H1 H2 H3
                  |ro d items k Hro Hd Hq Hne Hrec Hk
                  |ro d items rec st1 st2 st3 k g Hro Hd Hq Hne Hrec Hk Hg H1 H2 H3];
    subst.
  - unfold IgnoreNotFound in *. destruct (IsNotFound e) eqn:Hnf; [discriminate|].
    assert (e = err) by congruence. subst e.
    repeat split; auto.
  - repeat split; auto. right. exists ro. split; [assumption|]. left.
    split; assumption.
  - unfold accepted in *.
    destruct (statusUpdate cl (setStatus ro st3)) as [e|] eqn:Hu;
      [|discriminate].
    assert (r = noRequeue /\ e = err) as [-> ->] by (split; congruence).
    cbn. rewrite app_nil_r. repeat split. right. exists ro.
    split; [assumption|]. right. eauto.
  - unfold accepted in *.
    destruct (statusUpdate cl (setStatus ro st3)) as [e|] eqn:Hu;
      [|discriminate].
    assert (r = noRequeue /\ e = err) as [-> ->] by (split; congruence).
    cbn. rewrite app_nil_r. repeat split. right. exists ro.
    split; [assumption|]. right. eauto.
Qed.

(** An instance of X15: the optimizer cannot be read. *)
Lemma Reconcile_error_origin_witness :
  noRequeue = noRequeue
  /\ statusWrites Fixtures.world0 = statusWrites Fixtures.world0
  /\ ((getOptimizer Cases.unreachable "maintenance" "api-service-optimizer"
         = Err (ErrorString "connection refused")
       /\ IsNotFound (ErrorString "connection refused") = false)
      \/ exists ro,
           getOptimizer Cases.unreachable "maintenance" "api-service-optimizer"
             = Ok ro
           /\ ((getDeployment Cases.unreachable
                  (TargetNamespace (SpecTargetRef (Spec ro)))
                  (TargetName (SpecTargetRef (Spec ro)))
                  = Err (ErrorString "connection refused")
                /\ IsNotFound (ErrorString "connection refused") = false)
               \/ exists status,
                    statusUpdate Cases.unreachable (setStatus ro status)
                      = Some (ErrorString "connection refused"))).
Proof.
  apply (Reconcile_error_origin Cases.unreachable "maintenance"
           "api-service-optimizer" Fixtures.world0 Fixtures.world0 noRequeue
           (ErrorString "connection refused")).
  reflexivity.
Defined.

(** X16.  The requeue a pass asks for when it returns no error tells
    what it met: none, with nothing touched, exactly when the optimizer
    is gone (NotFound); 5 minutes when the target is NotFound; 10 minutes
    when the usage query failed; 15 minutes when the query answered and
    the resulting status was persisted. *)
Theorem Reconcile_requeue_schedule (cl : Cluster) (namespace name : string)
  (w w' : World) (r : Result) :
  Reconcile cl namespace name w = (Done (r, None), w') ->
  (RequeueAfter r = 0 /\ w' = w
   /\ exists err, getOptimizer cl namespace name = Err err
                  /\ IsNotFound err = true)
  \/ exists ro,
       getOptimizer cl namespace name = Ok ro
       /\ ((RequeueAfter r = 5
            /\ exists err,
                 getDeployment cl (TargetNamespace (SpecTargetRef (Spec ro)))
                   (TargetName (SpecTargetRef (Spec ro))) = Err err
                 /\ IsNotFound err = true)
           \/ exists d,
                getDeployment cl (TargetNamespace (SpecTargetRef (Spec ro)))
                  (TargetName (SpecTargetRef (Spec ro))) = Ok d
                /\ ((RequeueAfter r = 10
                     /\ exists err,
                          listPodMetrics cl (DeploymentNamespace d) (Selector d)
                            = Err err)
                    \/ (RequeueAfter r = 15
                        /\ (exists items,
                              listPodMetrics cl (DeploymentNamespace d)
                                (Selector d) = Ok items)
                        /\ exists status,
                             statusWrites w' = statusWrites w ++ [status]))).
Proof.
  intros H. pose proof (Reconcile_path cl namespace name w) as P.
  rewrite H in P. clear H.
  inversion P as [e He|ro e Hro Hd Hnf|ro e st k Hro Hd Hnf Hk Ha
                  |ro d e st1 st2 k Hro Hd Hq Hk H1 H2
                  |ro d st1 st2 st3 k Hro Hd Hq Hk H1 H2 H3
                  |ro d items k Hro Hd Hq Hne Hrec Hk
                  |ro d items rec st1 st2 st3 k g Hro Hd Hq Hne Hrec Hk Hg H1 H2 H3];
    subst.
  - left. unfold IgnoreNotFound in *.
    destruct (IsNotFound e) eqn:Hnf; [|discriminate].
    repeat split; eauto.
  - right. exists ro. split; [assumption|]. left. split; [reflexivity|eauto].
  - right. exists ro. split; [assumption|]. right. exists d.
    split; [assumption|]. left. split; [reflexivity|eauto].
  - right. exists ro. split; [assumption|]. right. exists d.
    split; [assumption|]. right. unfold accepted in *.
    destruct (statusUpdate cl (setStatus ro st3)) as [e|] eqn:Hu;
      [discriminate|].
    assert (Hr : r = {| RequeueAfter := 15 |}) by congruence. subst r.
    split; [reflexivity|]. split; [eauto|]. exists st3. reflexivity.
  - right. exists ro. split; [assumption|]. right. exists d.
    split; [assumption|]. right. unfold accepted in *.
    destruct (statusUpdate cl (setStatus ro st3)) as [e|] eqn:Hu;
      [discriminate|].
    assert (Hr : r = {| RequeueAfter := 15 |}) by congruence. subst r.
    split; [reflexivity|]. split; [eauto|]. exists st3. reflexivity.
Qed.

(** An instance of X16: the target does not exist. *)
Lemma Reconcile_requeue_schedule_witness :
  (RequeueAfter {| RequeueAfter := 5 |} = 0
   /\ snd (Reconcile (Cases.targetMissing Cases.settled) "maintenance"
             "api-service-optimizer" Fixtures.world0) = Fixtures.world0
   /\ exists err,
        getOptimizer (Cases.targetMissing Cases.settled) "maintenance"
          "api-service-optimizer" = Err err
        /\ IsNotFound err = true)
  \/ exists ro,
       getOptimizer (Cases.targetMissing Cases.settled) "maintenance"
         "api-service-optimizer" = Ok ro
       /\ ((RequeueAfter {| RequeueAfter := 5 |} = 5
            /\ exists err,
                 getDeployment (Cases.targetMissing Cases.settled)
                   (TargetNamespace (SpecTargetRef (Spec ro)))
                   (TargetName (SpecTargetRef (Spec ro))) = Err err
                 /\ IsNotFound err = true)
           \/ exists d,
                getDeployment (Cases.targetMissing Cases.settled)
                  (TargetNamespace (SpecTargetRef (Spec ro)))
                  (TargetName (SpecTargetRef (Spec ro))) = Ok d
                /\ ((RequeueAfter {| RequeueAfter := 5 |} = 10
                     /\ exists err,
                          listPodMetrics (Cases.targetMissing Cases.settled)
                            (DeploymentNamespace d) (Selector d) = Err err)
                    \/ (RequeueAfter {| RequeueAfter := 5 |} = 15
                        /\ (exists items,
                              listPodMetrics (Cases.targetMissing Cases.settled)
                                (DeploymentNamespace d) (Selector d) = Ok items)
                        /\ exists status,
                             statusWrites
                               (snd (Reconcile
                                       (Cases.targetMissing Cases.settled)
                                       "maintenance" "api-service-optimizer"
                                       Fixtures.world0))
                             = statusWrites Fixtures.world0 ++ [status]))).
Proof.
  apply (Reconcile_requeue_schedule (Cases.targetMissing Cases.settled)
           "maintenance" "api-service-optimizer" Fixtures.world0
           (snd (Reconcile (Cases.targetMissing Cases.settled) "maintenance"
                   "api-service-optimizer" Fixtures.world0))
           {| RequeueAfter := 5 |}).
  reflexivity.
Defined.

(* ===================================================================== *)
(** * Controller: passes that meet a failure *)
(* ===================================================================== *)

(** X17.  When the target Deployment is NotFound, the pass sets
    DeploymentReady=False/TargetNotFound, leaves OptimizationReady, Ready
    and the recommendation as they were stored, sends no usage query and
    records no event.  It asks for a requeue after 5 minutes and returns
    no error, also when the server rejects the status write. *)
Theorem Reconcile_target_absent (cl : Cluster) (namespace name : string)
  (w : World) (ro : ResourceOptimizer) (err : error) :
  getOptimizer cl namespace name = Ok ro ->
  getDeployment cl (TargetNamespace (SpecTargetRef (Spec ro)))
    (TargetName (SpecTargetRef (Spec ro))) = Err err ->
  IsNotFound err = true ->
  exists w' status c,
    Reconcile cl namespace name w = (Done ({| RequeueAfter := 5 |}, None), w')
    /\ statusWrites w' =
         statusWrites w ++
         match statusUpdate cl (setStatus ro status) with
         | None => [status]
         | Some _ => []
         end
    /\ findCondition (Conditions status) "DeploymentReady" = Some c
    /\ Status c = ConditionFalse
    /\ Reason c = "TargetNotFound"%string
    /\ Message c = Lit "Target Deployment does not exist yet"
    /\ findCondition (Conditions status) "OptimizationReady"
       = findCondition (Conditions (OptimizerStatus ro)) "OptimizationReady"
    /\ findCondition (Conditions status) "Ready"
       = findCondition (Conditions (OptimizerStatus ro)) "Ready"
    /\ CurrentRecommendation status = CurrentRecommendation (OptimizerStatus ro)
    /\ listCalls w' = listCalls w
    /\ events w' = events w.
Proof.
  intros Hro Hd Hnf.
  destruct (branch_target_absent cl namespace name w ro err Hro Hd Hnf)
    as (st & k & -> & _ & Hrec & _ & (c & Hc & Hs & Hr & Hm) & Hother).
  do 2 eexists. exists c. split; [reflexivity|].
  cbn [statusWrites listCalls events]. unfold accepted.
  split; [reflexivity|]. split; [exact Hc|].
  split; [exact Hs|]. split; [exact Hr|]. split; [exact Hm|].
  split; [apply Hother; reflexivity|]. split; [apply Hother; reflexivity|].
  split; [exact Hrec|]. split; reflexivity.
Qed.

(** An instance of X17: the stored status holds DeploymentReady=True and
    Ready=True from an earlier pass. *)
Lemma Reconcile_target_absent_witness :
  exists w' status c,
    Reconcile (Cases.targetMissing Cases.settled) "maintenance"
      "api-service-optimizer" Fixtures.world0
      = (Done ({| RequeueAfter := 5 |}, None), w')
    /\ statusWrites w' =
         statusWrites Fixtures.world0 ++
         match statusUpdate (Cases.targetMissing Cases.settled)
                 (setStatus (Fixtures.optimizer Cases.settled) status) with
         | None => [status]
         | Some _ => []
         end
    /\ findCondition (Conditions status) "DeploymentReady" = Some c
    /\ Status c = ConditionFalse
    /\ Reason c = "TargetNotFound"%string
    /\ Message c = Lit "Target Deployment does not exist yet"
    /\ findCondition (Conditions status) "OptimizationReady"
       = findCondition
           (Conditions (OptimizerStatus (Fixtures.optimizer Cases.settled)))
           "OptimizationReady"
    /\ findCondition (Conditions status) "Ready"
       = findCondition
           (Conditions (OptimizerStatus (Fixtures.optimizer Cases.settled)))
           "Ready"
    /\ CurrentRecommendation status
       = CurrentRecommendation
           (OptimizerStatus (Fixtures.optimizer Cases.settled))
    /\ listCalls w' = listCalls Fixtures.world0
    /\ events w' = events Fixtures.world0.
Proof.
  apply (Reconcile_target_absent (Cases.targetMissing Cases.settled)
           "maintenance" "api-service-optimizer" Fixtures.world0
           (Fixtures.optimizer Cases.settled)
           (NotFoundError "deployments.apps api-service not found")).
  - reflexivity.
  - reflexivity.
  - reflexivity.
Defined.

(** X18.  When the usage query fails, the pass sets DeploymentReady=True
    and OptimizationReady=False/AnalysisFailed, whose message is
    ["failed to get pod metrics: "] followed by the text of the query's
    error; Ready and the recommendation are left as they were stored.
    It asks for a requeue after 10 minutes and returns no error. *)
Theorem Reconcile_query_failure (cl : Cluster) (namespace name : string)
  (w : World) (ro : ResourceOptimizer) (d : Deployment) (err : error) :
  getOptimizer cl namespace name = Ok ro ->
  getDeployment cl (TargetNamespace (SpecTargetRef (Spec ro)))
    (TargetName (SpecTargetRef (Spec ro))) = Ok d ->
  listPodMetrics cl (DeploymentNamespace d) (Selector d) = Err err ->
  exists w' status c1 c2,
    Reconcile cl namespace name w = (Done ({| RequeueAfter := 10 |}, None), w')
    /\ statusWrites w' =
         statusWrites w ++
         match statusUpdate cl (setStatus ro status) with
         | None => [status]
         | Some _ => []
         end
    /\ findCondition (Conditions status) "DeploymentReady" = Some c1
    /\ Status c1 = ConditionTrue
    /\ findCondition (Conditions status) "OptimizationReady" = Some c2
    /\ Status c2 = ConditionFalse
    /\ Reason c2 = "AnalysisFailed"%string
    /\ Message c2 = Lit ("failed to get pod metrics: " ++ Error err)
    /\ findCondition (Conditions status) "Ready"
       = findCondition (Conditions (OptimizerStatus ro)) "Ready"
    /\ CurrentRecommendation status = CurrentRecommendation (OptimizerStatus ro).
Proof.
  intros Hro Hd Hq.
  destruct (branch_query_failed cl namespace name w ro d err
              Hro Hd Hq)
    as (st1 & st2 & k & -> & _
        & (Hrec1 & _ & (c1 & Hc1 & Hs1 & _) & Hother1)
        & (Hrec2 & _ & (c2 & Hc2 & Hs2 & Hr2 & Hm2) & Hother2)).
  do 2 eexists. exists c1, c2. split; [reflexivity|].
  cbn [statusWrites]. unfold accepted.
  split; [reflexivity|].
  split; [rewrite Hother2 by reflexivity; exact Hc1|].
  split; [exact Hs1|]. split; [exact Hc2|]. split; [exact Hs2|].
  split; [exact Hr2|]. split; [exact Hm2|].
  split; [rewrite Hother2, Hother1 by reflexivity; reflexivity|].
  rewrite Hrec2, Hrec1. reflexivity.
Qed.

(** An instance of X18: the metrics API is unavailable. *)
Lemma Reconcile_query_failure_witness :
  exists w' status c1 c2,
    Reconcile
      (Fixtures.cluster Cases.settled
         (Err (ErrorString "metrics API unavailable")) 1000)
      "maintenance" "api-service-optimizer" Fixtures.world0
      = (Done ({| RequeueAfter := 10 |}, None), w')
    /\ statusWrites w' =
         statusWrites Fixtures.world0 ++
         match statusUpdate
                 (Fixtures.cluster Cases.settled
                    (Err (ErrorString "metrics API unavailable")) 1000)
                 (setStatus (Fixtures.optimizer Cases.settled) status) with
         | None => [status]
         | Some _ => []
         end
    /\ findCondition (Conditions status) "DeploymentReady" = Some c1
    /\ Status c1 = ConditionTrue
    /\ findCondition (Conditions status) "OptimizationReady" = Some c2
    /\ Status c2 = ConditionFalse
    /\ Reason c2 = "AnalysisFailed"%string
    /\ Message c2 =
         Lit ("failed to get pod metrics: "
              ++ Error (ErrorString "metrics API unavailable"))
    /\ findCondition (Conditions status) "Ready"
       = findCondition
           (Conditions (OptimizerStatus (Fixtures.optimizer Cases.settled)))
           "Ready"
    /\ CurrentRecommendation status
       = CurrentRecommendation
           (OptimizerStatus (Fixtures.optimizer Cases.settled)).
Proof.
  apply (Reconcile_query_failure
           (Fixtures.cluster Cases.settled
              (Err (ErrorString "metrics API unavailable")) 1000)
           "maintenance" "api-service-optimizer" Fixtures.world0
           (Fixtures.optimizer Cases.settled) Fixtures.deployment
           (ErrorString "metrics API unavailable")).
  - reflexivity.
  - reflexivity.
  - reflexivity.
Defined.

(* ===================================================================== *)
(** * Controller: what a pass persists *)
(* ===================================================================== *)



(** X20.  No pass sets lastOptimized: whatever path it takes, a status
    it persists carries the lastOptimized the optimizer was stored
    with. *)
Theorem Reconcile_never_sets_LastOptimized (cl : Cluster)
  (namespace name : string) (w : World) (ro : ResourceOptimizer)
  (status : ResourceOptimizerStatus) :
  getOptimizer cl namespace name = Ok ro ->
  In status (statusWrites (snd (Reconcile cl namespace name w))) ->
  In status (statusWrites w)
  \/ LastOptimized status = LastOptimized (OptimizerStatus ro).
Proof.
  intros Hro.
  by_path cl namespace name w;
    cbn [snd statusWrites]; try (left; assumption);
    try (assert (ro' = ro) by congruence; subst ro');
    intros Hin; apply in_app_or in Hin as [Hin|Hin]; try (left; assumption);
    right; apply accepted_In in Hin; subst status;
    unfold applied, storedStatus in *.
  - destruct Ha as (_ & -> & _). reflexivity.
  - destruct H1 as (_ & E1 & _), H2 as (_ & E2 & _). congruence.
  - destruct H1 as (_ & E1 & _), H2 as (_ & E2 & _), H3 as (_ & E3 & _).
    congruence.
  - destruct H1 as (_ & E1 & _), H2 as (_ & E2 & _), H3 as (_ & E3 & _).
    cbn [LastOptimized setRecommendation] in E2. congruence.
Qed.

(** An instance of X20: a pass that generates a recommendation for an
    optimizer last optimized at instant 90. *)
Lemma Reconcile_never_sets_LastOptimized_witness :
  In (nth 0
        (statusWrites
           (snd (Reconcile
                   (Fixtures.cluster Cases.settled (Ok Cases.onePod) 1000)
                   "maintenance" "api-service-optimizer" Fixtures.world0)))
        Fixtures.emptyStatus)
     (statusWrites Fixtures.world0)
  \/ LastOptimized
       (nth 0
          (statusWrites
             (snd (Reconcile
                     (Fixtures.cluster Cases.settled (Ok Cases.onePod) 1000)
                     "maintenance" "api-service-optimizer" Fixtures.world0)))
          Fixtures.emptyStatus)
     = LastOptimized (OptimizerStatus (Fixtures.optimizer Cases.settled)).
Proof.
  apply (Reconcile_never_sets_LastOptimized
           (Fixtures.cluster Cases.settled (Ok Cases.onePod) 1000)
           "maintenance" "api-service-optimizer" Fixtures.world0
           (Fixtures.optimizer Cases.settled)).
  - reflexivity.
  - vm_compute. left. reflexivity.
Defined.

(** X21.  No pass takes Ready back: in a status it persists, Ready is
    either exactly the condition that was stored (none, if none was) or
    a condition whose status is True.  A pass that finds the target
    missing or cannot query the usage leaves a stored Ready=True in
    place. *)
Theorem Reconcile_never_lowers_Ready (cl : Cluster)
  (namespace name : string) (w : World) (ro : ResourceOptimizer)
  (status : ResourceOptimizerStatus) :
  getOptimizer cl namespace name = Ok ro ->
  In status (statusWrites (snd (Reconcile cl namespace name w))) ->
  In status (statusWrites w)
  \/ findCondition (Conditions status) "Ready"
     = findCondition (Conditions (OptimizerStatus ro)) "Ready"
  \/ exists c, findCondition (Conditions status) "Ready" = Some c
               /\ Status c = ConditionTrue.
Proof.
  intros Hro.
  by_path cl namespace name w;
    cbn [snd statusWrites]; try (left; assumption);
    try (assert (ro' = ro) by congruence; subst ro');
    intros Hin; apply in_app_or in Hin as [Hin|Hin]; try (left; assumption);
    right; apply accepted_In in Hin; subst status;
    unfold applied, storedStatus in *.
  - left. destruct Ha as (_ & _ & _ & Ho). apply Ho. reflexivity.
  - left. destruct H1 as (_ & _ & _ & O1), H2 as (_ & _ & _ & O2).
    rewrite O2, O1 by reflexivity. reflexivity.
  - right. destruct H3 as (_ & _ & (c & Hc & Hs & _) & _). eauto.
  - right. destruct H3 as (_ & _ & (c & Hc & Hs & _) & _). eauto.
Qed.

(** An instance of X21: the target has disappeared under an optimizer
    stored with Ready=True. *)
Lemma Reconcile_never_lowers_Ready_witness :
  In (nth 0
        (statusWrites
           (snd (Reconcile (Cases.targetMissing Cases.settled)
                   "maintenance" "api-service-optimizer" Fixtures.world0)))
        Fixtures.emptyStatus)
     (statusWrites Fixtures.world0)
  \/ findCondition
       (Conditions
          (nth 0
             (statusWrites
                (snd (Reconcile (Cases.targetMissing Cases.settled)
                        "maintenance" "api-service-optimizer"
                        Fixtures.world0)))
             Fixtures.emptyStatus)) "Ready"
     = findCondition
         (Conditions (OptimizerStatus (Fixtures.optimizer Cases.settled)))
         "Ready"
  \/ exists c,
       findCondition
         (Conditions
            (nth 0
               (statusWrites
                  (snd (Reconcile (Cases.targetMissing Cases.settled)
                          "maintenance" "api-service-optimizer"
                          Fixtures.world0)))
               Fixtures.emptyStatus)) "Ready" = Some c
       /\ Status c = ConditionTrue.
Proof.
  apply (Reconcile_never_lowers_Ready (Cases.targetMissing Cases.settled)
           "maintenance" "api-service-optimizer" Fixtures.world0
           (Fixtures.optimizer Cases.settled)).
  - reflexivity.
  - vm_compute. left. reflexivity.
Defined.

(* ===================================================================== *)
(** * Controller: bounds admitted by the validation pattern *)
(* ===================================================================== *)

Lemma digits_of_pattern (s : string) :
  forall acc,
    digitsThenSuffix s = true ->
    exists n,
      Quantity.digits acc s = (n, EmptyString)
      \/ Quantity.digits acc s = (n, String "m" EmptyString).
Proof.
  induction s as [|c s IH]; intros acc H.
  - exists acc. left. reflexivity.
  - cbn [digitsThenSuffix] in H. cbn [Quantity.digits]. unfold isDigit in H.
    destruct (Quantity.digit c) as [dgt|] eqn:E.
    + apply IH. exact H.
    + destruct s; [|discriminate]. apply Ascii.eqb_eq in H. subst c.
      exists acc. right. reflexivity.
Qed.

(** Every string the validation pattern admits is parsed. *)
Lemma ParseQuantity_of_pattern (s : string) :
  matchesCPUPattern s = true -> exists q, Quantity.ParseQuantity s = Some q.
Proof.
  unfold matchesCPUPattern, Quantity.ParseQuantity.
  destruct s as [|c s]; [discriminate|].
  intros H. apply andb_prop in H as [Hc Hs]. unfold isDigit in Hc.
  destruct (Quantity.digit c) as [dgt|] eqn:E; [|discriminate].
  cbn [Quantity.digits]. rewrite E.
  destruct (digits_of_pattern s (10 * 0 + dgt) Hs) as [n [-> | ->]]; eauto.
Qed.

(** X22.  If the optimizer a pass reads has CPU bounds that match the
    validation pattern of the type, [^([0-9]+m|[0-9]+)$], the pass does
    not panic: [MustParse] accepts both bounds, and the averages are
    never divided by a zero count. *)
Theorem validated_bounds_never_panic (cl : Cluster)
  (namespace name : string) (w : World) :
  (forall ro,
     getOptimizer cl namespace name = Ok ro ->
     matchesCPUPattern (Min (Cpu (SpecPolicy (Spec ro)))) = true
     /\ matchesCPUPattern (Max (Cpu (SpecPolicy (Spec ro)))) = true) ->
  exists result err w',
    Reconcile cl namespace name w = (Done (result, err), w').
Proof.
  intros Hv.
  by_path cl namespace name w;
    try (destruct (statusUpdate cl (setStatus ro' st3)); eauto; fail);
    eauto.
  exfalso. destruct (Hv ro' Hro') as [Hmin Hmax].
  destruct (ParseQuantity_of_pattern _ Hmin) as [lo Hlo].
  destruct (ParseQuantity_of_pattern _ Hmax) as [hi Hhi].
  destruct (GenerateRecommendation_error_iff_empty
              {| WorkloadDeployment := d; Usage := runningSamples 0 0 items |}
              (SpecPolicy (Spec ro')) lo hi Hlo Hhi) as (_ & Hok & _).
  destruct Hok as [rec Hok].
  - cbn [Usage]. now apply runningSamples_nonempty.
  - congruence.
Qed.

(** An instance of X22: bounds 200m and 800m, two pod snapshots. *)
Lemma validated_bounds_never_panic_witness :
  exists result err w',
    Reconcile (Fixtures.cluster Fixtures.emptyStatus (Ok Cases.twoPods) 1000)
      "maintenance" "api-service-optimizer" Fixtures.world0
    = (Done (result, err), w').
Proof.
  apply (validated_bounds_never_panic
           (Fixtures.cluster Fixtures.emptyStatus (Ok Cases.twoPods) 1000)
           "maintenance" "api-service-optimizer" Fixtures.world0).
  intros ro H. injection H as <-. split; reflexivity.
Defined.
